(** * Production scheduler: order lifecycle, allocations and audit log

    A shallow embedding of the PostgreSQL schema and triggers of the
    production scheduler (tables [production_orders], [resources],
    [resource_allocations], [order_events]; triggers
    [update_updated_at_column] and [log_order_status_change]) together with
    the GraphQL operations the React components issue against it
    ([UPDATE_ORDER_STATUS], [UPDATE_RESOURCE_STATUS], [GET_ORDER_BY_ID],
    [GET_RESOURCES]).

    A database is a record of four tables, each a list of rows in insertion
    order.  A statement is a function from a database to a [result]: either
    the database after the statement, or the SQLSTATE class with which the
    statement was rejected; a rejected statement changes nothing.  The
    values that PostgreSQL draws from its environment are arguments of the
    statement: [now] stands for [NOW()], and every [gen_random_uuid()] is an
    identifier handed in by the caller (a collision is then an ordinary
    primary-key violation). *)

From Stdlib Require Import Ascii.
From Stdlib Require SpecFloat.
From stdpp Require Import base tactics option list numbers strings sorting
  pretty.

Local Open Scope Z_scope.

(** ** Value domains *)

(** [UUID] values, as the 128-bit number they encode. *)
Definition uuid := N.
Bind Scope N_scope with uuid.

(** [TIMESTAMPTZ] values, in microseconds since the epoch. *)
Definition timestamptz := Z.

(** [DECIMAL(10,2)] values, in hundredths: [50.00] is [5000]. *)
Definition decimal := Z.

(** [INTERVAL 'n days'] in microseconds. *)
Definition days (n : Z) : Z := n * 86400000000.

Inductive order_status :=
  pending | scheduled | in_progress | completed | cancelled.

Inductive resource_type := machine | worker | material.

Inductive resource_status := available | in_use | maintenance | unavailable.

#[global] Instance order_status_eq_dec : EqDecision order_status.
Proof. solve_decision. Defined.

#[global] Instance resource_type_eq_dec : EqDecision resource_type.
Proof. solve_decision. Defined.

#[global] Instance resource_status_eq_dec : EqDecision resource_status.
Proof. solve_decision. Defined.

(** [JSONB] values, as far as [jsonb_build_object] over text needs them. *)
Inductive jsonb :=
| JString (s : string)
| JObject (fields : list (string * string)).

Definition jsonb_build_object (fields : list (string * string)) : jsonb :=
  JObject fields.

(** ** Rows *)

Module ProductionOrder.
Record row := {
  id : uuid;
  order_number : string;
  product_name : string;
  quantity : Z;
  status : order_status;
  priority : Z;
  scheduled_start : option timestamptz;
  scheduled_end : option timestamptz;
  actual_start : option timestamptz;
  actual_end : option timestamptz;
  notes : option string;
  created_at : timestamptz;
  updated_at : timestamptz
}.
End ProductionOrder.

Module Resource.
Record row := {
  id : uuid;
  name : string;
  type : resource_type;
  status : resource_status;
  capacity : option decimal;
  hourly_cost : option decimal;
  description : option string;
  created_at : timestamptz;
  updated_at : timestamptz
}.
End Resource.

Module ResourceAllocation.
Record row := {
  id : uuid;
  order_id : uuid;
  resource_id : uuid;
  allocated_quantity : decimal;
  start_time : timestamptz;
  end_time : option timestamptz;
  notes : option string;
  created_at : timestamptz;
  updated_at : timestamptz
}.
End ResourceAllocation.

Module OrderEvent.
Record row := {
  id : uuid;
  order_id : uuid;
  event_type : string;
  old_status : option order_status;
  new_status : option order_status;
  changed_by : option string;
  metadata : option jsonb;
  created_at : timestamptz
}.
End OrderEvent.

Record db := {
  production_orders : list ProductionOrder.row;
  resources : list Resource.row;
  resource_allocations : list ResourceAllocation.row;
  order_events : list OrderEvent.row
}.

Definition empty_db : db :=
  {| production_orders := []; resources := [];
     resource_allocations := []; order_events := [] |}.

(** ** Rejected statements *)

(** The SQLSTATE classes the schema can raise. *)
Inductive sqlstate :=
| string_data_right_truncation   (* 22001: value too long for VARCHAR(n) *)
| numeric_value_out_of_range     (* 22003: INTEGER or DECIMAL(10,2) overflow *)
| not_null_violation             (* 23502 *)
| foreign_key_violation          (* 23503 *)
| unique_violation               (* 23505: PRIMARY KEY or UNIQUE *)
| check_violation.               (* 23514: CHECK *)

Inductive result (A : Type) :=
| Ok (a : A)
| Err (e : sqlstate).
Arguments Ok {A} a.
Arguments Err {A} e.

#[global] Instance result_ret : MRet result := λ A a, Ok a.
#[global] Instance result_bind : MBind result := λ A B f m,
  match m with Ok a => f a | Err e => Err e end.

(** [ensure e b] raises [e] unless [b] holds. *)
Definition ensure (e : sqlstate) (b : bool) : result unit :=
  if b then Ok () else Err e.

(** A rejected statement is rolled back: the database stays as it was. *)
Definition after {A} (d : db) (r : result (db * A)) : db :=
  match r with Ok (d', _) => d' | Err _ => d end.

Definition committed (d : db) (r : result db) : db :=
  match r with Ok d' => d' | Err _ => d end.

(** Modelled from the spec: the error taxonomy of its error-handling section,
    which the source does not declare.  Each SQLSTATE is filed under the
    class whose description it meets: an input failing a static invariant
    is a [ValidationError], a violated unique constraint a [DuplicateKey],
    a reference to an absent row a [NotFound]. *)
Inductive Error := ValidationError | DuplicateKey | NotFound.

Definition classify (e : sqlstate) : Error :=
  match e with
  | string_data_right_truncation | numeric_value_out_of_range
  | not_null_violation | check_violation => ValidationError
  | unique_violation => DuplicateKey
  | foreign_key_violation => NotFound
  end.

(** ** Column types *)

Fixpoint all_blank (s : string) : bool :=
  match s with
  | EmptyString => true
  | String c s' => bool_decide (c = " "%char) && all_blank s'
  end.

(** Assignment to a [VARCHAR(n)] column: a longer value is rejected unless
    the excess is blank, in which case it is cut to [n] characters.  A
    string counts one character per element. *)
Definition varchar (n : nat) (s : string) : result string :=
  if bool_decide (String.length s ≤ n)%nat then Ok s
  else if all_blank (String.substring n (String.length s - n) s)
       then Ok (String.substring 0 n s)
       else Err string_data_right_truncation.

(** Assignment to an [INTEGER] column. *)
Definition integer (z : Z) : result Z :=
  _ ← ensure numeric_value_out_of_range
        (bool_decide (- 2 ^ 31 ≤ z < 2 ^ 31));
  Ok z.

(** Assignment to a [DECIMAL(10,2)] column, the value already in hundredths. *)
Definition decimal_10_2 (z : decimal) : result decimal :=
  _ ← ensure numeric_value_out_of_range
        (bool_decide (- 10 ^ 10 < z < 10 ^ 10));
  Ok z.

Definition nullable {A} (f : A → result A) (o : option A) : result (option A) :=
  match o with
  | None => Ok None
  | Some a => a' ← f a; Ok (Some a')
  end.

Definition not_null {A} (o : option A) : result A :=
  match o with
  | None => Err not_null_violation
  | Some a => Ok a
  end.

(** ** Lookups by primary key and foreign-key targets *)

(** The row of a table stored under the key [pk], and the table with the
    rows under [pk] replaced by [NEW]. *)
Definition by_pk {row} (key : row → uuid) (l : list row) (pk : uuid)
  : option row :=
  head (filter (λ r, key r = pk) l).

Definition replace {row} (key : row → uuid) (pk : uuid) (NEW : row)
    (l : list row) : list row :=
  (λ r, if decide (key r = pk) then NEW else r) <$> l.

Definition production_orders_by_pk (d : db) (pk : uuid)
  : option ProductionOrder.row :=
  by_pk ProductionOrder.id (production_orders d) pk.

Definition resources_by_pk (d : db) (pk : uuid) : option Resource.row :=
  by_pk Resource.id (resources d) pk.

Definition order_ids (d : db) : list uuid :=
  ProductionOrder.id <$> production_orders d.

Definition resource_ids (d : db) : list uuid :=
  Resource.id <$> resources d.

Definition allocation_ids (d : db) : list uuid :=
  ResourceAllocation.id <$> resource_allocations d.

Definition event_ids (d : db) : list uuid :=
  OrderEvent.id <$> order_events d.

(** ** Table [production_orders] *)

(** [CHECK (quantity > 0)] and [CHECK (priority BETWEEN 1 AND 5)]. *)
Definition quantity_check (o : ProductionOrder.row) : bool :=
  bool_decide (ProductionOrder.quantity o > 0).

Definition priority_check (o : ProductionOrder.row) : bool :=
  bool_decide (1 ≤ ProductionOrder.priority o ≤ 5).

(** [UNIQUE (order_number)], for a row stored under [pk]: no other row
    carries its order number. *)
Definition order_number_free (d : db) (pk : uuid) (n : string) : Prop :=
  Forall (λ o, ProductionOrder.id o ≠ pk → ProductionOrder.order_number o ≠ n)
         (production_orders d).

#[global] Instance order_number_free_dec d pk n :
  Decision (order_number_free d pk n).
Proof. unfold order_number_free. apply _. Defined.

Definition with_production_orders (l : list ProductionOrder.row) (d : db) : db :=
  {| production_orders := l; resources := resources d;
     resource_allocations := resource_allocations d;
     order_events := order_events d |}.

Definition with_resources (l : list Resource.row) (d : db) : db :=
  {| production_orders := production_orders d; resources := l;
     resource_allocations := resource_allocations d;
     order_events := order_events d |}.

Definition with_resource_allocations (l : list ResourceAllocation.row) (d : db)
  : db :=
  {| production_orders := production_orders d; resources := resources d;
     resource_allocations := l; order_events := order_events d |}.

Definition with_order_events (l : list OrderEvent.row) (d : db) : db :=
  {| production_orders := production_orders d; resources := resources d;
     resource_allocations := resource_allocations d; order_events := l |}.

(** [INSERT INTO production_orders (order_number, product_name, quantity,
    status, priority, scheduled_start, scheduled_end, notes) VALUES (...)];
    [status] and [priority] are [None] where the statement leaves the column
    to its [DEFAULT].  Values are first assigned to their column types, then
    the row is checked, then entered into the unique indexes. *)
Definition insert_production_orders (now : timestamptz) (new_id : uuid)
    (order_number product_name : string) (quantity : Z)
    (status : option order_status) (priority : option Z)
    (scheduled_start scheduled_end : option timestamptz)
    (notes : option string) (d : db) : result db :=
  order_number ← varchar 50 order_number;
  product_name ← varchar 255 product_name;
  quantity ← integer quantity;
  priority ← integer (default 1 priority);
  let NEW := {|
    ProductionOrder.id := new_id;
    ProductionOrder.order_number := order_number;
    ProductionOrder.product_name := product_name;
    ProductionOrder.quantity := quantity;
    ProductionOrder.status := default pending status;
    ProductionOrder.priority := priority;
    ProductionOrder.scheduled_start := scheduled_start;
    ProductionOrder.scheduled_end := scheduled_end;
    ProductionOrder.actual_start := None;
    ProductionOrder.actual_end := None;
    ProductionOrder.notes := notes;
    ProductionOrder.created_at := now;
    ProductionOrder.updated_at := now |} in
  _ ← ensure check_violation (quantity_check NEW && priority_check NEW);
  _ ← ensure unique_violation (bool_decide (new_id ∉ order_ids d));
  _ ← ensure unique_violation
        (bool_decide (order_number_free d new_id order_number));
  Ok (with_production_orders (production_orders d ++ [NEW]) d).

(** ** Table [order_events] *)

Definition insert_order_events (now : timestamptz) (new_id order_id : uuid)
    (event_type : string) (old_status new_status : option order_status)
    (changed_by : option string) (metadata : option jsonb) (d : db)
  : result db :=
  event_type ← varchar 50 event_type;
  changed_by ← nullable (varchar 255) changed_by;
  let NEW := {|
    OrderEvent.id := new_id;
    OrderEvent.order_id := order_id;
    OrderEvent.event_type := event_type;
    OrderEvent.old_status := old_status;
    OrderEvent.new_status := new_status;
    OrderEvent.changed_by := changed_by;
    OrderEvent.metadata := metadata;
    OrderEvent.created_at := now |} in
  _ ← ensure unique_violation (bool_decide (new_id ∉ event_ids d));
  _ ← ensure foreign_key_violation (bool_decide (order_id ∈ order_ids d));
  Ok (with_order_events (order_events d ++ [NEW]) d).

(** ** Triggers *)

(** Rows that carry an [updated_at] column. *)
Class Timestamped (row : Type) := with_updated_at : timestamptz → row → row.

#[global] Instance production_order_timestamped
  : Timestamped ProductionOrder.row := λ t o, {|
    ProductionOrder.id := ProductionOrder.id o;
    ProductionOrder.order_number := ProductionOrder.order_number o;
    ProductionOrder.product_name := ProductionOrder.product_name o;
    ProductionOrder.quantity := ProductionOrder.quantity o;
    ProductionOrder.status := ProductionOrder.status o;
    ProductionOrder.priority := ProductionOrder.priority o;
    ProductionOrder.scheduled_start := ProductionOrder.scheduled_start o;
    ProductionOrder.scheduled_end := ProductionOrder.scheduled_end o;
    ProductionOrder.actual_start := ProductionOrder.actual_start o;
    ProductionOrder.actual_end := ProductionOrder.actual_end o;
    ProductionOrder.notes := ProductionOrder.notes o;
    ProductionOrder.created_at := ProductionOrder.created_at o;
    ProductionOrder.updated_at := t |}.

#[global] Instance resource_timestamped : Timestamped Resource.row := λ t r, {|
    Resource.id := Resource.id r;
    Resource.name := Resource.name r;
    Resource.type := Resource.type r;
    Resource.status := Resource.status r;
    Resource.capacity := Resource.capacity r;
    Resource.hourly_cost := Resource.hourly_cost r;
    Resource.description := Resource.description r;
    Resource.created_at := Resource.created_at r;
    Resource.updated_at := t |}.

#[global] Instance resource_allocation_timestamped
  : Timestamped ResourceAllocation.row := λ t a, {|
    ResourceAllocation.id := ResourceAllocation.id a;
    ResourceAllocation.order_id := ResourceAllocation.order_id a;
    ResourceAllocation.resource_id := ResourceAllocation.resource_id a;
    ResourceAllocation.allocated_quantity :=
      ResourceAllocation.allocated_quantity a;
    ResourceAllocation.start_time := ResourceAllocation.start_time a;
    ResourceAllocation.end_time := ResourceAllocation.end_time a;
    ResourceAllocation.notes := ResourceAllocation.notes a;
    ResourceAllocation.created_at := ResourceAllocation.created_at a;
    ResourceAllocation.updated_at := t |}.

(** [update_updated_at_column()], fired [BEFORE UPDATE ... FOR EACH ROW]:
    [NEW.updated_at = NOW(); RETURN NEW]. *)
Definition update_updated_at_column `{Timestamped row}
    (now : timestamptz) (NEW : row) : row :=
  with_updated_at now NEW.

Inductive tg_op := INSERT | UPDATE | DELETE.

#[global] Instance tg_op_eq_dec : EqDecision tg_op.
Proof. solve_decision. Defined.

(** [log_order_status_change()]; [event_id] is the identifier that the
    insert into [order_events] draws if it runs. *)
Definition log_order_status_change (TG_OP : tg_op) (now : timestamptz)
    (event_id : uuid) (OLD NEW : ProductionOrder.row) (d : db) : result db :=
  if bool_decide (TG_OP = UPDATE
                  ∧ ProductionOrder.status OLD ≠ ProductionOrder.status NEW)
  then
    insert_order_events now event_id (ProductionOrder.id NEW) "status_change"
      (Some (ProductionOrder.status OLD)) (Some (ProductionOrder.status NEW))
      None
      (Some (jsonb_build_object
               [("order_number", ProductionOrder.order_number NEW);
                ("product_name", ProductionOrder.product_name NEW)]))
      d
  else Ok d.

(** ** Updates by primary key *)

(** The [_set] argument of [update_production_orders_by_pk]: one optional
    value per column, [None] for a column the mutation does not mention.
    The key [id] and [created_at] are not offered; [updated_at] is
    overwritten by the trigger whatever is set. *)
Module production_orders_set_input.
Record t := {
  order_number : option string;
  product_name : option string;
  quantity : option Z;
  status : option order_status;
  priority : option Z;
  scheduled_start : option (option timestamptz);
  scheduled_end : option (option timestamptz);
  actual_start : option (option timestamptz);
  actual_end : option (option timestamptz);
  notes : option (option string)
}.

(** [_set: { status: $status }]. *)
Definition only_status (s : order_status) : t := {|
  order_number := None; product_name := None; quantity := None;
  status := Some s; priority := None; scheduled_start := None;
  scheduled_end := None; actual_start := None; actual_end := None;
  notes := None |}.

End production_orders_set_input.

(** One column of a [SET] clause: a column the clause does not mention
    keeps its value; a mentioned one is assigned to the column type. *)
Definition assign {A} (f : A → result A) (old : A) (new : option A)
  : result A :=
  match new with
  | None => Ok old
  | Some v => f v
  end.

(** The [SET] clause: the row [OLD] with the mentioned columns replaced. *)
Definition apply_set (_set : production_orders_set_input.t)
    (OLD : ProductionOrder.row) : result ProductionOrder.row :=
  order_number ← assign (varchar 50) (ProductionOrder.order_number OLD)
                   (production_orders_set_input.order_number _set);
  product_name ← assign (varchar 255) (ProductionOrder.product_name OLD)
                   (production_orders_set_input.product_name _set);
  quantity ← assign integer (ProductionOrder.quantity OLD)
               (production_orders_set_input.quantity _set);
  priority ← assign integer (ProductionOrder.priority OLD)
               (production_orders_set_input.priority _set);
  Ok {|
    ProductionOrder.id := ProductionOrder.id OLD;
    ProductionOrder.order_number := order_number;
    ProductionOrder.product_name := product_name;
    ProductionOrder.quantity := quantity;
    ProductionOrder.status :=
      default (ProductionOrder.status OLD)
              (production_orders_set_input.status _set);
    ProductionOrder.priority := priority;
    ProductionOrder.scheduled_start :=
      default (ProductionOrder.scheduled_start OLD)
              (production_orders_set_input.scheduled_start _set);
    ProductionOrder.scheduled_end :=
      default (ProductionOrder.scheduled_end OLD)
              (production_orders_set_input.scheduled_end _set);
    ProductionOrder.actual_start :=
      default (ProductionOrder.actual_start OLD)
              (production_orders_set_input.actual_start _set);
    ProductionOrder.actual_end :=
      default (ProductionOrder.actual_end OLD)
              (production_orders_set_input.actual_end _set);
    ProductionOrder.notes :=
      default (ProductionOrder.notes OLD)
              (production_orders_set_input.notes _set);
    ProductionOrder.created_at := ProductionOrder.created_at OLD;
    ProductionOrder.updated_at := ProductionOrder.updated_at OLD |}.

(** [update_production_orders_by_pk(pk_columns: {id}, _set)]: the row
    returned, or [None] (GraphQL [null]) when no row has that key.  The
    [BEFORE UPDATE] trigger runs on the new row before it is checked and
    stored; the [AFTER UPDATE] trigger runs on the stored row, inside the
    same statement, so that its failure rejects the update as well. *)
Definition update_production_orders_by_pk (now : timestamptz)
    (event_id pk : uuid) (_set : production_orders_set_input.t) (d : db)
  : result (db * option ProductionOrder.row) :=
  match production_orders_by_pk d pk with
  | None => Ok (d, None)
  | Some OLD =>
    NEW ← apply_set _set OLD;
    let NEW := update_updated_at_column now NEW in
    _ ← ensure check_violation (quantity_check NEW && priority_check NEW);
    _ ← ensure unique_violation
          (bool_decide
             (order_number_free d pk (ProductionOrder.order_number NEW)));
    let d1 :=
      with_production_orders
        (replace ProductionOrder.id pk NEW (production_orders d)) d in
    d2 ← log_order_status_change UPDATE now event_id OLD NEW d1;
    Ok (d2, Some NEW)
  end.

(** ** Table [resources] *)

Definition insert_resources (now : timestamptz) (new_id : uuid)
    (name : string) (type : resource_type) (status : option resource_status)
    (capacity hourly_cost : option decimal) (description : option string)
    (d : db) : result db :=
  name ← varchar 255 name;
  capacity ← nullable decimal_10_2 capacity;
  hourly_cost ← nullable decimal_10_2 hourly_cost;
  let NEW := {|
    Resource.id := new_id;
    Resource.name := name;
    Resource.type := type;
    Resource.status := default available status;
    Resource.capacity := capacity;
    Resource.hourly_cost := hourly_cost;
    Resource.description := description;
    Resource.created_at := now;
    Resource.updated_at := now |} in
  _ ← ensure unique_violation (bool_decide (new_id ∉ resource_ids d));
  Ok (with_resources (resources d ++ [NEW]) d).

Definition set_resource_status (s : resource_status) (r : Resource.row)
  : Resource.row := {|
    Resource.id := Resource.id r;
    Resource.name := Resource.name r;
    Resource.type := Resource.type r;
    Resource.status := s;
    Resource.capacity := Resource.capacity r;
    Resource.hourly_cost := Resource.hourly_cost r;
    Resource.description := Resource.description r;
    Resource.created_at := Resource.created_at r;
    Resource.updated_at := Resource.updated_at r |}.

(** [update_resources_by_pk(pk_columns: {id}, _set: {status})]. *)
Definition update_resources_by_pk (now : timestamptz) (pk : uuid)
    (status : resource_status) (d : db) : result (db * option Resource.row) :=
  match resources_by_pk d pk with
  | None => Ok (d, None)
  | Some OLD =>
    let NEW := update_updated_at_column now (set_resource_status status OLD) in
    Ok (with_resources (replace Resource.id pk NEW (resources d)) d, Some NEW)
  end.

(** ** Table [resource_allocations] *)

(** [UNIQUE (order_id, resource_id, start_time)]. *)
Definition allocation_key (a : ResourceAllocation.row)
  : uuid * uuid * timestamptz :=
  (ResourceAllocation.order_id a, ResourceAllocation.resource_id a,
   ResourceAllocation.start_time a).

(** [INSERT INTO resource_allocations (order_id, resource_id,
    allocated_quantity, start_time, end_time)]; [start_time] may come from a
    nullable column of a [SELECT], and is then held against [NOT NULL]. *)
Definition insert_resource_allocations (now : timestamptz) (new_id : uuid)
    (order_id resource_id : uuid) (allocated_quantity : decimal)
    (start_time end_time : option timestamptz) (d : db) : result db :=
  allocated_quantity ← decimal_10_2 allocated_quantity;
  start_time ← not_null start_time;
  let NEW := {|
    ResourceAllocation.id := new_id;
    ResourceAllocation.order_id := order_id;
    ResourceAllocation.resource_id := resource_id;
    ResourceAllocation.allocated_quantity := allocated_quantity;
    ResourceAllocation.start_time := start_time;
    ResourceAllocation.end_time := end_time;
    ResourceAllocation.notes := None;
    ResourceAllocation.created_at := now;
    ResourceAllocation.updated_at := now |} in
  _ ← ensure unique_violation (bool_decide (new_id ∉ allocation_ids d));
  _ ← ensure unique_violation
        (bool_decide
           (allocation_key NEW ∉ allocation_key <$> resource_allocations d));
  _ ← ensure foreign_key_violation (bool_decide (order_id ∈ order_ids d));
  _ ← ensure foreign_key_violation (bool_decide (resource_id ∈ resource_ids d));
  Ok (with_resource_allocations (resource_allocations d ++ [NEW]) d).

(** ** Statements and runs *)

Inductive statement :=
| INSERT_production_orders (new_id : uuid) (order_number product_name : string)
    (quantity : Z) (status : option order_status) (priority : option Z)
    (scheduled_start scheduled_end : option timestamptz) (notes : option string)
| INSERT_resources (new_id : uuid) (name : string) (type : resource_type)
    (status : option resource_status) (capacity hourly_cost : option decimal)
    (description : option string)
| INSERT_resource_allocations (new_id order_id resource_id : uuid)
    (allocated_quantity : decimal) (start_time end_time : option timestamptz)
| UPDATE_production_orders_by_pk (event_id pk : uuid)
    (_set : production_orders_set_input.t)
| UPDATE_resources_by_pk (pk : uuid) (status : resource_status).

Definition exec (now : timestamptz) (st : statement) (d : db) : result db :=
  match st with
  | INSERT_production_orders i n p q s pr ss se nt =>
      insert_production_orders now i n p q s pr ss se nt d
  | INSERT_resources i n t s c h ds => insert_resources now i n t s c h ds d
  | INSERT_resource_allocations i o r q st en =>
      insert_resource_allocations now i o r q st en d
  | UPDATE_production_orders_by_pk e pk _set =>
      '(d', _) ← update_production_orders_by_pk now e pk _set d; Ok d'
  | UPDATE_resources_by_pk pk s =>
      '(d', _) ← update_resources_by_pk now pk s d; Ok d'
  end.

(** A run issues statements one after the other, each at its own [NOW()]; a
    rejected statement leaves the database as it found it. *)
Fixpoint run (trace : list (timestamptz * statement)) (d : db) : db :=
  match trace with
  | [] => d
  | (now, st) :: trace' => run trace' (committed d (exec now st d))
  end.

(** The clock of a run: every statement is issued strictly later than the
    one before it, and later than [t0]. *)
Fixpoint ticking (t0 : timestamptz) (trace : list (timestamptz * statement))
  : Prop :=
  match trace with
  | [] => True
  | (now, _) :: trace' => t0 < now ∧ ticking now trace'
  end.

(** ** JavaScript values *)

(** An object used as a dictionary, as the list of its keys with their
    values, in the order in which the keys were first assigned. *)
Definition js_get {K V} `{EqDecision K} (k : K) (m : list (K * V)) : option V :=
  snd <$> head (filter (λ kv, kv.1 = k) m).

(** [m[k] = v]: a key the object already has keeps its place. *)
Definition js_set {K V} `{EqDecision K} (k : K) (v : V) (m : list (K * V))
  : list (K * V) :=
  if decide (k ∈ m.*1)
  then (λ kv, if decide (kv.1 = k) then (k, v) else kv) <$> m
  else m ++ [(k, v)].

(** The dictionary that a [forEach] builds when, element after element, it
    reads the entry under the element's key and writes it back changed:
    [step x o] is the value written for the element [x] when the value read
    was [o], [None] standing for [undefined]. *)
Definition js_collect {A K V} `{EqDecision K} (key : A → K)
    (step : A → option V → V) (l : list A) : list (K * V) :=
  foldl (λ m x, js_set (key x) (step x (js_get (key x) m)) m) [] l.

(** [n || 0] on a count that may be [undefined]. *)
Definition js_or_zero (n : option nat) : nat :=
  match n with
  | Some (S n') => S n'
  | Some O | None => O
  end.

(** [s.replace(c, c')] for one-character [c] and [c']: the first occurrence
    only. *)
Fixpoint replace_first (c c' : ascii) (s : string) : string :=
  match s with
  | EmptyString => EmptyString
  | String a s' =>
      if decide (a = c) then String c' s' else String a (replace_first c c' s')
  end.

(** The labels of the enum types, as GraphQL hands them over. *)
Definition order_status_label (s : order_status) : string :=
  match s with
  | pending => "pending"
  | scheduled => "scheduled"
  | in_progress => "in_progress"
  | completed => "completed"
  | cancelled => "cancelled"
  end.

Definition resource_type_label (t : resource_type) : string :=
  match t with
  | machine => "machine"
  | worker => "worker"
  | material => "material"
  end.






(** ** Component [OrdersList] *)

Module OrdersList.
(** The quick status actions rendered for an order: [Schedule] on a
    pending order, [Start] on a scheduled one, [Complete] on one in
    progress. *)
Definition quick_status_actions (status : order_status) : list order_status :=
  (if decide (status = pending) then [scheduled] else [])
  ++ (if decide (status = scheduled) then [in_progress] else [])
  ++ (if decide (status = in_progress) then [completed] else []).

(** [handleStatusChange]: runs [UPDATE_ORDER_STATUS]; an error is caught
    and logged to the console. *)
Definition handleStatusChange (now : timestamptz) (event_id : uuid)
    (orderId : uuid) (newStatus : order_status) (d : db) : db :=
  after d (update_production_orders_by_pk now event_id orderId
             (production_orders_set_input.only_status newStatus) d).
(** [order_by: { priority: desc, scheduled_start: asc }]; ascending order
    puts nulls last. *)
Definition scheduled_start_asc (a b : option timestamptz) : Prop :=
  match a, b with
  | Some x, Some y => x ≤ y
  | Some _, None => True
  | None, Some _ => False
  | None, None => True
  end.

#[global] Instance scheduled_start_asc_dec a b : Decision (scheduled_start_asc a b).
Proof. destruct a, b; simpl; apply _. Defined.

Definition listed_before (o1 o2 : ProductionOrder.row) : Prop :=
  ProductionOrder.priority o2 < ProductionOrder.priority o1
  ∨ (ProductionOrder.priority o1 = ProductionOrder.priority o2
     ∧ scheduled_start_asc (ProductionOrder.scheduled_start o1)
         (ProductionOrder.scheduled_start o2)).

#[global] Instance listed_before_dec : RelDecision listed_before.
Proof. intros o1 o2. unfold listed_before. apply _. Defined.


(** [subData?.production_orders || queryData?.production_orders || []]: an
    array, empty or not, is truthy. *)
Definition orders (subData queryData : option (list ProductionOrder.row))
  : list ProductionOrder.row :=
  match subData, queryData with
  | Some l, _ => l
  | None, Some l => l
  | None, None => []
  end.


Definition getPriorityBadge (priority : Z) : string :=
  if decide (priority >= 4) then "bg-red-500"
  else if decide (priority >= 3) then "bg-orange-500"
  else "bg-blue-500".
End OrdersList.

(** ** Component [ResourcesList] *)

Definition sum_list_Z (l : list Z) : Z := foldr Z.add 0 l.

Module ResourcesList.
(** [resource_allocations_aggregate { aggregate { count sum {
    allocated_quantity } } }] of one resource: the aggregate ranges over
    every allocation row that references the resource; the sum of no rows
    is [null]. *)
Definition allocations_of (d : db) (resource_id : uuid)
  : list ResourceAllocation.row :=
  filter (λ a, ResourceAllocation.resource_id a = resource_id)
         (resource_allocations d).

Definition aggregate_count (d : db) (resource_id : uuid) : nat :=
  length (allocations_of d resource_id).

Definition aggregate_sum (d : db) (resource_id : uuid) : option decimal :=
  match allocations_of d resource_id with
  | [] => None
  | l => Some (sum_list_Z (ResourceAllocation.allocated_quantity <$> l))
  end.

(** An element of [resources] as the component holds it: the fields that
    the GraphQL document selected.  A field that is [null], or [undefined]
    because the document does not select it, is [None]; the component only
    tests such fields for truth.  [sum_allocated_quantity] is
    [resource_allocations_aggregate.aggregate.sum?.allocated_quantity]. *)
Record resource := {
  id : uuid;
  name : string;
  type : resource_type;
  status : resource_status;
  capacity : option decimal;
  hourly_cost : option decimal;
  description : option string;
  count : nat;
  sum_allocated_quantity : option decimal
}.

(** The element that [GET_RESOURCES] returns for a stored resource. *)
Definition GET_RESOURCES (d : db) (r : Resource.row) : resource := {|
  id := Resource.id r;
  name := Resource.name r;
  type := Resource.type r;
  status := Resource.status r;
  capacity := Resource.capacity r;
  hourly_cost := Resource.hourly_cost r;
  description := Resource.description r;
  count := aggregate_count d (Resource.id r);
  sum_allocated_quantity := aggregate_sum d (Resource.id r) |}.

(** The element that [WATCH_RESOURCES] delivers for a stored resource: the
    subscription selects [id], [name], [type], [status] and the count, and
    nothing else. *)
Definition WATCH_RESOURCES (d : db) (r : Resource.row) : resource := {|
  id := Resource.id r;
  name := Resource.name r;
  type := Resource.type r;
  status := Resource.status r;
  capacity := None;
  hourly_cost := None;
  description := None;
  count := aggregate_count d (Resource.id r);
  sum_allocated_quantity := None |}.

(** [subData?.resources || queryData?.resources || []]: what the
    subscription delivered if it has delivered, else what the query
    returned; an array, empty or not, is truthy. *)
Definition resources (subData queryData : option (list resource))
  : list resource :=
  match subData, queryData with
  | Some l, _ => l
  | None, Some l => l
  | None, None => []
  end.

(** [aggregate.sum?.allocated_quantity || 0], as the decimal that the
    number stands for. *)
Definition allocated (resource : resource) : decimal :=
  match sum_allocated_quantity resource with
  | Some q => if decide (q = 0) then 0 else q
  | None => 0
  end.



(** The quick status actions of a resource card: [Set Available] unless
    available, [Maintenance] unless under maintenance. *)
Definition quick_status_actions (status : resource_status)
  : list resource_status :=
  (if decide (status = available) then [] else [available])
  ++ (if decide (status = maintenance) then [] else [maintenance]).

(** [handleStatusChange]: runs [UPDATE_RESOURCE_STATUS]. *)
Definition handleStatusChange (now : timestamptz) (resourceId : uuid)
    (newStatus : resource_status) (d : db) : db :=
  after d (update_resources_by_pk now resourceId newStatus d).
(** The test of [filteredResources]; the filter ['all'] is [None]. *)
Definition passes (typeFilter : option resource_type)
    (statusFilter : option resource_status) (resource : Resource.row) : bool :=
  if bool_decide (typeFilter ≠ None ∧ Some (Resource.type resource) ≠ typeFilter)
  then false
  else if bool_decide (statusFilter ≠ None
                       ∧ Some (Resource.status resource) ≠ statusFilter)
  then false
  else true.

Definition filteredResources (typeFilter : option resource_type)
    (statusFilter : option resource_status) (resources : list Resource.row)
  : list Resource.row :=
  filter (λ r, passes typeFilter statusFilter r = true) resources.

(** [groupedResources]: [if (!grouped[type]) grouped[type] = [];
    grouped[type].push(resource)], resource after resource. *)
Definition group (grouped : list (resource_type * list Resource.row))
    (resource : Resource.row) : list (resource_type * list Resource.row) :=
  let type := Resource.type resource in
  let grouped :=
    match js_get type grouped with
    | None => js_set type [] grouped
    | Some _ => grouped
    end in
  js_set type (default [] (js_get type grouped) ++ [resource]) grouped.

Definition groupedResources (filteredResources : list Resource.row)
  : list (resource_type * list Resource.row) :=
  foldl group [] filteredResources.
End ResourcesList.

(** ** Component [OrderDetails] *)

Module OrderDetails.
(** [order_by: { created_at: desc }]. *)
Definition created_at_desc (e1 e2 : OrderEvent.row) : Prop :=
  OrderEvent.created_at e2 ≤ OrderEvent.created_at e1.

#[global] Instance created_at_desc_dec : RelDecision created_at_desc.
Proof. unfold created_at_desc. intros e1 e2. apply _. Defined.

(** The nested [order_events(order_by: { created_at: desc }, limit: n)]
    of the order [order_id]. *)
Definition order_events_of (d : db) (order_id : uuid) (limit : nat)
  : list OrderEvent.row :=
  take limit
    (merge_sort created_at_desc
       (filter (λ e, OrderEvent.order_id e = order_id) (order_events d))).

Definition resource_allocations_of (d : db) (order_id : uuid)
  : list ResourceAllocation.row :=
  filter (λ a, ResourceAllocation.order_id a = order_id)
         (resource_allocations d).

(** [GET_ORDER_BY_ID]: the order with its allocations and its ten most
    recent events, or [None] when no order has that key. *)
Definition GET_ORDER_BY_ID (d : db) (id : uuid)
  : option (ProductionOrder.row * list ResourceAllocation.row
            * list OrderEvent.row) :=
  o ← production_orders_by_pk d id;
  Some (o, resource_allocations_of d id, order_events_of d id 10).
End OrderDetails.

(** ** Component [Analytics] *)

Module Analytics.
(** [statusCounts[order.status] = (statusCounts[order.status] || 0) + 1],
    order after order; the keys are the status labels. *)
Definition statusCounts (d : db) : list (order_status * nat) :=
  foldl (λ m o,
           let k := ProductionOrder.status o in
           js_set k (js_or_zero (js_get k m) + 1)%nat m)
        [] (production_orders d).

(** [statusData]: the pairs [{ name, value }]. *)
Definition statusData (d : db) : list (string * nat) :=
  (λ kv, (replace_first "_" " " (order_status_label kv.1), kv.2))
    <$> statusCounts d.

(** [typeCounts]: per type, [count] and [active]. *)
Definition count_resource (d : db) (m : list (resource_type * (nat * nat)))
    (resource : Resource.row) : list (resource_type * (nat * nat)) :=
  let type := Resource.type resource in
  let m :=
    match js_get type m with
    | None => js_set type (O, O) m
    | Some _ => m
    end in
  let c := default (O, O) (js_get type m) in
  js_set type
    (S c.1,
     if decide (0 < ResourcesList.aggregate_count d (Resource.id resource))%nat
     then S c.2 else c.2)
    m.

Definition typeCounts (d : db) : list (resource_type * (nat * nat)) :=
  foldl (count_resource d) [] (resources d).

(** [resourceTypeData]: the tuples [{ name, total, active, idle }], [idle]
    being [count - active]. *)
Definition resourceTypeData (d : db) : list (string * nat * nat * Z) :=
  (λ kv, (resource_type_label kv.1, kv.2.1, kv.2.2,
          Z.of_nat kv.2.1 - Z.of_nat kv.2.2))
    <$> typeCounts d.

(** [priorityCounts]: as [statusCounts], keyed by the priority. *)
Definition priorityCounts (d : db) : list (Z * nat) :=
  foldl (λ m o,
           let k := ProductionOrder.priority o in
           js_set k (js_or_zero (js_get k m) + 1)%nat m)
        [] (production_orders d).

Definition by_key (a b : Z * nat) : Prop := a.1 ≤ b.1.

#[global] Instance by_key_dec : RelDecision by_key.
Proof. intros a b. unfold by_key. apply _. Defined.

(** [Object.entries] of an object with number keys: the keys that are array
    indices come first, in ascending order, the others after them in the
    order of their assignment. *)
Definition is_array_index (k : Z) : Prop := 0 ≤ k < 2 ^ 32 - 1.

#[global] Instance is_array_index_dec k : Decision (is_array_index k).
Proof. unfold is_array_index. apply _. Defined.

Definition entries (m : list (Z * nat)) : list (Z * nat) :=
  merge_sort by_key (filter (λ kv, is_array_index kv.1) m)
  ++ filter (λ kv, ¬ is_array_index kv.1) m.

(** [Object.entries(priorityCounts).sort(([a], [b]) => Number(a) -
    Number(b))]. *)
Definition priorityEntries (d : db) : list (Z * nat) :=
  merge_sort by_key (entries (priorityCounts d)).

(** [priorityData]: the pairs [{ name, orders }]. *)
Definition priorityData (d : db) : list (string * nat) :=
  (λ kv, ("Priority " +:+ pretty kv.1, kv.2)) <$> priorityEntries d.

Definition totalOrders (d : db) : nat := length (production_orders d).

Definition totalResources (d : db) : nat := length (resources d).

(** [order_events_aggregate.aggregate.count]. *)
Definition totalEvents (d : db) : nat := length (order_events d).

Definition activeResources (d : db) : nat :=
  length (filter (λ r, 0 < ResourcesList.aggregate_count d (Resource.id r))%nat
            (resources d)).

(** The resource status summary: a count per status, in the order of the
    cards. *)
Definition statusSummary (d : db) : list (resource_status * nat) :=
  (λ s, (s, length (filter (λ r, Resource.status r = s) (resources d))))
    <$> [available; in_use; maintenance; unavailable].
End Analytics.

(** ** Component [Dashboard] *)

Module Dashboard.
Inductive TabType := orders | resources | analytics.

#[global] Instance TabType_eq_dec : EqDecision TabType.
Proof. solve_decision. Defined.

(** The two [useState] cells. *)
Record state := {
  activeTab : TabType;
  selectedOrderId : option uuid
}.

Definition initial : state :=
  {| activeTab := orders; selectedOrderId := None |}.

(** What is on screen: the order list under the orders tab only, the details
    sidebar under [selectedOrderId && activeTab === 'orders'], and the main
    column two or three grid columns wide by [selectedOrderId] alone. *)
Definition orders_list_shown (st : state) : bool :=
  bool_decide (activeTab st = orders).

Definition sidebar_shown (st : state) : bool :=
  bool_decide (is_Some (selectedOrderId st) ∧ activeTab st = orders).

Definition main_columns (st : state) : nat :=
  match selectedOrderId st with Some _ => 2%nat | None => 3%nat end.

(** What the user can do: press a tab, pick an order in the list
    ([onSelectOrder]), close the sidebar ([onClose]). *)
Inductive action :=
| press_tab (tab : TabType)
| onSelectOrder (orderId : uuid)
| onClose.

(** The state after an action, [None] when the control that triggers it is
    not on screen. *)
Definition handle (a : action) (st : state) : option state :=
  match a with
  | press_tab tab => Some {| activeTab := tab; selectedOrderId := None |}
  | onSelectOrder orderId =>
      if orders_list_shown st
      then Some {| activeTab := activeTab st; selectedOrderId := Some orderId |}
      else None
  | onClose =>
      if sidebar_shown st
      then Some {| activeTab := activeTab st; selectedOrderId := None |}
      else None
  end.

Fixpoint session (actions : list action) (st : state) : option state :=
  match actions with
  | [] => Some st
  | a :: actions' => st' ← handle a st; session actions' st'
  end.
End Dashboard.

(** ** The sample data script *)

(** A multi-row [INSERT ... VALUES]: the rows go in one after the other, the
    [i]-th drawing identifier [gen i]; the statement is rejected as a whole
    when one row is. *)
Fixpoint insert_values {A} (ins : uuid → A → db → result db)
    (gen : nat → uuid) (i : nat) (rows : list A) (d : db) : result db :=
  match rows with
  | [] => Ok d
  | v :: rows' => d' ← ins (gen i) v d; insert_values ins gen (S i) rows' d'
  end.

Definition sample_resources
  : list (string * resource_type * resource_status * decimal * decimal * string)
  := [
    ("CNC Machine 01", machine, available, 10000, 5000,
     "High precision CNC machine for metal parts");
    ("CNC Machine 02", machine, available, 10000, 5000, "Standard CNC machine");
    ("Assembly Line A", machine, available, 20000, 3000, "Main assembly line");
    ("Quality Control Station", machine, available, 5000, 2000,
     "Automated quality inspection");
    ("John Smith", worker, available, 800, 2500, "Senior Machine Operator");
    ("Sarah Johnson", worker, available, 800, 2500, "Assembly Line Supervisor");
    ("Mike Williams", worker, available, 800, 2200, "Quality Control Inspector");
    ("Steel Grade A", material, available, 500000, 1500,
     "High-grade steel sheets");
    ("Aluminum Alloy", material, available, 300000, 2000,
     "Aircraft-grade aluminum")
  ].

Definition sample_orders (now : timestamptz)
  : list (string * string * Z * order_status * Z
          * timestamptz * timestamptz * string)
  := [
    ("PO-2024-001", "Industrial Valve Type A", 100, in_progress, 5,
     now, now + days 2, "Urgent order for key client");
    ("PO-2024-002", "Pump Housing Unit", 50, scheduled, 3,
     now + days 1, now + days 3, "Standard production run");
    ("PO-2024-003", "Custom Gear Assembly", 200, pending, 2,
     now + days 3, now + days 7, "Large order - plan carefully");
    ("PO-2024-004", "Pressure Sensor Mount", 150, in_progress, 4,
     now - days 1, now + days 1, "Mid-priority order");
    ("PO-2024-005", "Control Panel Bracket", 75, completed, 3,
     now - days 5, now - days 3, "Completed ahead of schedule")
  ].

(** [SELECT po.id, r.id, q, po.scheduled_start, po.scheduled_end
     FROM production_orders po CROSS JOIN resources r
     WHERE po.order_number = n AND r.name IN names LIMIT k]. *)
Definition select_allocations (d : db) (n : string) (names : list string)
    (q : decimal) (k : nat)
  : list (uuid * uuid * decimal * option timestamptz * option timestamptz) :=
  take k
    (po ← production_orders d;
     r ← resources d;
     if decide (ProductionOrder.order_number po = n ∧ Resource.name r ∈ names)
     then [(ProductionOrder.id po, Resource.id r, q,
            ProductionOrder.scheduled_start po,
            ProductionOrder.scheduled_end po)]
     else []).

(** The script, run in one transaction at [now]; [gen] numbers the
    identifiers it draws. *)
Definition seed (now : timestamptz) (gen : nat → uuid) : result db :=
  d ← insert_values
        (λ i '(name, type, status, capacity, hourly_cost, description),
           insert_resources now i name type (Some status) (Some capacity)
             (Some hourly_cost) (Some description))
        gen 0 sample_resources empty_db;
  d ← insert_values
        (λ i '(order_number, product_name, quantity, status, priority,
               scheduled_start, scheduled_end, notes),
           insert_production_orders now i order_number product_name quantity
             (Some status) (Some priority) (Some scheduled_start)
             (Some scheduled_end) (Some notes))
        gen 9 (sample_orders now) d;
  d ← insert_values
        (λ i '(order_id, resource_id, q, start_time, end_time),
           insert_resource_allocations now i order_id resource_id q
             start_time end_time)
        gen 14
        (select_allocations d "PO-2024-001"
           ["CNC Machine 01"; "John Smith"; "Steel Grade A"] 5000 3)
        d;
  insert_values
    (λ i '(order_id, resource_id, q, start_time, end_time),
       insert_resource_allocations now i order_id resource_id q
         start_time end_time)
    gen 17
    (select_allocations d "PO-2024-002" ["CNC Machine 02"; "Sarah Johnson"]
       2500 2)
    d.

(** The database the sample data script leaves behind when run at time [0]
    with the identifiers [0], [1], [2], ... *)
Definition sample_db : db := committed empty_db (seed 0 N.of_nat).

(** The statements of the script one by one, each with the values it
    inserts, all at the [NOW()] of the one transaction. *)
Definition sample_script : list (timestamptz * statement) :=
  imap (λ i '(name, type, status, capacity, hourly_cost, description),
          (0, INSERT_resources (N.of_nat i) name type (Some status)
                (Some capacity) (Some hourly_cost) (Some description)))
       sample_resources
  ++ imap (λ i '(order_number, product_name, quantity, status, priority,
                 scheduled_start, scheduled_end, notes),
             (0, INSERT_production_orders (N.of_nat (9 + i)) order_number
                   product_name quantity (Some status) (Some priority)
                   (Some scheduled_start) (Some scheduled_end) (Some notes)))
          (sample_orders 0)
  ++ [(0, INSERT_resource_allocations 14 9 0 5000 (Some 0) (Some (days 2)));
      (0, INSERT_resource_allocations 15 9 4 5000 (Some 0) (Some (days 2)));
      (0, INSERT_resource_allocations 16 9 7 5000 (Some 0) (Some (days 2)));
      (0, INSERT_resource_allocations 17 10 1 2500 (Some (days 1))
            (Some (days 3)));
      (0, INSERT_resource_allocations 18 10 5 2500 (Some (days 1))
            (Some (days 3)))].

(** A machine in use: one resource entered as [in_use], one order entered as
    [in_progress], and an allocation of the one to the other that has no
    [end_time] yet. *)
Definition busy_db : db :=
  run [(1, INSERT_resources 1 "CNC-01" machine (Some in_use) (Some 10000)
             (Some 5000) None);
       (2, INSERT_production_orders 2 "PO-001" "Valve" 100 (Some in_progress)
             (Some 5) None None None);
       (3, INSERT_resource_allocations 3 2 1 6000 (Some 3) None)]
      empty_db.

(** ** The constraints of the schema *)

(** A database in which every declared constraint holds: primary keys,
    [UNIQUE], [CHECK] and [REFERENCES]. *)
Definition consistent (d : db) : Prop :=
  NoDup (order_ids d)
  ∧ NoDup (ProductionOrder.order_number <$> production_orders d)
  ∧ Forall (λ o, quantity_check o = true ∧ priority_check o = true)
      (production_orders d)
  ∧ NoDup (resource_ids d)
  ∧ NoDup (allocation_ids d)
  ∧ NoDup (allocation_key <$> resource_allocations d)
  ∧ Forall (λ a, ResourceAllocation.order_id a ∈ order_ids d
                 ∧ ResourceAllocation.resource_id a ∈ resource_ids d)
      (resource_allocations d)
  ∧ NoDup (event_ids d)
  ∧ Forall (λ e, OrderEvent.order_id e ∈ order_ids d) (order_events d).

#[global] Instance consistent_dec d : Decision (consistent d).
Proof. unfold consistent. apply _. Defined.

(** ** Notions of the specification *)

(** The order state machine of the specification: the six transitions it
    allows. *)
Definition allowed_transition (from to : order_status) : bool :=
  match from, to with
  | pending, scheduled | pending, cancelled
  | scheduled, in_progress | scheduled, cancelled
  | in_progress, completed | in_progress, cancelled => true
  | _, _ => false
  end.

Definition terminal (s : order_status) : bool :=
  match s with completed | cancelled => true | _ => false end.

(** An allocation holds its resource over [[start_time, end_time)], without
    end while [end_time] is null. *)
Definition covers (a : ResourceAllocation.row) (t : timestamptz) : Prop :=
  ResourceAllocation.start_time a ≤ t
  ∧ match ResourceAllocation.end_time a with
    | Some e => t < e
    | None => True
    end.

#[global] Instance covers_dec a t : Decision (covers a t).
Proof. unfold covers. destruct (ResourceAllocation.end_time a); apply _. Defined.

(** The quantity of a resource allocated at the instant [t]. *)
Definition allocated_at (d : db) (resource_id : uuid) (t : timestamptz)
  : decimal :=
  sum_list_Z
    (ResourceAllocation.allocated_quantity
       <$> filter (λ a, covers a t) (ResourcesList.allocations_of d resource_id)).


(** The event log of an order, oldest event first. *)
Definition created_at_asc (e1 e2 : OrderEvent.row) : Prop :=
  OrderEvent.created_at e1 ≤ OrderEvent.created_at e2.

#[global] Instance created_at_asc_dec : RelDecision created_at_asc.
Proof. unfold created_at_asc. intros e1 e2. apply _. Defined.

Definition events_of (d : db) (order_id : uuid) : list OrderEvent.row :=
  filter (λ e, OrderEvent.order_id e = order_id) (order_events d).

Definition event_log (d : db) (order_id : uuid) : list OrderEvent.row :=
  merge_sort created_at_asc (events_of d order_id).

(** Replaying a log from the status [s]: a recorded transition applies when
    its old status is the status reached so far, and leads to its new
    status; events that record no transition are passed over.  [None] when
    a transition does not apply. *)
Fixpoint replay (s : order_status) (log : list OrderEvent.row)
  : option order_status :=
  match log with
  | [] => Some s
  | e :: log' =>
      match OrderEvent.old_status e, OrderEvent.new_status e with
      | Some s1, Some s2 => if decide (s1 = s) then replay s2 log' else None
      | _, _ => replay s log'
      end
  end.

(** ** What a run keeps true *)

(** An event logged strictly before another. *)
Definition created_at_before (e1 e2 : OrderEvent.row) : Prop :=
  OrderEvent.created_at e1 < OrderEvent.created_at e2.

#[global] Instance created_at_before_dec : RelDecision created_at_before.
Proof. unfold created_at_before. intros e1 e2. apply _. Defined.

(** The events of the order [order_id], as they lie in the table, lead
    from the status [s0] to the status the order has. *)
Definition replays (s0 : order_status) (order_id : uuid) (d : db) : Prop :=
  ∃ o, production_orders_by_pk d order_id = Some o
       ∧ replay s0 (events_of d order_id) = Some (ProductionOrder.status o).

#[global] Instance ticking_dec t trace : Decision (ticking t trace).
Proof.
  revert t. induction trace as [|[now st] trace IH]; intros t; simpl; apply _.
Defined.

(** The life of one order: entered without a status, then scheduled,
    started, sent back to scheduled, and completed. *)
Definition scenario : list (timestamptz * statement) :=
  [(1, INSERT_production_orders 1 "PO-001" "Valve" 100 None (Some 5)
         None None None);
   (2, UPDATE_production_orders_by_pk 10 1
         (production_orders_set_input.only_status scheduled));
   (3, UPDATE_production_orders_by_pk 11 1
         (production_orders_set_input.only_status in_progress));
   (4, UPDATE_production_orders_by_pk 12 1
         (production_orders_set_input.only_status scheduled));
   (5, UPDATE_production_orders_by_pk 13 1
         (production_orders_set_input.only_status completed))].

(** The time of the last statement of a run that starts after [t0]. *)
Fixpoint last_time (t0 : timestamptz) (trace : list (timestamptz * statement))
  : timestamptz :=
  match trace with
  | [] => t0
  | (now, _) :: trace' => last_time now trace'
  end.

(** Rows whose time stamps are in order up to the time [t]: no row was
    updated before it was created or after [t], no event is later than
    [t]. *)
Definition stamped (t : timestamptz) (d : db) : Prop :=
  Forall (λ o, ProductionOrder.created_at o ≤ ProductionOrder.updated_at o ≤ t)
    (production_orders d)
  ∧ Forall (λ r, Resource.created_at r ≤ Resource.updated_at r ≤ t)
      (resources d)
  ∧ Forall (λ a, ResourceAllocation.created_at a ≤ ResourceAllocation.updated_at a ≤ t)
      (resource_allocations d)
  ∧ Forall (λ e, OrderEvent.created_at e ≤ t) (order_events d).

#[global] Instance stamped_dec t d : Decision (stamped t d).
Proof. unfold stamped. apply _. Defined.

(** An event as [log_order_status_change] writes it: a [status_change] by
    nobody in particular, from one status to a different one, with the
    order's number and product as metadata. *)
Definition status_change (e : OrderEvent.row) : Prop :=
  OrderEvent.event_type e = "status_change"%string
  ∧ OrderEvent.changed_by e = None
  ∧ (∃ s1 s2, OrderEvent.old_status e = Some s1
              ∧ OrderEvent.new_status e = Some s2 ∧ s1 ≠ s2)
  ∧ ∃ n p, OrderEvent.metadata e
           = Some (JObject [("order_number"%string, n);
                            ("product_name"%string, p)]).

(** Stored values within the bounds of their column types. *)
Definition in_integer (z : Z) : Prop := - 2 ^ 31 ≤ z < 2 ^ 31.

Definition in_decimal_10_2 (z : decimal) : Prop := - 10 ^ 10 < z < 10 ^ 10.

Definition fits_columns (d : db) : Prop :=
  Forall (λ o, (String.length (ProductionOrder.order_number o) ≤ 50)%nat
               ∧ (String.length (ProductionOrder.product_name o) ≤ 255)%nat
               ∧ in_integer (ProductionOrder.quantity o)
               ∧ in_integer (ProductionOrder.priority o))
    (production_orders d)
  ∧ Forall (λ r, (String.length (Resource.name r) ≤ 255)%nat
                 ∧ from_option in_decimal_10_2 True (Resource.capacity r)
                 ∧ from_option in_decimal_10_2 True (Resource.hourly_cost r))
      (resources d)
  ∧ Forall (λ a, in_decimal_10_2 (ResourceAllocation.allocated_quantity a))
      (resource_allocations d)
  ∧ Forall (λ e, (String.length (OrderEvent.event_type e) ≤ 50)%nat)
      (order_events d).

#[global] Instance in_integer_dec z : Decision (in_integer z).
Proof. unfold in_integer. apply _. Defined.

#[global] Instance in_decimal_10_2_dec z : Decision (in_decimal_10_2 z).
Proof. unfold in_decimal_10_2. apply _. Defined.

#[global] Instance fits_columns_dec d : Decision (fits_columns d).
Proof.
  unfold fits_columns.
  assert (∀ o : option decimal, Decision (from_option in_decimal_10_2 True o))
    by (intros [z|]; simpl; apply _).
  apply _.
Defined.

(** The row that [log_order_status_change] inserts for an update from [OLD]
    to [NEW]. *)
Definition logged_event (now : timestamptz) (event_id : uuid)
    (OLD NEW : ProductionOrder.row) : OrderEvent.row := {|
  OrderEvent.id := event_id;
  OrderEvent.order_id := ProductionOrder.id NEW;
  OrderEvent.event_type := "status_change";
  OrderEvent.old_status := Some (ProductionOrder.status OLD);
  OrderEvent.new_status := Some (ProductionOrder.status NEW);
  OrderEvent.changed_by := None;
  OrderEvent.metadata :=
    Some (jsonb_build_object
            [("order_number"%string, ProductionOrder.order_number NEW);
             ("product_name"%string, ProductionOrder.product_name NEW)]);
  OrderEvent.created_at := now |}.

(** * Properties *)

(** ** The result monad *)

Lemma bind_Ok {A B} (m : result A) (f : A → result B) (b : B) :
  m ≫= f = Ok b → ∃ a, m = Ok a ∧ f a = Ok b.
Proof. destruct m as [a|e]; [eauto | discriminate]. Qed.

Lemma bind_Err {A B} (m : result A) (f : A → result B) (e : sqlstate) :
  m ≫= f = Err e → m = Err e ∨ ∃ a, m = Ok a ∧ f a = Err e.
Proof.
  destruct m as [a|e']; intros H; [right; eauto | left].
  injection H as ->. reflexivity.
Qed.

Lemma ensure_Ok e b u : ensure e b = Ok u → b = true.
Proof. destruct b; [reflexivity | discriminate]. Qed.

Lemma ensure_Err e b e' : ensure e b = Err e' → e' = e ∧ b = false.
Proof. destruct b; [discriminate | intros [= <-]; auto]. Qed.

Lemma varchar_fits n s : (String.length s ≤ n)%nat → varchar n s = Ok s.
Proof. intros H. unfold varchar. rewrite bool_decide_eq_true_2; auto. Qed.

Lemma varchar_Err n s e : varchar n s = Err e → e = string_data_right_truncation.
Proof.
  unfold varchar. repeat case_match; congruence.
Qed.

Lemma integer_Ok z z' : integer z = Ok z' → z' = z ∧ - 2 ^ 31 ≤ z < 2 ^ 31.
Proof.
  unfold integer. intros H. apply bind_Ok in H as (u & Hu & [= <-]).
  apply ensure_Ok, bool_decide_eq_true in Hu. auto.
Qed.

Lemma pow_2_31 : 2 ^ 31 = 2147483648.
Proof. reflexivity. Qed.

Lemma integer_fits z : - 2 ^ 31 ≤ z < 2 ^ 31 → integer z = Ok z.
Proof. intros H. unfold integer. rewrite bool_decide_eq_true_2; auto. Qed.

Lemma integer_Err z e : integer z = Err e → e = numeric_value_out_of_range.
Proof.
  unfold integer. intros H. apply bind_Err in H as [H | (u & _ & [=])].
  apply ensure_Err in H as [-> _]. reflexivity.
Qed.

Lemma decimal_10_2_Ok z z' :
  decimal_10_2 z = Ok z' → z' = z ∧ - 10 ^ 10 < z < 10 ^ 10.
Proof.
  unfold decimal_10_2. intros H. apply bind_Ok in H as (u & Hu & [= <-]).
  apply ensure_Ok, bool_decide_eq_true in Hu. auto.
Qed.

Lemma decimal_10_2_fits z : - 10 ^ 10 < z < 10 ^ 10 → decimal_10_2 z = Ok z.
Proof. intros H. unfold decimal_10_2. rewrite bool_decide_eq_true_2; auto. Qed.

(** Taking a successful statement apart, bind by bind. *)
Ltac inv_ok :=
  repeat match goal with
  | H : _ ≫= _ = Ok _ |- _ =>
      let a := fresh "x" in
      let Ha := fresh "E" in
      apply bind_Ok in H as (a & Ha & H)
  | H : ensure _ _ = Ok _ |- _ => apply ensure_Ok in H
  | H : bool_decide _ = true |- _ => apply bool_decide_eq_true in H
  | H : _ && _ = true |- _ => apply andb_true_iff in H as [? ?]
  | H : Ok _ = Ok _ |- _ => injection H as H
  | H : Err _ = Ok _ |- _ => discriminate H
  end.

(** ** Lookups by key *)

Section by_pk_lemmas.
Context {row : Type} (key : row → uuid).

Implicit Types (l : list row) (pk : uuid) (r : row).

Lemma by_pk_Some l pk r : by_pk key l pk = Some r → key r = pk ∧ r ∈ l.
Proof.
  unfold by_pk. intros H. apply head_Some_elem_of in H.
  apply list_elem_of_filter in H. exact H.
Qed.

Lemma by_pk_None l pk : by_pk key l pk = None ↔ pk ∉ key <$> l.
Proof.
  unfold by_pk. induction l as [|r l IH].
  - split; [intros _; apply not_elem_of_nil | reflexivity].
  - rewrite filter_cons, fmap_cons, not_elem_of_cons.
    destruct (decide (key r = pk)) as [->|Hne].
    + split; [discriminate | intros [[] _]; reflexivity].
    + rewrite IH. split; [auto | tauto].
Qed.

Lemma by_pk_app_fresh l pk r :
  pk ∉ key <$> l → key r = pk → by_pk key (l ++ [r]) pk = Some r.
Proof.
  intros Hf Hk. apply by_pk_None in Hf. unfold by_pk in *.
  rewrite filter_app. destruct (filter _ l) as [|x xs]; [|discriminate].
  simpl. rewrite filter_cons, decide_True by assumption. reflexivity.
Qed.

Lemma by_pk_app_other l pk r :
  key r ≠ pk → by_pk key (l ++ [r]) pk = by_pk key l pk.
Proof.
  intros Hk. unfold by_pk. rewrite filter_app, filter_cons.
  rewrite (decide_False (P := key r = pk)) by assumption.
  rewrite filter_nil, app_nil_r. reflexivity.
Qed.

Lemma by_pk_replace l pk r NEW :
  by_pk key l pk = Some r → key NEW = pk → by_pk key (replace key pk NEW l) pk = Some NEW.
Proof.
  unfold by_pk, replace. intros H Hk.
  induction l as [|x l IH]; [discriminate|].
  rewrite fmap_cons, filter_cons. rewrite filter_cons in H.
  destruct (decide (key x = pk)) as [Hx|Hx].
  - rewrite decide_True by assumption. reflexivity.
  - rewrite decide_False by assumption. auto.
Qed.

Lemma by_pk_replace_other l pk pk' NEW :
  key NEW = pk → pk' ≠ pk → by_pk key (replace key pk NEW l) pk' = by_pk key l pk'.
Proof.
  unfold by_pk, replace. intros Hk Hne. f_equal.
  induction l as [|x l IH]; [reflexivity|].
  rewrite fmap_cons, !filter_cons, IH.
  destruct (decide (key x = pk)) as [Hx|Hx].
  - rewrite !decide_False by congruence. reflexivity.
  - reflexivity.
Qed.

Lemma keys_replace l pk NEW : key NEW = pk → key <$> replace key pk NEW l = key <$> l.
Proof.
  intros Hk. unfold replace. rewrite <- list_fmap_compose.
  apply list_fmap_ext. intros i x _. simpl.
  destruct (decide (key x = pk)); congruence.
Qed.
End by_pk_lemmas.

(** ** What a successful statement did *)

Lemma insert_order_events_Ok now i oid ty os ns cb md d d' :
  insert_order_events now i oid ty os ns cb md d = Ok d' →
  ∃ e, d' = with_order_events (order_events d ++ [e]) d
       ∧ OrderEvent.id e = i ∧ OrderEvent.order_id e = oid
       ∧ varchar 50 ty = Ok (OrderEvent.event_type e)
       ∧ OrderEvent.old_status e = os ∧ OrderEvent.new_status e = ns
       ∧ OrderEvent.metadata e = md ∧ OrderEvent.created_at e = now
       ∧ (i ∉ event_ids d) ∧ oid ∈ order_ids d.
Proof.
  unfold insert_order_events. intros H. inv_ok. subst d'.
  eexists. split; [reflexivity|]. simpl. auto 10.
Qed.

Lemma log_order_status_change_Ok now eid OLD NEW d d' :
  log_order_status_change UPDATE now eid OLD NEW d = Ok d' →
  (ProductionOrder.status OLD = ProductionOrder.status NEW ∧ d' = d)
  ∨ (ProductionOrder.status OLD ≠ ProductionOrder.status NEW
     ∧ ∃ e, d' = with_order_events (order_events d ++ [e]) d
            ∧ OrderEvent.id e = eid
            ∧ OrderEvent.order_id e = ProductionOrder.id NEW
            ∧ OrderEvent.event_type e = "status_change"%string
            ∧ OrderEvent.old_status e = Some (ProductionOrder.status OLD)
            ∧ OrderEvent.new_status e = Some (ProductionOrder.status NEW)
            ∧ OrderEvent.created_at e = now
            ∧ (eid ∉ event_ids d) ∧ ProductionOrder.id NEW ∈ order_ids d).
Proof.
  unfold log_order_status_change. intros H. case_bool_decide as Hc.
  - destruct Hc as [_ Hne]. right. split; [assumption|].
    apply insert_order_events_Ok in H
      as (e & -> & ? & ? & Hty & ? & ? & ? & ? & ? & ?).
    vm_compute in Hty. injection Hty as Hty.
    exists e. auto 10.
  - left. injection H as <-. split; [|reflexivity].
    destruct (decide (ProductionOrder.status OLD = ProductionOrder.status NEW));
      [assumption|]. exfalso. apply Hc. auto.
Qed.

Lemma apply_set_Ok _set OLD NEW :
  apply_set _set OLD = Ok NEW →
  ProductionOrder.id NEW = ProductionOrder.id OLD
  ∧ ProductionOrder.status NEW
    = default (ProductionOrder.status OLD)
              (production_orders_set_input.status _set)
  ∧ ProductionOrder.created_at NEW = ProductionOrder.created_at OLD.
Proof.
  unfold apply_set. intros H. inv_ok. subst NEW. simpl. auto.
Qed.

Lemma update_production_orders_by_pk_None now eid pk _set d :
  production_orders_by_pk d pk = None →
  update_production_orders_by_pk now eid pk _set d = Ok (d, None).
Proof. unfold update_production_orders_by_pk. intros ->. reflexivity. Qed.

Lemma update_production_orders_by_pk_Ok now eid pk _set d d' r :
  update_production_orders_by_pk now eid pk _set d = Ok (d', r) →
  (production_orders_by_pk d pk = None ∧ d' = d ∧ r = None)
  ∨ ∃ OLD NEW d1,
      production_orders_by_pk d pk = Some OLD ∧ r = Some NEW
      ∧ ProductionOrder.id NEW = pk
      ∧ ProductionOrder.status NEW
        = default (ProductionOrder.status OLD)
                  (production_orders_set_input.status _set)
      ∧ ProductionOrder.created_at NEW = ProductionOrder.created_at OLD
      ∧ ProductionOrder.updated_at NEW = now
      ∧ quantity_check NEW = true ∧ priority_check NEW = true
      ∧ order_number_free d pk (ProductionOrder.order_number NEW)
      ∧ d1 = with_production_orders
               (replace ProductionOrder.id pk NEW (production_orders d)) d
      ∧ log_order_status_change UPDATE now eid OLD NEW d1 = Ok d'.
Proof.
  unfold update_production_orders_by_pk.
  destruct (production_orders_by_pk d pk) as [OLD|] eqn:Hpk.
  - intros H. right. inv_ok. subst.
    pose proof (by_pk_Some _ _ _ _ Hpk) as [Hid _].
    apply apply_set_Ok in E as (Hi & Hs & Hc).
    eexists OLD, _, _. split; [reflexivity|]. split; [reflexivity|].
    simpl. repeat split; try eassumption; try congruence.
  - intros [= <- <-]. left. auto.
Qed.

Lemma update_resources_by_pk_Ok now pk s d d' r :
  update_resources_by_pk now pk s d = Ok (d', r) →
  production_orders d' = production_orders d
  ∧ resource_allocations d' = resource_allocations d
  ∧ order_events d' = order_events d
  ∧ resource_ids d' = resource_ids d.
Proof.
  unfold update_resources_by_pk.
  destruct (resources_by_pk d pk) as [OLD|] eqn:Hpk.
  - intros [= <- <-]. simpl. repeat split.
    unfold resource_ids. simpl. apply keys_replace. simpl.
    apply by_pk_Some in Hpk as [? _]. assumption.
  - intros [= <- <-]. auto.
Qed.

Lemma insert_production_orders_Ok now i n p q s pr ss se nt d d' :
  insert_production_orders now i n p q s pr ss se nt d = Ok d' →
  ∃ NEW, d' = with_production_orders (production_orders d ++ [NEW]) d
         ∧ ProductionOrder.id NEW = i
         ∧ ProductionOrder.status NEW = default pending s
         ∧ ProductionOrder.created_at NEW = now
         ∧ ProductionOrder.updated_at NEW = now
         ∧ quantity_check NEW = true ∧ priority_check NEW = true
         ∧ (i ∉ order_ids d)
         ∧ order_number_free d i (ProductionOrder.order_number NEW).
Proof.
  unfold insert_production_orders. intros H. inv_ok. subst d'.
  eexists. split; [reflexivity|]. simpl. auto 10.
Qed.

Lemma insert_resources_Ok now i n t s c h ds d d' :
  insert_resources now i n t s c h ds d = Ok d' →
  ∃ NEW, d' = with_resources (resources d ++ [NEW]) d
         ∧ Resource.id NEW = i ∧ i ∉ resource_ids d.
Proof.
  unfold insert_resources. intros H. inv_ok. subst d'.
  eexists. split; [reflexivity|]. simpl. auto.
Qed.

Lemma insert_resource_allocations_Ok now i o r q st en d d' :
  insert_resource_allocations now i o r q st en d = Ok d' →
  ∃ NEW, d' = with_resource_allocations (resource_allocations d ++ [NEW]) d
         ∧ ResourceAllocation.id NEW = i
         ∧ ResourceAllocation.order_id NEW = o
         ∧ ResourceAllocation.resource_id NEW = r
         ∧ ResourceAllocation.allocated_quantity NEW = q
         ∧ st = Some (ResourceAllocation.start_time NEW)
         ∧ ResourceAllocation.end_time NEW = en
         ∧ (i ∉ allocation_ids d)
         ∧ (allocation_key NEW ∉ allocation_key <$> resource_allocations d)
         ∧ o ∈ order_ids d ∧ r ∈ resource_ids d.
Proof.
  unfold insert_resource_allocations. intros H. inv_ok. subst d'.
  apply decimal_10_2_Ok in E as [-> _].
  destruct st as [t|]; [|discriminate]. injection E0 as <-.
  eexists. split; [reflexivity|]. simpl. auto 15.
Qed.

(** ** Every statement keeps the constraints of the schema *)

Lemma NoDup_fmap_eq {A B} `{EqDecision B} (f : A → B) (l : list A) x y :
  NoDup (f <$> l) → x ∈ l → y ∈ l → f x = f y → x = y.
Proof.
  induction l as [|a l IH]; intros Hnd Hx Hy Hf.
  - apply elem_of_nil in Hx as [].
  - rewrite fmap_cons in Hnd. apply NoDup_cons in Hnd as [Ha Hnd].
    apply elem_of_cons in Hx as [->|Hx]; apply elem_of_cons in Hy as [->|Hy].
    + reflexivity.
    + exfalso. apply Ha. rewrite Hf. apply list_elem_of_fmap_2. assumption.
    + exfalso. apply Ha. rewrite <- Hf. apply list_elem_of_fmap_2. assumption.
    + auto.
Qed.

Lemma NoDup_snoc {A} (l : list A) x : NoDup l → x ∉ l → NoDup (l ++ [x]).
Proof.
  intros Hl Hx. apply NoDup_app. split; [assumption|]. split.
  - intros y Hy Hin. apply list_elem_of_singleton in Hin as ->. contradiction.
  - apply NoDup_singleton.
Qed.

(** In a consistent table, the order number of a stored row is free for
    that row. *)
Lemma order_number_free_stored d pk OLD :
  consistent d → production_orders_by_pk d pk = Some OLD →
  order_number_free d pk (ProductionOrder.order_number OLD).
Proof.
  intros (_ & Hnum & _) Hpk. apply by_pk_Some in Hpk as [Hid Hin].
  apply Forall_forall. intros o Ho Hne Heq. apply Hne.
  rewrite (NoDup_fmap_eq _ _ _ _ Hnum Ho Hin Heq). assumption.
Qed.

Lemma order_number_free_fresh d pk n :
  order_number_free d pk n → pk ∉ order_ids d →
  n ∉ ProductionOrder.order_number <$> production_orders d.
Proof.
  unfold order_number_free, order_ids. intros Hfree Hpk Hin.
  apply list_elem_of_fmap in Hin as (o & -> & Ho).
  rewrite Forall_forall in Hfree. apply (Hfree o Ho); [|reflexivity].
  intros <-. apply Hpk. apply list_elem_of_fmap_2. assumption.
Qed.

Lemma replace_order_numbers l pk NEW :
  NoDup (ProductionOrder.id <$> l) →
  NoDup (ProductionOrder.order_number <$> l) →
  Forall (λ o, ProductionOrder.id o ≠ pk →
               ProductionOrder.order_number o
               ≠ ProductionOrder.order_number NEW) l →
  NoDup (ProductionOrder.order_number <$> replace ProductionOrder.id pk NEW l).
Proof.
  unfold replace. induction l as [|x l IH]; intros Hid Hnum Hfree.
  - apply NoDup_nil_2.
  - rewrite !fmap_cons in *. apply NoDup_cons in Hid as [Hx Hid].
    apply NoDup_cons in Hnum as [Hxn Hnum].
    apply Forall_cons in Hfree as [Hfx Hfree].
    apply NoDup_cons. split; [|auto].
    intros Hin. apply list_elem_of_fmap in Hin as (y' & Hy' & Hin).
    apply list_elem_of_fmap in Hin as (y & -> & Hy).
    rewrite Forall_forall in Hfree.
    assert (ProductionOrder.id x ≠ ProductionOrder.id y) as Hxy.
    { intros Heq. apply Hx. rewrite Heq. apply list_elem_of_fmap_2. assumption. }
    destruct (decide (ProductionOrder.id x = pk)) as [Hxp|Hxp];
      destruct (decide (ProductionOrder.id y = pk)) as [Hyp|Hyp].
    + congruence.
    + apply (Hfree y Hy Hyp). congruence.
    + apply (Hfx Hxp). assumption.
    + apply Hxn. rewrite Hy'. apply list_elem_of_fmap_2. assumption.
Qed.

Lemma consistent_empty : consistent empty_db.
Proof.
  unfold consistent. simpl. repeat split;
    first [apply NoDup_nil_2 | apply Forall_nil_2].
Qed.

Lemma insert_production_orders_consistent now i n p q s pr ss se nt d d' :
  consistent d →
  insert_production_orders now i n p q s pr ss se nt d = Ok d' →
  consistent d'.
Proof.
  intros (H1 & H2 & H3 & H4 & H5 & H6 & H7 & H8 & H9) H.
  apply insert_production_orders_Ok in H
    as (NEW & -> & Hid & _ & _ & _ & Hq & Hp & Hfresh & Hfree).
  assert (order_ids (with_production_orders (production_orders d ++ [NEW]) d)
          = order_ids d ++ [i]) as Hids.
  { unfold order_ids. simpl. rewrite fmap_app. simpl. congruence. }
  unfold consistent. rewrite Hids.
  unfold resource_ids, allocation_ids, event_ids in *. simpl.
  repeat split; try assumption.
  - apply NoDup_snoc; assumption.
  - rewrite fmap_app. apply NoDup_snoc; [assumption|].
    apply (order_number_free_fresh d i); assumption.
  - apply Forall_app. split; [assumption|]. apply Forall_singleton. auto.
  - eapply Forall_impl; [exact H7|]. simpl. intros a [Ha Hr].
    split; [apply elem_of_app; auto | assumption].
  - eapply Forall_impl; [exact H9|]. simpl. intros e He.
    apply elem_of_app; auto.
Qed.

Lemma insert_resources_consistent now i n t s c h ds d d' :
  consistent d → insert_resources now i n t s c h ds d = Ok d' → consistent d'.
Proof.
  intros (H1 & H2 & H3 & H4 & H5 & H6 & H7 & H8 & H9) H.
  apply insert_resources_Ok in H as (NEW & -> & Hid & Hfresh).
  unfold consistent, order_ids, resource_ids, allocation_ids, event_ids in *.
  simpl. repeat split; try assumption.
  - rewrite fmap_app. apply NoDup_snoc; [assumption|]. simpl. congruence.
  - eapply Forall_impl; [exact H7|]. simpl. intros a [Ha Hr].
    split; [assumption|]. rewrite fmap_app. apply elem_of_app; auto.
Qed.

Lemma insert_resource_allocations_consistent now i o r q st en d d' :
  consistent d →
  insert_resource_allocations now i o r q st en d = Ok d' → consistent d'.
Proof.
  intros (H1 & H2 & H3 & H4 & H5 & H6 & H7 & H8 & H9) H.
  apply insert_resource_allocations_Ok in H
    as (NEW & -> & Hid & Ho & Hr & _ & _ & _ & Hfresh & Hkey & Hfo & Hfr).
  unfold consistent, order_ids, resource_ids, allocation_ids, event_ids in *.
  simpl. repeat split; try assumption.
  - rewrite fmap_app. apply NoDup_snoc; [assumption|]. simpl. congruence.
  - rewrite fmap_app. apply NoDup_snoc; assumption.
  - apply Forall_app. split; [assumption|]. apply Forall_singleton.
    rewrite Ho, Hr. auto.
Qed.

Lemma update_resources_by_pk_consistent now pk s d d' r :
  consistent d → update_resources_by_pk now pk s d = Ok (d', r) → consistent d'.
Proof.
  intros Hc H. apply update_resources_by_pk_Ok in H as (Ho & Ha & He & Hr).
  unfold consistent, order_ids, allocation_ids, event_ids in *.
  rewrite Ho, Ha, He, Hr. exact Hc.
Qed.

Lemma update_production_orders_by_pk_consistent now eid pk _set d d' r :
  consistent d →
  update_production_orders_by_pk now eid pk _set d = Ok (d', r) →
  consistent d'.
Proof.
  intros Hc H. apply update_production_orders_by_pk_Ok in H
    as [(_ & -> & _) | (OLD & NEW & d1 & Hpk & -> & Hid & _ & _ & _
                        & Hq & Hp & Hfree & -> & Hlog)]; [assumption|].
  destruct Hc as (H1 & H2 & H3 & H4 & H5 & H6 & H7 & H8 & H9).
  set (d1 := with_production_orders _ d) in *.
  assert (order_ids d1 = order_ids d) as Hids.
  { unfold order_ids, d1. simpl. apply keys_replace. assumption. }
  assert (consistent d1) as Hc1.
  { unfold consistent. rewrite Hids.
    unfold resource_ids, allocation_ids, event_ids, d1. simpl.
    repeat split; try assumption.
    - apply replace_order_numbers; assumption.
    - unfold replace. apply Forall_fmap. eapply Forall_impl; [exact H3|].
      simpl. intros o Ho. destruct (decide _); auto. }
  apply log_order_status_change_Ok in Hlog
    as [[_ ->] | (_ & e & -> & He & Hoid & _ & _ & _ & _ & Hfresh & Hin)];
    [assumption|].
  destruct Hc1 as (G1 & G2 & G3 & G4 & G5 & G6 & G7 & G8 & G9).
  unfold consistent, order_ids, resource_ids, allocation_ids, event_ids in *.
  simpl. simpl in Hin. repeat split; try assumption.
  - rewrite fmap_app. apply NoDup_snoc; [assumption|]. simpl.
    rewrite He. exact Hfresh.
  - apply Forall_app. split; [assumption|]. apply Forall_singleton.
    rewrite Hoid. exact Hin.
Qed.

Lemma exec_consistent now st d d' :
  consistent d → exec now st d = Ok d' → consistent d'.
Proof.
  intros Hc H. destruct st; simpl in H.
  - eapply insert_production_orders_consistent; eassumption.
  - eapply insert_resources_consistent; eassumption.
  - eapply insert_resource_allocations_consistent; eassumption.
  - apply bind_Ok in H as ([d1 r] & H & [= <-]).
    eapply update_production_orders_by_pk_consistent; eassumption.
  - apply bind_Ok in H as ([d1 r] & H & [= <-]).
    eapply update_resources_by_pk_consistent; eassumption.
Qed.

Lemma committed_consistent now st d :
  consistent d → consistent (committed d (exec now st d)).
Proof.
  intros Hc. destruct (exec now st d) as [d'|e] eqn:E; simpl; [|assumption].
  eapply exec_consistent; eassumption.
Qed.

Lemma run_consistent trace d : consistent d → consistent (run trace d).
Proof.
  revert d. induction trace as [|[now st] trace IH]; intros d Hc; simpl.
  - assumption.
  - apply IH, committed_consistent, Hc.
Qed.

(** ** The sample data *)

Lemma seed_sample_db : seed 0 N.of_nat = Ok sample_db.
Proof. vm_compute. reflexivity. Qed.

Lemma sample_db_consistent : consistent sample_db.
Proof. apply (bool_decide_unpack _). vm_compute. exact I. Qed.

(** ** Event history *)

#[global] Instance created_at_desc_total : Total OrderDetails.created_at_desc.
Proof. intros e1 e2. unfold OrderDetails.created_at_desc. lia. Qed.

#[global] Instance created_at_desc_trans
  : Transitive OrderDetails.created_at_desc.
Proof. intros e1 e2 e3. unfold OrderDetails.created_at_desc. lia. Qed.


(** ** Allocated quantities *)

Lemma allocated_sum d r :
  ResourcesList.allocated (ResourcesList.GET_RESOURCES d r)
  = sum_list_Z (ResourceAllocation.allocated_quantity
                  <$> ResourcesList.allocations_of d (Resource.id r)).
Proof.
  unfold ResourcesList.allocated, ResourcesList.GET_RESOURCES,
    ResourcesList.aggregate_sum. simpl.
  destruct (ResourcesList.allocations_of d (Resource.id r)) as [|a l];
    [reflexivity|].
  destruct (decide _) as [Hz|]; [|reflexivity]. symmetry. exact Hz.
Qed.

Lemma sum_list_Z_app l1 l2 :
  sum_list_Z (l1 ++ l2) = sum_list_Z l1 + sum_list_Z l2.
Proof.
  unfold sum_list_Z. induction l1 as [|x l1 IH]; simpl; [reflexivity|].
  rewrite IH. lia.
Qed.





(** ** Capacity *)

Lemma allocations_of_snoc d rid a :
  ResourcesList.allocations_of
    (with_resource_allocations (resource_allocations d ++ [a]) d) rid
  = ResourcesList.allocations_of d rid
    ++ (if decide (ResourceAllocation.resource_id a = rid) then [a] else []).
Proof.
  unfold ResourcesList.allocations_of. simpl.
  rewrite filter_app, filter_cons, filter_nil. reflexivity.
Qed.

(** C3, as the code has it.  Inserting an allocation consults no capacity:
    the row is accepted as soon as its quantity fits [DECIMAL(10,2)], its
    identifier and its [(order_id, resource_id, start_time)] triple are
    unused, and the order and the resource exist.  The quantity allocated
    at every instant of the new interval then grows by the full
    [allocated_quantity]. *)
Theorem insert_resource_allocations_unbounded
    (now : timestamptz) (new_id order_id resource_id : uuid)
    (q : decimal) (start_time : timestamptz) (end_time : option timestamptz)
    (d : db) :
  - 10 ^ 10 < q < 10 ^ 10 →
  new_id ∉ allocation_ids d →
  (order_id, resource_id, start_time)
    ∉ allocation_key <$> resource_allocations d →
  order_id ∈ order_ids d →
  resource_id ∈ resource_ids d →
  ∃ a d',
    insert_resource_allocations now new_id order_id resource_id q
      (Some start_time) end_time d = Ok d'
    ∧ resource_allocations d' = resource_allocations d ++ [a]
    ∧ ResourceAllocation.id a = new_id
    ∧ ResourceAllocation.order_id a = order_id
    ∧ ResourceAllocation.resource_id a = resource_id
    ∧ ResourceAllocation.allocated_quantity a = q
    ∧ ResourceAllocation.start_time a = start_time
    ∧ ResourceAllocation.end_time a = end_time
    ∧ resources d' = resources d
    ∧ ∀ t, allocated_at d' resource_id t
           = allocated_at d resource_id t + (if decide (covers a t) then q else 0).
Proof.
  intros Hq Hid Hkey Ho Hr. unfold insert_resource_allocations.
  rewrite (decimal_10_2_fits _ Hq). simpl.
  rewrite !bool_decide_eq_true_2 by assumption. simpl.
  eexists _, _. split; [reflexivity|]. simpl. repeat split.
  intros t. unfold allocated_at. rewrite allocations_of_snoc. simpl.
  rewrite decide_True by reflexivity.
  rewrite filter_app, fmap_app, sum_list_Z_app. f_equal.
  rewrite filter_cons, filter_nil.
  destruct (decide (covers _ t)); simpl; unfold sum_list_Z; simpl; lia.
Qed.

Lemma insert_resource_allocations_unbounded_witness :
  ∃ a d',
    insert_resource_allocations 5 20 9 4 700 (Some 5) None sample_db = Ok d'
    ∧ resource_allocations d' = resource_allocations sample_db ++ [a]
    ∧ ResourceAllocation.id a = 20%N
    ∧ ResourceAllocation.order_id a = 9%N
    ∧ ResourceAllocation.resource_id a = 4%N
    ∧ ResourceAllocation.allocated_quantity a = 700
    ∧ ResourceAllocation.start_time a = 5
    ∧ ResourceAllocation.end_time a = None
    ∧ resources d' = resources sample_db
    ∧ ∀ t, allocated_at d' 4 t
           = allocated_at sample_db 4 t + (if decide (covers a t) then 700 else 0).
Proof.
  apply (insert_resource_allocations_unbounded 5 20 9 4 700 5 None sample_db).
  - lia.
  - apply (bool_decide_unpack _). vm_compute. exact I.
  - apply (bool_decide_unpack _). vm_compute. exact I.
  - apply (bool_decide_unpack _). vm_compute. exact I.
  - apply (bool_decide_unpack _). vm_compute. exact I.
Defined.

(** C3, as the specification has it, fails on the sample data: the script
    allocates [50.00] of the worker "John Smith" (identifier [4]), whose
    capacity is [8.00], from the moment it runs. *)
Lemma sample_db_over_capacity :
  seed 0 N.of_nat = Ok sample_db
  ∧ (Resource.name <$> resources_by_pk sample_db 4) = Some "John Smith"
  ∧ (Resource.capacity <$> resources_by_pk sample_db 4) = Some (Some 800)
  ∧ allocated_at sample_db 4 0 = 5000.
Proof. vm_compute. auto. Qed.

(** ** Resource status *)

(** C7, as the code has it.  [update_resources_by_pk] sets whatever status
    it is given on whatever resource exists under the key: there is no
    check of the resource's allocations and no force flag.  The row comes
    back with the new status and the trigger's [updated_at], and is
    otherwise the row as it was, column by column; it takes the old row's
    place in the table, and nothing else in the database moves. *)
Theorem update_resources_by_pk_any_status
    (now : timestamptz) (pk : uuid) (s : resource_status) (d : db)
    (r : Resource.row) :
  resources_by_pk d pk = Some r →
  ∃ r' d',
    update_resources_by_pk now pk s d = Ok (d', Some r')
    ∧ resources_by_pk d' pk = Some r'
    ∧ Resource.status r' = s
    ∧ Resource.updated_at r' = now
    ∧ Resource.id r' = pk
    ∧ Resource.name r' = Resource.name r
    ∧ Resource.type r' = Resource.type r
    ∧ Resource.capacity r' = Resource.capacity r
    ∧ (∀ pk', pk' ≠ pk → resources_by_pk d' pk' = resources_by_pk d pk')
    ∧ production_orders d' = production_orders d
    ∧ resource_allocations d' = resource_allocations d
    ∧ order_events d' = order_events d
    ∧ r' = {| Resource.id := Resource.id r;
              Resource.name := Resource.name r;
              Resource.type := Resource.type r;
              Resource.status := s;
              Resource.capacity := Resource.capacity r;
              Resource.hourly_cost := Resource.hourly_cost r;
              Resource.description := Resource.description r;
              Resource.created_at := Resource.created_at r;
              Resource.updated_at := now |}
    ∧ resources d'
      = (λ x, if decide (Resource.id x = pk) then r' else x) <$> resources d
    ∧ resource_ids d' = resource_ids d.
Proof.
  intros Hpk. unfold update_resources_by_pk. rewrite Hpk.
  pose proof (by_pk_Some _ _ _ _ Hpk) as [Hid _].
  eexists _, _. split; [reflexivity|].
  unfold resources_by_pk in *. simpl. repeat split; try assumption.
  - eapply by_pk_replace; [exact Hpk | exact Hid].
  - intros pk' Hne. apply by_pk_replace_other; [exact Hid | exact Hne].
  - unfold resource_ids. simpl. apply keys_replace. exact Hid.
Qed.

Lemma update_resources_by_pk_any_status_witness :
  ∃ r r' d',
    resources_by_pk busy_db 1 = Some r
    ∧ update_resources_by_pk 4 1 unavailable busy_db = Ok (d', Some r')
    ∧ resources_by_pk d' 1 = Some r'
    ∧ Resource.status r' = unavailable
    ∧ Resource.updated_at r' = 4
    ∧ Resource.id r' = 1%N
    ∧ Resource.name r' = Resource.name r
    ∧ Resource.type r' = Resource.type r
    ∧ Resource.capacity r' = Resource.capacity r
    ∧ (∀ pk', pk' ≠ 1%N → resources_by_pk d' pk' = resources_by_pk busy_db pk')
    ∧ production_orders d' = production_orders busy_db
    ∧ resource_allocations d' = resource_allocations busy_db
    ∧ order_events d' = order_events busy_db
    ∧ r' = {| Resource.id := Resource.id r;
              Resource.name := Resource.name r;
              Resource.type := Resource.type r;
              Resource.status := unavailable;
              Resource.capacity := Resource.capacity r;
              Resource.hourly_cost := Resource.hourly_cost r;
              Resource.description := Resource.description r;
              Resource.created_at := Resource.created_at r;
              Resource.updated_at := 4 |}
    ∧ resources d'
      = (λ x, if decide (Resource.id x = 1%N) then r' else x)
          <$> resources busy_db
    ∧ resource_ids d' = resource_ids busy_db.
Proof.
  eexists.
  assert (resources_by_pk busy_db 1 = Some _) as H by (vm_compute; reflexivity).
  destruct (update_resources_by_pk_any_status 4 1 unavailable busy_db _ H)
    as (r' & d' & H').
  exists r', d'. split; [exact H | exact H'].
Defined.

(** C7, as the specification has it, fails on a machine in use: the
    resource [1] of [busy_db] is [in_use] and holds an allocation without
    [end_time] for an order in progress, and the [Maintenance] action of
    its card, which passes no force flag, puts it under maintenance. *)
Lemma maintenance_despite_open_allocation :
  ∃ r a o r' d',
    resources_by_pk busy_db 1 = Some r
    ∧ Resource.status r = in_use
    ∧ resource_allocations busy_db = [a]
    ∧ ResourceAllocation.resource_id a = 1%N
    ∧ ResourceAllocation.end_time a = None
    ∧ production_orders_by_pk busy_db (ResourceAllocation.order_id a) = Some o
    ∧ terminal (ProductionOrder.status o) = false
    ∧ maintenance ∈ ResourcesList.quick_status_actions (Resource.status r)
    ∧ update_resources_by_pk 4 1 maintenance busy_db = Ok (d', Some r')
    ∧ ResourcesList.handleStatusChange 4 1 maintenance busy_db = d'
    ∧ resources_by_pk d' 1 = Some r'
    ∧ Resource.status r' = maintenance
    ∧ resource_allocations d' = [a].
Proof.
  eexists _, _, _, _, _.
  split; [vm_compute; reflexivity|].
  split; [reflexivity|].
  split; [vm_compute; reflexivity|].
  split; [reflexivity|].
  split; [reflexivity|].
  split; [vm_compute; reflexivity|].
  split; [reflexivity|].
  split; [apply (bool_decide_unpack _); vm_compute; exact I|].
  split; [vm_compute; reflexivity|].
  split; [vm_compute; reflexivity|].
  split; [vm_compute; reflexivity|].
  split; reflexivity.
Qed.

(** ** Creating an order *)

Lemma unused_order_number_free d pk n :
  n ∉ ProductionOrder.order_number <$> production_orders d →
  order_number_free d pk n.
Proof.
  intros Hn. apply Forall_forall. intros o Ho _ Heq. apply Hn.
  rewrite <- Heq. apply list_elem_of_fmap_2. assumption.
Qed.

Lemma used_order_number_taken d pk n :
  pk ∉ order_ids d →
  n ∈ ProductionOrder.order_number <$> production_orders d →
  ¬ order_number_free d pk n.
Proof.
  intros Hpk Hn Hfree. apply (order_number_free_fresh d pk n); assumption.
Qed.

Ltac rejected := eexists; split; reflexivity.

(** C5.  An insert into [production_orders] whose quantity is not positive,
    or whose priority lies outside 1..5, is rejected with a validation
    error; one whose values are in order but whose order number is already
    stored is rejected with a duplicate key; and a rejected insert leaves
    the table of orders as it was. *)
Theorem insert_production_orders_rejects
    (now : timestamptz) (new_id : uuid) (order_number product_name : string)
    (quantity : Z) (status : option order_status) (priority : option Z)
    (scheduled_start scheduled_end : option timestamptz)
    (notes : option string) (d : db) :
  let r := insert_production_orders now new_id order_number product_name
             quantity status priority scheduled_start scheduled_end notes d in
  (quantity ≤ 0 ∨ default 1 priority < 1 ∨ 5 < default 1 priority →
   ∃ e, r = Err e ∧ classify e = ValidationError)
  ∧ (∀ n p, varchar 50 order_number = Ok n →
            varchar 255 product_name = Ok p →
            0 < quantity < 2 ^ 31 →
            1 ≤ default 1 priority ≤ 5 →
            n ∈ ProductionOrder.order_number <$> production_orders d →
            ∃ e, r = Err e ∧ classify e = DuplicateKey)
  ∧ (∀ e, r = Err e →
          committed d r = d
          ∧ production_orders_by_pk (committed d r) new_id
            = production_orders_by_pk d new_id).
Proof.
  simpl. split; [|split].
  - intros Hbad. unfold insert_production_orders.
    destruct (varchar 50 order_number) as [n|e] eqn:En; simpl;
      [|apply varchar_Err in En as ->; rejected].
    destruct (varchar 255 product_name) as [p|e] eqn:Ep; simpl;
      [|apply varchar_Err in Ep as ->; rejected].
    destruct (integer quantity) as [q|e] eqn:Eq; simpl;
      [|apply integer_Err in Eq as ->; rejected].
    destruct (integer (default 1 priority)) as [pr|e] eqn:Epr; simpl;
      [|apply integer_Err in Epr as ->; rejected].
    apply integer_Ok in Eq as [-> _]. apply integer_Ok in Epr as [-> _].
    unfold quantity_check, priority_check. simpl.
    destruct Hbad as [Hq|Hp].
    + rewrite (bool_decide_eq_false_2 (quantity > 0)) by lia. simpl. rejected.
    + rewrite (bool_decide_eq_false_2 (1 ≤ _ ≤ 5)) by lia.
      rewrite andb_false_r. simpl. rejected.
  - intros n p En Ep Hq Hp Hin. unfold insert_production_orders.
    rewrite En, Ep. simpl.
    rewrite (integer_fits quantity) by lia.
    rewrite (integer_fits (default 1 priority)) by (pose proof pow_2_31; lia). simpl.
    unfold quantity_check, priority_check. simpl.
    rewrite (bool_decide_eq_true_2 (quantity > 0)) by lia.
    rewrite (bool_decide_eq_true_2 (1 ≤ _ ≤ 5)) by lia. simpl.
    destruct (decide (new_id ∈ order_ids d)) as [Hid|Hid].
    + rewrite (bool_decide_eq_false_2 (new_id ∉ order_ids d))
        by (intros Hn; exact (Hn Hid)).
      simpl. rejected.
    + rewrite (bool_decide_eq_true_2 (new_id ∉ order_ids d)) by assumption.
      simpl. rewrite bool_decide_eq_false_2
        by (apply used_order_number_taken; assumption).
      simpl. rejected.
  - intros e ->. simpl. auto.
Qed.

Lemma insert_production_orders_rejects_witness :
  (∃ e, insert_production_orders 7 30 "PO-2024-006" "Bracket" 0 None (Some 3)
          None None None sample_db = Err e
        ∧ classify e = ValidationError)
  ∧ (∃ e, insert_production_orders 7 30 "PO-2024-006" "Bracket" 10 None (Some 6)
            None None None sample_db = Err e
          ∧ classify e = ValidationError)
  ∧ (∃ e, insert_production_orders 7 30 "PO-2024-003" "Bracket" 10 None (Some 3)
            None None None sample_db = Err e
          ∧ classify e = DuplicateKey).
Proof.
  split; [|split].
  - apply (insert_production_orders_rejects 7 30 "PO-2024-006" "Bracket" 0
             None (Some 3) None None None sample_db).
    left. lia.
  - apply (insert_production_orders_rejects 7 30 "PO-2024-006" "Bracket" 10
             None (Some 6) None None None sample_db).
    right. right. simpl. lia.
  - apply (insert_production_orders_rejects 7 30 "PO-2024-003" "Bracket" 10
             None (Some 3) None None None sample_db)
      with (n := "PO-2024-003"%string) (p := "Bracket"%string).
    + reflexivity.
    + reflexivity.
    + lia.
    + simpl. lia.
    + apply (bool_decide_unpack _). vm_compute. exact I.
Defined.

Lemma events_of_absent d oid :
  consistent d → oid ∉ order_ids d → events_of d oid = [].
Proof.
  intros (_ & _ & _ & _ & _ & _ & _ & _ & Hfk) Hid. unfold events_of.
  induction (order_events d) as [|e l IH]; [reflexivity|].
  apply Forall_cons in Hfk as [He Hfk]. rewrite filter_cons.
  rewrite decide_False; [auto|]. intros Heq. apply Hid. rewrite <- Heq.
  exact He.
Qed.

Lemma resource_allocations_of_absent d oid :
  consistent d → oid ∉ order_ids d → OrderDetails.resource_allocations_of d oid = [].
Proof.
  intros (_ & _ & _ & _ & _ & _ & Hfk & _) Hid.
  unfold OrderDetails.resource_allocations_of.
  induction (resource_allocations d) as [|a l IH]; [reflexivity|].
  apply Forall_cons in Hfk as [[Ha _] Hfk]. rewrite filter_cons.
  rewrite decide_False; [auto|]. intros Heq. apply Hid. rewrite <- Heq.
  exact Ha.
Qed.

Lemma inserted_order_by_pk d pk NEW :
  ProductionOrder.id NEW = pk → pk ∉ order_ids d →
  production_orders_by_pk
    (with_production_orders (production_orders d ++ [NEW]) d) pk = Some NEW.
Proof.
  intros Hk Hid. unfold production_orders_by_pk. simpl.
  apply by_pk_app_fresh; assumption.
Qed.

(** C8.  In a database that meets its constraints, an insert into
    [production_orders] that leaves [status] to its default and whose values
    are valid (strings within their columns, a positive quantity, a
    priority in 1..5, an unused identifier and order number) succeeds, and a
    lookup of the new identifier right after returns the order as entered,
    pending, with [created_at] equal to [updated_at]; the order has no
    events and no allocations. *)
Theorem insert_then_get_order
    (now : timestamptz) (new_id : uuid) (order_number product_name : string)
    (quantity : Z) (priority : option Z)
    (scheduled_start scheduled_end : option timestamptz)
    (notes : option string) (d : db) :
  consistent d →
  (String.length order_number ≤ 50)%nat →
  (String.length product_name ≤ 255)%nat →
  0 < quantity < 2 ^ 31 →
  1 ≤ default 1 priority ≤ 5 →
  new_id ∉ order_ids d →
  order_number ∉ ProductionOrder.order_number <$> production_orders d →
  ∃ d' o,
    insert_production_orders now new_id order_number product_name quantity
      None priority scheduled_start scheduled_end notes d = Ok d'
    ∧ production_orders_by_pk d' new_id = Some o
    ∧ ProductionOrder.status o = pending
    ∧ ProductionOrder.created_at o = ProductionOrder.updated_at o
    ∧ ProductionOrder.created_at o = now
    ∧ ProductionOrder.order_number o = order_number
    ∧ ProductionOrder.product_name o = product_name
    ∧ ProductionOrder.quantity o = quantity
    ∧ ProductionOrder.priority o = default 1 priority
    ∧ events_of d' new_id = []
    ∧ OrderDetails.GET_ORDER_BY_ID d' new_id = Some (o, [], []).
Proof.
  intros Hc Hn Hp Hq Hpr Hid Hnum. unfold insert_production_orders.
  rewrite (varchar_fits _ _ Hn), (varchar_fits _ _ Hp). simpl.
  rewrite (integer_fits quantity) by lia.
  rewrite (integer_fits (default 1 priority)) by (pose proof pow_2_31; lia). simpl.
  unfold quantity_check, priority_check. simpl.
  rewrite (bool_decide_eq_true_2 (quantity > 0)) by lia.
  rewrite (bool_decide_eq_true_2 (1 ≤ _ ≤ 5)) by lia. simpl.
  rewrite (bool_decide_eq_true_2 (new_id ∉ order_ids d)) by assumption. simpl.
  rewrite bool_decide_eq_true_2 by (apply unused_order_number_free; assumption).
  simpl. eexists _, _. split; [reflexivity|].
  split; [apply inserted_order_by_pk; [reflexivity | exact Hid]|].
  simpl. repeat split.
  - apply (events_of_absent d); assumption.
  - unfold OrderDetails.GET_ORDER_BY_ID.
    erewrite inserted_order_by_pk by (reflexivity || exact Hid). simpl.
    unfold OrderDetails.order_events_of.
    pose proof (events_of_absent d new_id Hc Hid) as Hev.
    pose proof (resource_allocations_of_absent d new_id Hc Hid) as Hal.
    unfold events_of in Hev. unfold OrderDetails.resource_allocations_of in *.
    simpl. rewrite Hev, Hal. reflexivity.
Qed.

Ltac by_computation := apply (bool_decide_unpack _); vm_compute; exact I.

Lemma insert_then_get_order_witness :
  ∃ d' o,
    insert_production_orders 7 30 "PO-2024-006" "Bracket" 10
      None (Some 3) None None (Some "Rush") sample_db = Ok d'
    ∧ production_orders_by_pk d' 30 = Some o
    ∧ ProductionOrder.status o = pending
    ∧ ProductionOrder.created_at o = ProductionOrder.updated_at o
    ∧ ProductionOrder.created_at o = 7
    ∧ ProductionOrder.order_number o = "PO-2024-006"%string
    ∧ ProductionOrder.product_name o = "Bracket"%string
    ∧ ProductionOrder.quantity o = 10
    ∧ ProductionOrder.priority o = default 1 (Some 3)
    ∧ events_of d' 30 = []
    ∧ OrderDetails.GET_ORDER_BY_ID d' 30 = Some (o, [], []).
Proof.
  apply (insert_then_get_order 7 30 "PO-2024-006" "Bracket" 10 (Some 3)
           None None (Some "Rush"%string) sample_db).
  - exact sample_db_consistent.
  - by_computation.
  - by_computation.
  - by_computation.
  - by_computation.
  - by_computation.
  - by_computation.
Defined.

(** ** Updating an order *)

Lemma update_production_orders_by_pk_stored now eid pk _set d d' OLD NEW :
  production_orders_by_pk d pk = Some OLD →
  update_production_orders_by_pk now eid pk _set d = Ok (d', Some NEW) →
  production_orders d' = replace ProductionOrder.id pk NEW (production_orders d)
  ∧ production_orders_by_pk d' pk = Some NEW
  ∧ (∀ pk', pk' ≠ pk →
            production_orders_by_pk d' pk' = production_orders_by_pk d pk')
  ∧ resources d' = resources d
  ∧ resource_allocations d' = resource_allocations d.
Proof.
  intros Hpk H. apply update_production_orders_by_pk_Ok in H
    as [(_ & _ & [=]) | (OLD' & NEW' & d1 & Hpk' & [= <-] & Hid & _ & _ & _
                         & _ & _ & _ & -> & Hlog)].
  assert (production_orders d'
          = replace ProductionOrder.id pk NEW (production_orders d)
          ∧ resources d' = resources d
          ∧ resource_allocations d' = resource_allocations d) as (Ho & Hr & Ha).
  { apply log_order_status_change_Ok in Hlog
      as [[_ ->] | (_ & e & -> & _)]; simpl; auto. }
  unfold production_orders_by_pk in *. rewrite Ho. repeat split; try assumption.
  - eapply by_pk_replace; eassumption.
  - intros pk' Hne. apply by_pk_replace_other; assumption.
Qed.



(** ** The audit log *)

Lemma exec_order_events_prefix now st d d' :
  exec now st d = Ok d' → order_events d `prefix_of` order_events d'.
Proof.
  intros H. destruct st; simpl in H.
  - apply insert_production_orders_Ok in H as (NEW & -> & _). reflexivity.
  - apply insert_resources_Ok in H as (NEW & -> & _). reflexivity.
  - apply insert_resource_allocations_Ok in H as (NEW & -> & _). reflexivity.
  - apply bind_Ok in H as ([d1 r] & H & [= <-]).
    apply update_production_orders_by_pk_Ok in H
      as [(_ & -> & _) | (OLD & NEW & d2 & _ & _ & _ & _ & _ & _
                          & _ & _ & _ & -> & Hlog)]; [reflexivity|].
    apply log_order_status_change_Ok in Hlog as [[_ ->] | (_ & e & -> & _)].
    + reflexivity.
    + simpl. apply prefix_app_r. reflexivity.
  - apply bind_Ok in H as ([d1 r] & H & [= <-]).
    apply update_resources_by_pk_Ok in H as (_ & _ & -> & _). reflexivity.
Qed.

Lemma run_order_events_prefix trace d :
  order_events d `prefix_of` order_events (run trace d).
Proof.
  revert d. induction trace as [|[now st] trace IH]; intros d; simpl.
  - reflexivity.
  - etransitivity; [|apply IH].
    destruct (exec now st d) as [d'|e] eqn:E; simpl; [|reflexivity].
    eapply exec_order_events_prefix, E.
Qed.

(** C4.  An update that changes the status of an order appends, within the
    same statement, exactly one event to [order_events]: a [status_change]
    of that order, from the old status to the new one, stamped with the
    statement's time; the order is stored with its new status in the same
    result.  And no insert or update ever touches the events already
    logged: after any run of such statements, the former [order_events]
    are a prefix of the later ones.  (Purging an order, which the schema
    would cascade to its events, is not a statement of the application.) *)
Theorem status_change_logs_one_event
    (now : timestamptz) (event_id pk : uuid)
    (_set : production_orders_set_input.t) (d d' : db)
    (OLD NEW : ProductionOrder.row) :
  production_orders_by_pk d pk = Some OLD →
  update_production_orders_by_pk now event_id pk _set d = Ok (d', Some NEW) →
  ProductionOrder.status OLD ≠ ProductionOrder.status NEW →
  (∃ e, order_events d' = order_events d ++ [e]
        ∧ OrderEvent.id e = event_id
        ∧ OrderEvent.order_id e = pk
        ∧ OrderEvent.event_type e = "status_change"%string
        ∧ OrderEvent.old_status e = Some (ProductionOrder.status OLD)
        ∧ OrderEvent.new_status e = Some (ProductionOrder.status NEW)
        ∧ OrderEvent.created_at e = now)
  ∧ production_orders_by_pk d' pk = Some NEW
  ∧ (∀ trace, order_events d' `prefix_of` order_events (run trace d')).
Proof.
  intros Hpk H Hne.
  pose proof (update_production_orders_by_pk_stored _ _ _ _ _ _ _ _ Hpk H)
    as (_ & Hget & _).
  split; [|split; [exact Hget | intros; apply run_order_events_prefix]].
  apply update_production_orders_by_pk_Ok in H
    as [(_ & _ & [=]) | (OLD' & NEW' & d1 & Hpk' & [= <-] & Hid & _ & _ & _
                         & _ & _ & _ & -> & Hlog)].
  assert (OLD' = OLD) as -> by congruence.
  apply log_order_status_change_Ok in Hlog
    as [[Heq _] | (_ & e & -> & He & Ho & Hty & Hos & Hns & Hat & _)];
    [contradiction|].
  exists e. simpl. rewrite Ho, Hid. auto 10.
Qed.

Lemma status_change_logs_one_event_witness :
  ∃ OLD NEW d',
    production_orders_by_pk sample_db 11 = Some OLD
    ∧ update_production_orders_by_pk 9 40 11
        (production_orders_set_input.only_status scheduled) sample_db
      = Ok (d', Some NEW)
    ∧ ProductionOrder.status OLD ≠ ProductionOrder.status NEW
    ∧ (∃ e, order_events d' = order_events sample_db ++ [e]
            ∧ OrderEvent.id e = 40%N
            ∧ OrderEvent.order_id e = 11%N
            ∧ OrderEvent.event_type e = "status_change"%string
            ∧ OrderEvent.old_status e = Some (ProductionOrder.status OLD)
            ∧ OrderEvent.new_status e = Some (ProductionOrder.status NEW)
            ∧ OrderEvent.created_at e = 9)
    ∧ production_orders_by_pk d' 11 = Some NEW
    ∧ (∀ trace, order_events d' `prefix_of` order_events (run trace d')).
Proof.
  eexists _, _, _.
  split; [vm_compute; reflexivity|].
  split; [vm_compute; reflexivity|].
  split; [discriminate|].
  eapply (status_change_logs_one_event 9 40 11
            (production_orders_set_input.only_status scheduled)).
  - vm_compute. reflexivity.
  - vm_compute. reflexivity.
  - discriminate.
Defined.

(** ** Status transitions *)

Lemma stored_order_checks d pk OLD :
  consistent d → production_orders_by_pk d pk = Some OLD →
  quantity_check OLD = true ∧ priority_check OLD = true.
Proof.
  intros (_ & _ & Hck & _) Hpk. apply by_pk_Some in Hpk as [_ Hin].
  rewrite Forall_forall in Hck. apply Hck, Hin.
Qed.

Lemma stored_order_id d pk OLD :
  production_orders_by_pk d pk = Some OLD →
  ProductionOrder.id OLD = pk ∧ pk ∈ order_ids d.
Proof.
  intros Hpk. apply by_pk_Some in Hpk as [Hid Hin]. split; [assumption|].
  rewrite <- Hid. apply list_elem_of_fmap_2, Hin.
Qed.

(** C1, as the code has it.  [UPDATE_ORDER_STATUS] sets whatever status it
    is given: in a database that meets its constraints, for every stored
    order and every requested status the update succeeds (the event
    identifier drawn being unused), stores the order with the requested
    status and returns it.  No transition table is consulted anywhere; the
    only place the six transitions show is the order list, whose quick
    actions are exactly these: [scheduled] on a pending order,
    [in_progress] on a scheduled one, [completed] on one in progress, each
    an allowed transition, at most one per order, and nothing else. *)
Theorem update_order_status_unchecked
    (now : timestamptz) (event_id pk : uuid) (s : order_status) (d : db)
    (OLD : ProductionOrder.row) :
  consistent d →
  production_orders_by_pk d pk = Some OLD →
  event_id ∉ event_ids d →
  (∃ NEW d',
     update_production_orders_by_pk now event_id pk
       (production_orders_set_input.only_status s) d = Ok (d', Some NEW)
     ∧ OrdersList.handleStatusChange now event_id pk s d = d'
     ∧ production_orders_by_pk d' pk = Some NEW
     ∧ ProductionOrder.status NEW = s
     ∧ ProductionOrder.updated_at NEW = now)
  ∧ (∀ from to, to ∈ OrdersList.quick_status_actions from →
                allowed_transition from to = true)
  ∧ (∀ from to, to ∈ OrdersList.quick_status_actions from ↔
                (from, to) ∈ [(pending, scheduled); (scheduled, in_progress);
                              (in_progress, completed)])
  ∧ (∀ from, length (OrdersList.quick_status_actions from) ≤ 1)%nat.
Proof.
  intros Hc Hpk Hev. split; [|split; [|split]].
  - assert (∃ NEW d',
              update_production_orders_by_pk now event_id pk
                (production_orders_set_input.only_status s) d
              = Ok (d', Some NEW)) as (NEW & d' & H).
    { unfold update_production_orders_by_pk. rewrite Hpk.
      destruct (stored_order_checks _ _ _ Hc Hpk) as [Hq Hp].
      destruct (stored_order_id _ _ _ Hpk) as [Hid Hin].
      unfold apply_set. simpl.
      unfold quantity_check, priority_check in *. simpl. rewrite Hq, Hp. simpl.
      clear Hq Hp.
      rewrite bool_decide_eq_true_2
        by (eapply order_number_free_stored; eassumption).
      simpl. unfold log_order_status_change. simpl.
      destruct (decide (ProductionOrder.status OLD = s)) as [Heq|Hne].
      { rewrite bool_decide_eq_false_2 by (intros [_ ?]; contradiction).
        eexists _, _. reflexivity. }
      rewrite bool_decide_eq_true_2 by auto.
      unfold insert_order_events. simpl.
      rewrite (bool_decide_eq_true_2 (event_id ∉ _)) by exact Hev. simpl.
      rewrite bool_decide_eq_true_2; [eexists _, _; reflexivity|].
      unfold order_ids. simpl. rewrite keys_replace by exact Hid.
      rewrite Hid. exact Hin. }
    exists NEW, d'. split; [exact H|].
    split; [unfold OrdersList.handleStatusChange; rewrite H; reflexivity|].
    pose proof (update_production_orders_by_pk_stored _ _ _ _ _ _ _ _ Hpk H)
      as (_ & Hget & _).
    split; [exact Hget|].
    apply update_production_orders_by_pk_Ok in H
      as [(_ & _ & [=]) | (OLD' & NEW' & d1 & _ & [= <-] & _ & Hst & _ & Hup
                           & _)].
    split; [exact Hst | exact Hup].
  - intros from to. unfold OrdersList.quick_status_actions.
    destruct from; simpl; intros Hin;
      repeat (apply elem_of_cons in Hin as [->|Hin]); try reflexivity;
      apply elem_of_nil in Hin as [].
  - intros from to. destruct from, to; by_computation.
  - intros from. destruct from; by_computation.
Qed.

Lemma update_order_status_unchecked_witness :
  ∃ OLD,
    production_orders_by_pk sample_db 10 = Some OLD
    ∧ (∃ NEW d',
         update_production_orders_by_pk 9 40 10
           (production_orders_set_input.only_status completed) sample_db
         = Ok (d', Some NEW)
         ∧ OrdersList.handleStatusChange 9 40 10 completed sample_db = d'
         ∧ production_orders_by_pk d' 10 = Some NEW
         ∧ ProductionOrder.status NEW = completed
         ∧ ProductionOrder.updated_at NEW = 9)
    ∧ (∀ from to, to ∈ OrdersList.quick_status_actions from →
                  allowed_transition from to = true)
    ∧ (∀ from to, to ∈ OrdersList.quick_status_actions from ↔
                  (from, to) ∈ [(pending, scheduled); (scheduled, in_progress);
                                (in_progress, completed)])
    ∧ (∀ from, length (OrdersList.quick_status_actions from) ≤ 1)%nat.
Proof.
  eexists. split; [vm_compute; reflexivity|].
  eapply (update_order_status_unchecked 9 40 10 completed sample_db).
  - exact sample_db_consistent.
  - vm_compute. reflexivity.
  - by_computation.
Defined.

(** C1, as the specification has it, fails on the sample data: the order
    "PO-2024-005" (identifier [13]) is completed, a terminal status from
    which the transition table allows nothing, and a request to make it
    pending again succeeds and is stored; so does a request to set the
    pending order "PO-2024-003" (identifier [11]) to pending. *)
Lemma completed_order_reopened :
  ∃ OLD NEW d' OLD' NEW' d'',
    production_orders_by_pk sample_db 13 = Some OLD
    ∧ ProductionOrder.status OLD = completed
    ∧ allowed_transition completed pending = false
    ∧ update_production_orders_by_pk 9 40 13
        (production_orders_set_input.only_status pending) sample_db
      = Ok (d', Some NEW)
    ∧ production_orders_by_pk d' 13 = Some NEW
    ∧ ProductionOrder.status NEW = pending
    ∧ production_orders_by_pk sample_db 11 = Some OLD'
    ∧ ProductionOrder.status OLD' = pending
    ∧ allowed_transition pending pending = false
    ∧ update_production_orders_by_pk 9 40 11
        (production_orders_set_input.only_status pending) sample_db
      = Ok (d'', Some NEW')
    ∧ ProductionOrder.updated_at OLD' = 0
    ∧ ProductionOrder.updated_at NEW' = 9.
Proof.
  eexists _, _, _, _, _, _.
  repeat (split; [vm_compute; reflexivity|]). reflexivity.
Qed.

(** ** Replaying the event log *)

Lemma replay_app s s' l1 l2 :
  replay s l1 = Some s' → replay s (l1 ++ l2) = replay s' l2.
Proof.
  revert s. induction l1 as [|e l1 IH]; intros s H; simpl in *.
  - congruence.
  - destruct (OrderEvent.old_status e), (OrderEvent.new_status e); auto.
    destruct (decide _); [auto | discriminate].
Qed.

#[global] Instance created_at_asc_total : Total created_at_asc.
Proof. intros e1 e2. unfold created_at_asc. lia. Qed.

#[global] Instance created_at_asc_trans : Transitive created_at_asc.
Proof. intros e1 e2 e3. unfold created_at_asc. lia. Qed.

Lemma StronglySorted_filter {A} (R : relation A) (P : A → Prop)
    `{∀ x, Decision (P x)} (l : list A) :
  StronglySorted R l → StronglySorted R (filter P l).
Proof.
  induction 1 as [|x l Hl IH Hx]; [constructor|].
  rewrite filter_cons. destruct (decide (P x)); [|assumption].
  constructor; [assumption|].
  rewrite Forall_forall in *. intros y Hy.
  apply list_elem_of_filter in Hy as [_ Hy]. auto.
Qed.

Lemma created_at_before_inj l e1 e2 :
  StronglySorted created_at_before l → e1 ∈ l → e2 ∈ l →
  OrderEvent.created_at e1 = OrderEvent.created_at e2 → e1 = e2.
Proof.
  induction 1 as [|x l Hl IH Hx]; intros H1 H2 Heq.
  - apply elem_of_nil in H1 as [].
  - rewrite Forall_forall in Hx. unfold created_at_before in Hx.
    apply elem_of_cons in H1 as [->|H1]; apply elem_of_cons in H2 as [->|H2].
    + reflexivity.
    + specialize (Hx _ H2). lia.
    + specialize (Hx _ H1). lia.
    + auto.
Qed.

Lemma StronglySorted_weaken {A} (R R' : relation A) (l : list A) :
  (∀ x y, R x y → R' x y) → StronglySorted R l → StronglySorted R' l.
Proof.
  intros HR. induction 1 as [|x l Hl IH Hx]; constructor; [assumption|].
  eapply Forall_impl; [exact Hx | auto].
Qed.

(** Where no two events carry the same [created_at] and they were logged
    at ascending times, there is one way to order them by [created_at]: as
    they were logged. *)
Lemma created_at_order_unique l log :
  StronglySorted created_at_before l →
  log ≡ₚ l → StronglySorted created_at_asc log → log = l.
Proof.
  intros Hl Hp Hs.
  apply (StronglySorted_unique_strong created_at_asc).
  - intros e1 e2 H1 H2 H12 H21. rewrite Hp in H1.
    apply (created_at_before_inj _ _ _ Hl H1 H2).
    unfold created_at_asc in *. lia.
  - exact Hs.
  - eapply StronglySorted_weaken; [|exact Hl].
    unfold created_at_before, created_at_asc. intros. lia.
  - exact Hp.
Qed.

Lemma event_log_as_logged d oid :
  StronglySorted created_at_before (events_of d oid) →
  event_log d oid = events_of d oid.
Proof.
  intros Hs. apply created_at_order_unique; [exact Hs | |].
  - apply merge_sort_Permutation.
  - apply StronglySorted_merge_sort; apply _.
Qed.

(** An order that has just been inserted has no event yet. *)
Lemma insert_production_orders_replays now i n p q s pr ss se nt d d' :
  consistent d →
  insert_production_orders now i n p q s pr ss se nt d = Ok d' →
  replays (default pending s) i d'.
Proof.
  intros Hc H.
  apply insert_production_orders_Ok in H
    as (NEW & -> & Hid & Hst & _ & _ & _ & _ & Hfresh & _).
  exists NEW. split; [apply inserted_order_by_pk; assumption|].
  change (replay (default pending s) (events_of d i)
          = Some (ProductionOrder.status NEW)).
  rewrite (events_of_absent d i Hc Hfresh). simpl. congruence.
Qed.

(** No statement breaks the chain of an order's events: an insert enters
    another order, an update of another order logs under that order, and an
    update of this one logs the step from the status it had. *)
Lemma exec_replays now s0 oid st d d' :
  replays s0 oid d → exec now st d = Ok d' → replays s0 oid d'.
Proof.
  intros (o & Hget & Hr) H.
  pose proof (stored_order_id _ _ _ Hget) as [_ Hin].
  destruct st; simpl in H.
  - (* INSERT INTO production_orders *)
    apply insert_production_orders_Ok in H
      as (NEW & -> & Hid & _ & _ & _ & _ & _ & Hfresh & _).
    exists o. split; [|exact Hr].
    rewrite <- Hget. unfold production_orders_by_pk. simpl.
    apply by_pk_app_other. rewrite Hid. intros ->. contradiction.
  - apply insert_resources_Ok in H as (NEW & -> & _). exists o. auto.
  - apply insert_resource_allocations_Ok in H as (NEW & -> & _).
    exists o. auto.
  - (* UPDATE production_orders *)
    apply bind_Ok in H as ([d1 r] & H & [= <-]).
    destruct (production_orders_by_pk d pk) as [OLD|] eqn:Hpk.
    2:{ rewrite update_production_orders_by_pk_None in H by assumption.
        injection H as <- _. exists o. auto. }
    destruct r as [NEW|].
    2:{ apply update_production_orders_by_pk_Ok in H
          as [(Hn & _) | (? & ? & ? & _ & [=] & _)]. congruence. }
    pose proof (update_production_orders_by_pk_stored _ _ _ _ _ _ _ _ Hpk H)
      as (_ & Hnew & Hother & _).
    apply update_production_orders_by_pk_Ok in H
      as [(_ & _ & [=]) | (OLD' & NEW' & d2 & Hpk' & [= <-] & Hid & _ & _ & _
                           & _ & _ & _ & -> & Hlog)].
    assert (OLD' = OLD) as -> by congruence.
    apply log_order_status_change_Ok in Hlog
      as [[Heq ->] | (Hne & e & -> & _ & Ho & _ & Hos & Hns & _)].
    + (* the status stays: no event *)
      destruct (decide (oid = pk)) as [->|Hne].
      * exists NEW. split; [exact Hnew|].
        change (replay s0 (events_of d pk) = Some (ProductionOrder.status NEW)).
        rewrite <- Heq. congruence.
      * exists o. split; [rewrite (Hother oid Hne); exact Hget | exact Hr].
    + (* the status changes: one event *)
      unfold events_of in Hr.
      destruct (decide (oid = pk)) as [->|Hne'].
      * exists NEW. split; [exact Hnew|]. unfold events_of. simpl.
        rewrite filter_app, filter_cons, filter_nil. rewrite Ho, Hid.
        rewrite decide_True by reflexivity.
        assert (o = OLD) as -> by congruence.
        rewrite (replay_app s0 (ProductionOrder.status OLD)) by exact Hr.
        simpl. rewrite Hos, Hns. rewrite decide_True by reflexivity.
        reflexivity.
      * exists o. split; [rewrite (Hother oid Hne'); exact Hget|].
        unfold events_of. simpl.
        rewrite filter_app, filter_cons, filter_nil. rewrite Ho, Hid.
        rewrite decide_False by congruence. rewrite app_nil_r. exact Hr.
  - apply bind_Ok in H as ([d1 r] & H & [= <-]).
    apply update_resources_by_pk_Ok in H as (Ho & _ & He & _).
    exists o. unfold production_orders_by_pk, events_of in *.
    rewrite Ho, He. auto.
Qed.

Lemma run_replays trace s0 oid d :
  replays s0 oid d → replays s0 oid (run trace d).
Proof.
  revert d. induction trace as [|[now st] trace IH]; intros d Hr; [exact Hr|].
  simpl. apply IH.
  destruct (exec now st d) as [d'|e] eqn:E; simpl; [|exact Hr].
  eapply exec_replays; eassumption.
Qed.

(** C2, as the code has it.  Take an order from the insert that creates it,
    in a database that meets its constraints, through any statements that
    follow.  The order is entered with the status the insert names,
    [pending] when it names none, and without an event.  Whenever the events
    of the order were logged at ascending and pairwise different times, the
    order is still stored and replaying its events in [created_at] order
    from the status it was entered with yields its status; there is then
    no other way to put the events in [created_at] order. *)
Theorem status_replays_event_log
    (now : timestamptz) (new_id : uuid) (order_number product_name : string)
    (quantity : Z) (status : option order_status) (priority : option Z)
    (scheduled_start scheduled_end : option timestamptz)
    (notes : option string) (d d0 : db)
    (trace : list (timestamptz * statement)) :
  consistent d →
  insert_production_orders now new_id order_number product_name quantity
    status priority scheduled_start scheduled_end notes d = Ok d0 →
  StronglySorted created_at_before (events_of (run trace d0) new_id) →
  ∃ o,
    production_orders_by_pk (run trace d0) new_id = Some o
    ∧ replay (default pending status) (event_log (run trace d0) new_id)
      = Some (ProductionOrder.status o)
    ∧ ∀ log, log ≡ₚ events_of (run trace d0) new_id →
             StronglySorted created_at_asc log →
             replay (default pending status) log
             = Some (ProductionOrder.status o).
Proof.
  intros Hc Hins Hs.
  destruct (run_replays trace (default pending status) new_id d0
              (insert_production_orders_replays _ _ _ _ _ _ _ _ _ _ _ _ Hc
                 Hins)) as (o & Hget & Hr).
  exists o. split; [exact Hget|]. split.
  - rewrite (event_log_as_logged _ _ Hs). exact Hr.
  - intros log Hp Hsorted.
    rewrite (created_at_order_unique _ _ Hs Hp Hsorted). exact Hr.
Qed.

Lemma sample_script_sample_db : run sample_script empty_db = sample_db.
Proof. vm_compute. reflexivity. Qed.

Lemma status_replays_event_log_witness :
  (∃ d0 o,
     insert_production_orders 1 1 "PO-001" "Valve" 100 None (Some 5) None
       None None empty_db = Ok d0
     ∧ production_orders_by_pk (run (drop 1 scenario) d0) 1 = Some o
     ∧ ProductionOrder.status o = completed
     ∧ length (event_log (run (drop 1 scenario) d0) 1) = 4%nat
     ∧ replay pending (event_log (run (drop 1 scenario) d0) 1)
       = Some (ProductionOrder.status o))
  ∧ (∃ d0 o,
       insert_production_orders 0 9 "PO-2024-001" "Industrial Valve Type A"
         100 (Some in_progress) (Some 5) (Some 0) (Some (days 2))
         (Some "Urgent order for key client")
         (run (take 9 sample_script) empty_db) = Ok d0
       ∧ run (drop 10 sample_script) d0 = sample_db
       ∧ production_orders_by_pk sample_db 9 = Some o
       ∧ replay in_progress (event_log sample_db 9)
         = Some (ProductionOrder.status o)).
Proof.
  split.
  - set (d0 := committed empty_db
                 (insert_production_orders 1 1 "PO-001" "Valve" 100 None
                    (Some 5) None None None empty_db)).
    assert (insert_production_orders 1 1 "PO-001" "Valve" 100 None (Some 5)
              None None None empty_db = Ok d0) as Hins
      by (vm_compute; reflexivity).
    destruct (status_replays_event_log 1 1 "PO-001" "Valve" 100 None (Some 5)
                None None None empty_db d0 (drop 1 scenario)
                consistent_empty Hins ltac:(by_computation))
      as (o & Hget & Hrep & _).
    exists d0, o. split; [exact Hins|]. split; [exact Hget|].
    split; [vm_compute in Hget; injection Hget as <-; reflexivity|].
    split; [vm_compute; reflexivity | exact Hrep].
  - set (d := run (take 9 sample_script) empty_db).
    set (d0 := committed d
                 (insert_production_orders 0 9 "PO-2024-001"
                    "Industrial Valve Type A" 100 (Some in_progress) (Some 5)
                    (Some 0) (Some (days 2))
                    (Some "Urgent order for key client") d)).
    assert (insert_production_orders 0 9 "PO-2024-001"
              "Industrial Valve Type A" 100 (Some in_progress) (Some 5)
              (Some 0) (Some (days 2)) (Some "Urgent order for key client") d
            = Ok d0) as Hins by (vm_compute; reflexivity).
    assert (run (drop 10 sample_script) d0 = sample_db) as Hrun
      by (vm_compute; reflexivity).
    destruct (status_replays_event_log 0 9 "PO-2024-001"
                "Industrial Valve Type A" 100 (Some in_progress) (Some 5)
                (Some 0) (Some (days 2)) (Some "Urgent order for key client")
                d d0 (drop 10 sample_script)
                (run_consistent _ _ consistent_empty) Hins
                ltac:(by_computation))
      as (o & Hget & Hrep & _).
    rewrite Hrun in Hget, Hrep.
    exists d0, o. auto.
Defined.

(** C2, as the specification has it, fails on the sample data, in two ways.
    The script enters the order "PO-2024-001" (identifier [9]) as
    [in_progress]; the trigger fires on updates only, so the order has no
    events, and a replay of its empty log from [pending] ends in
    [pending].  And the order "PO-2024-003" (identifier [11]), entered as
    [pending], is scheduled, started and completed by three updates that
    share one [NOW()]: its three events carry the same [created_at], their
    [created_at] order is not the order of the changes, and the replay of
    the log from [pending] breaks off while the order is completed. *)
Lemma sample_order_not_replayed_from_pending :
  (∃ o,
     seed 0 N.of_nat = Ok sample_db
     ∧ production_orders_by_pk sample_db 9 = Some o
     ∧ ProductionOrder.status o = in_progress
     ∧ event_log sample_db 9 = []
     ∧ replay pending (event_log sample_db 9) = Some pending)
  ∧ let d :=
      run [(9, UPDATE_production_orders_by_pk 40 11
                 (production_orders_set_input.only_status scheduled));
           (9, UPDATE_production_orders_by_pk 41 11
                 (production_orders_set_input.only_status in_progress));
           (9, UPDATE_production_orders_by_pk 42 11
                 (production_orders_set_input.only_status completed))]
          sample_db in
    ∃ o o',
      production_orders_by_pk sample_db 11 = Some o
      ∧ ProductionOrder.status o = pending
      ∧ events_of sample_db 11 = []
      ∧ production_orders_by_pk d 11 = Some o'
      ∧ ProductionOrder.status o' = completed
      ∧ OrderEvent.created_at <$> events_of d 11 = [9; 9; 9]
      ∧ event_log d 11 ≡ₚ events_of d 11
      ∧ StronglySorted created_at_asc (event_log d 11)
      ∧ replay pending (events_of d 11) = Some completed
      ∧ replay pending (event_log d 11) = None.
Proof.
  split.
  - eexists. split; [vm_compute; reflexivity|].
    split; [vm_compute; reflexivity|]. split; [reflexivity|].
    split; vm_compute; reflexivity.
  - intros d. eexists _, _.
    split; [vm_compute; reflexivity|]. split; [reflexivity|].
    split; [vm_compute; reflexivity|].
    split; [vm_compute; reflexivity|]. split; [reflexivity|].
    split; [vm_compute; reflexivity|].
    split; [apply merge_sort_Permutation|].
    split; [apply StronglySorted_merge_sort; apply _|].
    split; vm_compute; reflexivity.
Qed.

(** * Further properties *)

(** ** What statements did, row by row *)

Lemma Forall_replace {row} (key : row → uuid) (P : row → Prop) pk NEW l :
  Forall P l → P NEW → Forall P (replace key pk NEW l).
Proof.
  intros Hl HN. unfold replace. apply Forall_fmap.
  eapply Forall_impl; [exact Hl|]. intros x Hx. simpl.
  destruct (decide _); assumption.
Qed.

Lemma log_order_status_change_row now eid OLD NEW d d' :
  log_order_status_change UPDATE now eid OLD NEW d = Ok d' →
  ProductionOrder.status OLD ≠ ProductionOrder.status NEW →
  d' = with_order_events (order_events d ++ [logged_event now eid OLD NEW]) d.
Proof.
  unfold log_order_status_change. intros H Hne.
  rewrite bool_decide_eq_true_2 in H by auto.
  unfold insert_order_events in H.
  change (varchar 50 "status_change") with (Ok "status_change"%string) in H.
  simpl in H. inv_ok. subst d'. reflexivity.
Qed.

Lemma update_resources_by_pk_inv now pk s d d' r :
  update_resources_by_pk now pk s d = Ok (d', r) →
  (resources_by_pk d pk = None ∧ d' = d ∧ r = None)
  ∨ ∃ OLD NEW,
      resources_by_pk d pk = Some OLD
      ∧ NEW = update_updated_at_column now (set_resource_status s OLD)
      ∧ r = Some NEW
      ∧ d' = with_resources (replace Resource.id pk NEW (resources d)) d.
Proof.
  unfold update_resources_by_pk.
  destruct (resources_by_pk d pk) as [OLD|] eqn:Hpk; intros [= <- <-].
  - right. eexists _, _. auto.
  - left. auto.
Qed.

(** What a statement does to the orders and to the events: the orders stay,
    or one is added, or the one under a key is replaced; the events stay,
    or the one event of a status change is added. *)
Lemma exec_orders_events now st d d' :
  exec now st d = Ok d' →
  (production_orders d' = production_orders d
   ∧ order_events d' = order_events d)
  ∨ (∃ NEW, production_orders d' = production_orders d ++ [NEW]
            ∧ order_events d' = order_events d
            ∧ ProductionOrder.created_at NEW = now
            ∧ ProductionOrder.updated_at NEW = now)
  ∨ (∃ eid pk OLD NEW,
       production_orders_by_pk d pk = Some OLD
       ∧ production_orders d'
         = replace ProductionOrder.id pk NEW (production_orders d)
       ∧ ProductionOrder.created_at NEW = ProductionOrder.created_at OLD
       ∧ ProductionOrder.updated_at NEW = now
       ∧ ((ProductionOrder.status OLD = ProductionOrder.status NEW
           ∧ order_events d' = order_events d)
          ∨ (ProductionOrder.status OLD ≠ ProductionOrder.status NEW
             ∧ order_events d'
               = order_events d ++ [logged_event now eid OLD NEW]))).
Proof.
  intros H. destruct st; simpl in H.
  - apply insert_production_orders_Ok in H
      as (NEW & -> & _ & _ & Hc & Hu & _). right. left. exists NEW. auto.
  - apply insert_resources_Ok in H as (NEW & -> & _). left. auto.
  - apply insert_resource_allocations_Ok in H as (NEW & -> & _). left. auto.
  - apply bind_Ok in H as ([d1 r] & H & [= <-]).
    apply update_production_orders_by_pk_Ok in H
      as [(_ & -> & _) | (OLD & NEW & d2 & Hpk & _ & _ & _ & Hc & Hu
                          & _ & _ & _ & -> & Hlog)]; [left; auto|].
    right. right. exists event_id, pk, OLD, NEW.
    destruct (decide (ProductionOrder.status OLD = ProductionOrder.status NEW))
      as [Heq|Hne].
    + apply log_order_status_change_Ok in Hlog as [[_ ->] | (Hne & _)];
        [|contradiction]. simpl. auto 10.
    + apply log_order_status_change_row in Hlog; [|exact Hne]. subst d1.
      simpl. auto 10.
  - apply bind_Ok in H as ([d1 r] & H & [= <-]).
    apply update_resources_by_pk_Ok in H as (Ho & _ & He & _). left. auto.
Qed.

(** ** Events logged at ascending times *)

(** In a run whose statements are issued at strictly increasing times, the
    events are logged at ascending, pairwise different times: the events of
    every order are then in [created_at] order as they lie in the table. *)
Lemma exec_events_ascending t now st d d' :
  t < now →
  StronglySorted created_at_before (order_events d) →
  Forall (λ e, OrderEvent.created_at e ≤ t) (order_events d) →
  exec now st d = Ok d' →
  StronglySorted created_at_before (order_events d')
  ∧ Forall (λ e, OrderEvent.created_at e ≤ now) (order_events d').
Proof.
  intros Ht Hs Hb H.
  assert (Forall (λ e, OrderEvent.created_at e ≤ now) (order_events d))
    as Hb' by (eapply Forall_impl; [exact Hb|]; simpl; intros; lia).
  apply exec_orders_events in H
    as [[_ ->] | [(NEW & _ & -> & _)
                 | (eid & pk & OLD & NEW & _ & _ & _ & _
                    & [[_ ->] | [_ ->]])]]; auto.
  split.
  - apply StronglySorted_app_2; [|exact Hs | repeat constructor].
    intros x1 x2 H1 H2. apply list_elem_of_singleton in H2 as ->.
    rewrite Forall_forall in Hb. specialize (Hb _ H1).
    unfold created_at_before. simpl. lia.
  - apply Forall_app. split; [exact Hb'|]. apply Forall_singleton. simpl. lia.
Qed.

Lemma run_events_ascending trace t d oid :
  ticking t trace →
  StronglySorted created_at_before (order_events d) →
  Forall (λ e, OrderEvent.created_at e ≤ t) (order_events d) →
  StronglySorted created_at_before (events_of (run trace d) oid).
Proof.
  intros Htick Hs Hb. apply StronglySorted_filter.
  revert t d Htick Hs Hb.
  induction trace as [|[now st] trace IH]; intros t d Htick Hs Hb;
    [exact Hs|].
  simpl in *. destruct Htick as [Ht Htick].
  destruct (exec now st d) as [d'|e] eqn:E; simpl.
  - destruct (exec_events_ascending _ _ _ _ _ Ht Hs Hb E) as [Hs' Hb'].
    apply (IH now); assumption.
  - apply (IH now); [exact Htick | exact Hs|].
    eapply Forall_impl; [exact Hb|]. simpl. intros. lia.
Qed.

(** ** Time stamps *)

Lemma stamped_later t t' d : t ≤ t' → stamped t d → stamped t' d.
Proof.
  intros Ht (Ho & Hr & Ha & He). repeat split.
  - eapply Forall_impl; [exact Ho|]. simpl. intros. lia.
  - eapply Forall_impl; [exact Hr|]. simpl. intros. lia.
  - eapply Forall_impl; [exact Ha|]. simpl. intros. lia.
  - eapply Forall_impl; [exact He|]. simpl. intros. lia.
Qed.

Lemma exec_stamped t now st d d' :
  t ≤ now → stamped t d → exec now st d = Ok d' → stamped now d'.
Proof.
  intros Ht Hs H. apply (stamped_later t now d Ht) in Hs.
  destruct Hs as (Ho & Hr & Ha & He).
  assert (production_orders d' = production_orders d
          ∧ order_events d' = order_events d → 
          Forall (λ o, ProductionOrder.created_at o
                       ≤ ProductionOrder.updated_at o ≤ now)
            (production_orders d')
          ∧ Forall (λ e, OrderEvent.created_at e ≤ now) (order_events d'))
    as Hsame by (intros [-> ->]; auto).
  destruct st; simpl in H.
  - pose proof (exec_orders_events now (INSERT_production_orders new_id
                  order_number product_name quantity status priority
                  scheduled_start scheduled_end notes) d d' H)
      as [Hs | [(NEW & HN & HE & Hc & Hu) | (? & ? & ? & ? & ? & HN & _)]].
    + apply insert_production_orders_Ok in H as (NEW & -> & _).
      simpl in Hs. destruct Hs as [Hs _].
      apply (f_equal length) in Hs. rewrite length_app in Hs. simpl in Hs. lia.
    + apply insert_production_orders_Ok in H as (NEW' & -> & _).
      simpl in *. split; [|auto]. rewrite HN.
      apply Forall_app. split; [exact Ho|]. apply Forall_singleton. lia.
    + apply insert_production_orders_Ok in H as (NEW' & -> & _).
      simpl in HN. apply (f_equal length) in HN.
      unfold replace in HN. rewrite length_app, length_fmap in HN.
      simpl in HN. lia.
  - unfold insert_resources in H. inv_ok. subst d'. repeat split; simpl; auto.
    apply Forall_app. split; [exact Hr|]. apply Forall_singleton. simpl. lia.
  - unfold insert_resource_allocations in H. inv_ok. subst d'.
    repeat split; simpl; auto.
    apply Forall_app. split; [exact Ha|]. apply Forall_singleton. simpl. lia.
  - pose proof (exec_orders_events now
                  (UPDATE_production_orders_by_pk event_id pk _set) d d' H)
      as Hoe.
    apply bind_Ok in H as ([d1 r] & H & [= ->]).
    assert (resources d' = resources d
            ∧ resource_allocations d' = resource_allocations d) as [HR HA].
    { apply update_production_orders_by_pk_Ok in H
        as [(_ & -> & _) | (OLD & NEW & d2 & _ & _ & _ & _ & _ & _
                            & _ & _ & _ & -> & Hlog)]; [auto|].
      apply log_order_status_change_Ok in Hlog
        as [[_ ->] | (_ & e & -> & _)]; simpl; auto. }
    unfold stamped. rewrite HR, HA.
    destruct Hoe as [Hs | [(NEW & HN & HE & Hc & Hu)
                          | (eid & pk' & OLD & NEW & Hpk & HN & Hc & Hu & Hev)]].
    + destruct (Hsame Hs). auto.
    + rewrite HN, HE. repeat split; auto.
      apply Forall_app. split; [exact Ho|]. apply Forall_singleton. lia.
    + rewrite HN. apply by_pk_Some in Hpk as [_ Hin].
      rewrite Forall_forall in Ho. pose proof (Ho _ Hin) as HOLD.
      rewrite <- Forall_forall in Ho.
      split; [apply Forall_replace; [exact Ho | lia]|].
      split; [exact Hr|]. split; [exact Ha|].
      destruct Hev as [[_ ->] | [_ ->]]; [exact He|].
      apply Forall_app. split; [exact He|]. apply Forall_singleton. simpl. lia.
  - apply bind_Ok in H as ([d1 r] & H & [= ->]).
    apply update_resources_by_pk_inv in H
      as [(_ & -> & _) | (OLD & NEW & Hpk & -> & _ & ->)];
      [repeat split; assumption|].
    repeat split; simpl; auto.
    apply by_pk_Some in Hpk as [_ Hin].
    rewrite Forall_forall in Hr. pose proof (Hr _ Hin) as HOLD.
    rewrite <- Forall_forall in Hr.
    apply Forall_replace; [exact Hr|]. simpl in *. lia.
Qed.

(** X1.  Time stamps stay in order.  In a run whose statements are issued
    at strictly increasing times, no row is ever stamped as updated before
    it was created, and no stamp (of a row or of an event) is later than the
    time of the last statement. *)
Theorem run_stamped (trace : list (timestamptz * statement))
    (t0 : timestamptz) (d : db) :
  ticking t0 trace → stamped t0 d → stamped (last_time t0 trace) (run trace d).
Proof.
  revert t0 d. induction trace as [|[now st] trace IH]; intros t0 d Ht Hs.
  - exact Hs.
  - simpl in *. destruct Ht as [Hlt Ht]. apply IH; [exact Ht|].
    destruct (exec now st d) as [d'|e] eqn:E; simpl.
    + apply (exec_stamped t0 now st d d'); [lia | exact Hs | exact E].
    + apply (stamped_later t0); [lia | exact Hs].
Qed.

Lemma run_stamped_witness :
  stamped (last_time 0 scenario) (run scenario sample_db).
Proof.
  apply (run_stamped scenario 0 sample_db).
  - by_computation.
  - by_computation.
Defined.

(** ** What the audit log holds *)

Lemma logged_event_status_change now eid OLD NEW :
  ProductionOrder.status OLD ≠ ProductionOrder.status NEW →
  status_change (logged_event now eid OLD NEW).
Proof.
  intros Hne. unfold status_change, logged_event. simpl.
  repeat split; eauto 10.
Qed.

Lemma run_order_events_new trace d e :
  e ∈ order_events (run trace d) →
  e ∈ order_events d
  ∨ (status_change e ∧ OrderEvent.created_at e ∈ trace.*1).
Proof.
  revert d. induction trace as [|[now st] trace IH]; intros d He.
  - left. exact He.
  - simpl in He. apply IH in He as [He | [Hs Ht]].
    2:{ right. split; [exact Hs|]. rewrite fmap_cons. right. exact Ht. }
    destruct (exec now st d) as [d'|err] eqn:E; simpl in He; [|left; exact He].
    apply exec_orders_events in E
      as [[_ Hev] | [(? & _ & Hev & _)
                    | (eid & pk & OLD & NEW & _ & _ & _ & _
                       & [[_ Hev] | [Hne Hev]])]];
      rewrite Hev in He; try (left; exact He).
    apply elem_of_app in He as [He | He]; [left; exact He|].
    apply list_elem_of_singleton in He as ->. right.
    split; [apply logged_event_status_change, Hne|].
    rewrite fmap_cons. left.
Qed.

(** X2.  Every event is a status change.  If all events of a database are
    rows as the trigger writes them (type [status_change], no [changed_by],
    an old and a new status that differ, the order's number and product as
    metadata), then so are all events after any run; each still refers to an
    order of the database, and each was stamped with the time of a statement
    of the run unless it was there before. *)
Theorem run_logs_status_changes (trace : list (timestamptz * statement))
    (d : db) :
  consistent d →
  Forall status_change (order_events d) →
  Forall (λ e, status_change e ∧ OrderEvent.order_id e ∈ order_ids (run trace d)
               ∧ (e ∈ order_events d
                  ∨ OrderEvent.created_at e ∈ trace.*1))
    (order_events (run trace d)).
Proof.
  intros Hc Hs. apply (run_consistent trace) in Hc.
  destruct Hc as (_ & _ & _ & _ & _ & _ & _ & _ & Hfk).
  rewrite Forall_forall in *. intros e He.
  split; [|split; [apply Hfk, He|]];
    destruct (run_order_events_new _ _ _ He) as [Hold | [Hnew Ht]]; auto.
Qed.

Lemma run_logs_status_changes_witness :
  Forall (λ e, status_change e
               ∧ OrderEvent.order_id e ∈ order_ids (run scenario sample_db)
               ∧ (e ∈ order_events sample_db
                  ∨ OrderEvent.created_at e ∈ scenario.*1))
    (order_events (run scenario sample_db)).
Proof.
  apply (run_logs_status_changes scenario sample_db).
  - exact sample_db_consistent.
  - vm_compute. constructor.
Defined.

(** ** The constraints, row by row *)

Lemma by_pk_member {row} (key : row → uuid) (l : list row) pk :
  pk ∈ key <$> l → is_Some (by_pk key l pk).
Proof.
  intros H. destruct (by_pk key l pk) eqn:E; [eauto|].
  apply by_pk_None in E. contradiction.
Qed.

(** X3.  The constraints of the schema survive every run.  After any run
    from a database that meets them: every order has a positive quantity
    and a priority from 1 to 5; no two orders share an identifier or an order
    number; no two allocations share their order, resource and start time;
    every allocation finds its order and its resource, and every event its
    order, by primary key. *)
Theorem run_keeps_constraints (trace : list (timestamptz * statement))
    (d : db) :
  consistent d →
  (∀ o, o ∈ production_orders (run trace d) →
        ProductionOrder.quantity o > 0 ∧ 1 ≤ ProductionOrder.priority o ≤ 5)
  ∧ (∀ o1 o2, o1 ∈ production_orders (run trace d) →
              o2 ∈ production_orders (run trace d) →
              ProductionOrder.id o1 = ProductionOrder.id o2
              ∨ ProductionOrder.order_number o1 = ProductionOrder.order_number o2 →
              o1 = o2)
  ∧ (∀ a1 a2, a1 ∈ resource_allocations (run trace d) →
              a2 ∈ resource_allocations (run trace d) →
              allocation_key a1 = allocation_key a2 → a1 = a2)
  ∧ (∀ a, a ∈ resource_allocations (run trace d) →
          is_Some (production_orders_by_pk (run trace d)
                     (ResourceAllocation.order_id a))
          ∧ is_Some (resources_by_pk (run trace d)
                       (ResourceAllocation.resource_id a)))
  ∧ (∀ e, e ∈ order_events (run trace d) →
          is_Some (production_orders_by_pk (run trace d)
                     (OrderEvent.order_id e))).
Proof.
  intros Hc. apply (run_consistent trace) in Hc.
  destruct Hc as (H1 & H2 & H3 & H4 & H5 & H6 & H7 & H8 & H9).
  rewrite Forall_forall in H3. rewrite Forall_forall in H7.
  rewrite Forall_forall in H9. repeat split.
  - destruct (H3 _ H) as [Hq _]. unfold quantity_check in Hq.
    apply bool_decide_eq_true in Hq. exact Hq.
  - destruct (H3 _ H) as [_ Hp]. unfold priority_check in Hp.
    apply bool_decide_eq_true in Hp. apply Hp.
  - destruct (H3 _ H) as [_ Hp]. unfold priority_check in Hp.
    apply bool_decide_eq_true in Hp. apply Hp.
  - intros o1 o2 Ho1 Ho2 [Heq | Heq].
    + exact (NoDup_fmap_eq _ _ _ _ H1 Ho1 Ho2 Heq).
    + exact (NoDup_fmap_eq _ _ _ _ H2 Ho1 Ho2 Heq).
  - intros a1 a2 Ha1 Ha2 Heq. exact (NoDup_fmap_eq _ _ _ _ H6 Ha1 Ha2 Heq).
  - apply by_pk_member. apply (H7 _ H).
  - apply by_pk_member. apply (H7 _ H).
  - intros e He. apply by_pk_member. apply (H9 _ He).
Qed.

Lemma run_keeps_constraints_witness :
  (∀ o, o ∈ production_orders (run scenario sample_db) →
        ProductionOrder.quantity o > 0 ∧ 1 ≤ ProductionOrder.priority o ≤ 5)
  ∧ (∀ o1 o2, o1 ∈ production_orders (run scenario sample_db) →
              o2 ∈ production_orders (run scenario sample_db) →
              ProductionOrder.id o1 = ProductionOrder.id o2
              ∨ ProductionOrder.order_number o1 = ProductionOrder.order_number o2 →
              o1 = o2)
  ∧ (∀ a1 a2, a1 ∈ resource_allocations (run scenario sample_db) →
              a2 ∈ resource_allocations (run scenario sample_db) →
              allocation_key a1 = allocation_key a2 → a1 = a2)
  ∧ (∀ a, a ∈ resource_allocations (run scenario sample_db) →
          is_Some (production_orders_by_pk (run scenario sample_db)
                     (ResourceAllocation.order_id a))
          ∧ is_Some (resources_by_pk (run scenario sample_db)
                       (ResourceAllocation.resource_id a)))
  ∧ (∀ e, e ∈ order_events (run scenario sample_db) →
          is_Some (production_orders_by_pk (run scenario sample_db)
                     (OrderEvent.order_id e))).
Proof.
  apply (run_keeps_constraints scenario sample_db). by_computation.
Defined.

(** ** Column types *)

Lemma length_substring_0 n s : (String.length (String.substring 0 n s) ≤ n)%nat.
Proof.
  revert s. induction n as [|n IH]; intros s.
  - destruct s; simpl; lia.
  - destruct s as [|c s]; simpl; [lia|]. specialize (IH s). lia.
Qed.

Lemma varchar_Ok_length n s s' :
  varchar n s = Ok s' → (String.length s' ≤ n)%nat.
Proof.
  unfold varchar. case_bool_decide as Hl.
  - intros [= <-]. exact Hl.
  - destruct (all_blank _); [|discriminate]. intros [= <-].
    apply length_substring_0.
Qed.

Lemma assign_Ok {A} (f : A → result A) old new v (P : A → Prop) :
  assign f old new = Ok v → P old → (∀ x y, f x = Ok y → P y) → P v.
Proof.
  destruct new as [x|]; simpl; intros H Hold Hf.
  - eapply Hf, H.
  - injection H as <-. exact Hold.
Qed.

Lemma nullable_decimal_10_2_Ok o o' :
  nullable decimal_10_2 o = Ok o' → from_option in_decimal_10_2 True o'.
Proof.
  destruct o as [z|]; simpl; intros H.
  - apply bind_Ok in H as (z' & Hz & [= <-]).
    apply decimal_10_2_Ok in Hz as [-> Hz]. exact Hz.
  - injection H as <-. exact I.
Qed.

Lemma update_production_orders_by_pk_inv now eid pk _set d d' NEW :
  update_production_orders_by_pk now eid pk _set d = Ok (d', Some NEW) →
  ∃ OLD NEW0,
    production_orders_by_pk d pk = Some OLD
    ∧ apply_set _set OLD = Ok NEW0
    ∧ NEW = update_updated_at_column now NEW0
    ∧ log_order_status_change UPDATE now eid OLD NEW
        (with_production_orders
           (replace ProductionOrder.id pk NEW (production_orders d)) d)
      = Ok d'.
Proof.
  unfold update_production_orders_by_pk.
  destruct (production_orders_by_pk d pk) as [OLD|]; [|discriminate].
  intros H. inv_ok. subst. exists OLD, x. auto.
Qed.

Lemma apply_set_fits _set OLD NEW :
  apply_set _set OLD = Ok NEW →
  (String.length (ProductionOrder.order_number OLD) ≤ 50)%nat
  ∧ (String.length (ProductionOrder.product_name OLD) ≤ 255)%nat
  ∧ in_integer (ProductionOrder.quantity OLD)
  ∧ in_integer (ProductionOrder.priority OLD) →
  (String.length (ProductionOrder.order_number NEW) ≤ 50)%nat
  ∧ (String.length (ProductionOrder.product_name NEW) ≤ 255)%nat
  ∧ in_integer (ProductionOrder.quantity NEW)
  ∧ in_integer (ProductionOrder.priority NEW).
Proof.
  unfold apply_set. intros H (H1 & H2 & H3 & H4). inv_ok. subst NEW. simpl.
  repeat split.
  - eapply (assign_Ok _ _ _ _ (λ s, (String.length s ≤ 50)%nat));
      [eassumption | assumption | apply varchar_Ok_length].
  - eapply (assign_Ok _ _ _ _ (λ s, (String.length s ≤ 255)%nat));
      [eassumption | assumption | apply varchar_Ok_length].
  - eapply (assign_Ok _ _ _ _ in_integer); [eassumption | assumption |].
    intros a b Hab. apply integer_Ok in Hab as [-> Hab]. exact Hab.
  - eapply (assign_Ok _ _ _ _ in_integer); [eassumption | assumption |].
    intros a b Hab. apply integer_Ok in Hab as [-> Hab]. exact Hab.
  - eapply (assign_Ok _ _ _ _ in_integer); [eassumption | assumption |].
    intros a b Hab. apply integer_Ok in Hab as [-> Hab]. exact Hab.
  - eapply (assign_Ok _ _ _ _ in_integer); [eassumption | assumption |].
    intros a b Hab. apply integer_Ok in Hab as [-> Hab]. exact Hab.
Qed.

Lemma exec_fits_columns now st d d' :
  fits_columns d → exec now st d = Ok d' → fits_columns d'.
Proof.
  intros (Ho & Hr & Ha & He) H. destruct st; simpl in H.
  - unfold insert_production_orders in H. inv_ok. subst d'.
    repeat split; simpl; auto.
    apply Forall_app. split; [exact Ho|]. apply Forall_singleton. simpl.
    apply varchar_Ok_length in E, E0.
    apply integer_Ok in E1 as [-> ?]. apply integer_Ok in E2 as [-> ?].
    auto.
  - unfold insert_resources in H. inv_ok. subst d'.
    repeat split; simpl; auto.
    apply Forall_app. split; [exact Hr|]. apply Forall_singleton. simpl.
    apply varchar_Ok_length in E.
    apply nullable_decimal_10_2_Ok in E0, E1. auto.
  - unfold insert_resource_allocations in H. inv_ok. subst d'.
    repeat split; simpl; auto.
    apply Forall_app. split; [exact Ha|]. apply Forall_singleton. simpl.
    apply decimal_10_2_Ok in E as [-> ?]. assumption.
  - apply bind_Ok in H as ([d1 [NEW|]] & H & [= ->]).
    2:{ apply update_production_orders_by_pk_Ok in H
          as [(_ & -> & _) | (? & ? & ? & _ & [=] & _)].
        repeat split; assumption. }
    apply update_production_orders_by_pk_inv in H
      as (OLD & NEW0 & Hpk & Hset & -> & Hlog).
    apply by_pk_Some in Hpk as [_ Hin].
    rewrite Forall_forall in Ho. pose proof (Ho _ Hin) as HOLD.
    rewrite <- Forall_forall in Ho.
    pose proof (apply_set_fits _ _ _ Hset HOLD) as HNEW.
    destruct (decide (ProductionOrder.status OLD
                      = ProductionOrder.status (update_updated_at_column now NEW0)))
      as [Heq|Hne].
    + apply log_order_status_change_Ok in Hlog as [[_ ->] | (Hne & _)];
        [|contradiction].
      repeat split; simpl; auto. apply Forall_replace; [exact Ho | exact HNEW].
    + apply log_order_status_change_row in Hlog; [|exact Hne]. subst d'.
      repeat split; simpl; auto.
      * apply Forall_replace; [exact Ho | exact HNEW].
      * apply Forall_app. split; [exact He|]. apply Forall_singleton.
        simpl. lia.
  - apply bind_Ok in H as ([d1 r] & H & [= ->]).
    apply update_resources_by_pk_inv in H
      as [(_ & -> & _) | (OLD & NEW & Hpk & -> & _ & ->)];
      [repeat split; assumption|].
    repeat split; simpl; auto.
    apply by_pk_Some in Hpk as [_ Hin].
    rewrite Forall_forall in Hr. pose proof (Hr _ Hin) as HOLD.
    rewrite <- Forall_forall in Hr.
    apply Forall_replace; [exact Hr | exact HOLD].
Qed.

(** X4.  Stored values fit their columns.  After any run from a database
    whose values do, every order number has at most 50 characters, every
    product and resource name at most 255, every event type at most 50;
    quantities and priorities are 32-bit integers, capacities, hourly costs
    and allocated quantities lie within [DECIMAL(10,2)]. *)
Theorem run_fits_columns (trace : list (timestamptz * statement)) (d : db) :
  fits_columns d → fits_columns (run trace d).
Proof.
  revert d. induction trace as [|[now st] trace IH]; intros d Hf; simpl.
  - exact Hf.
  - apply IH. destruct (exec now st d) as [d'|e] eqn:E; simpl; [|exact Hf].
    eapply exec_fits_columns; eassumption.
Qed.

Lemma run_fits_columns_witness : fits_columns (run scenario sample_db).
Proof. apply (run_fits_columns scenario sample_db). by_computation. Defined.

(** ** What an update leaves alone *)

(** X5.  An update of one order touches that order only.  When
    [update_production_orders_by_pk] returns a row, the row keeps its key and
    its [created_at]; every other order is as it was, and so are all
    resources, all allocations, the set of order identifiers, and the events
    of every other order. *)
Theorem update_production_orders_by_pk_frame
    (now : timestamptz) (event_id pk : uuid)
    (_set : production_orders_set_input.t) (d d' : db)
    (NEW : ProductionOrder.row) :
  update_production_orders_by_pk now event_id pk _set d = Ok (d', Some NEW) →
  (∃ OLD, production_orders_by_pk d pk = Some OLD
          ∧ ProductionOrder.created_at NEW = ProductionOrder.created_at OLD)
  ∧ ProductionOrder.id NEW = pk
  ∧ (∀ pk', pk' ≠ pk →
            production_orders_by_pk d' pk' = production_orders_by_pk d pk')
  ∧ order_ids d' = order_ids d
  ∧ resources d' = resources d
  ∧ resource_allocations d' = resource_allocations d
  ∧ (∀ order_id, order_id ≠ pk → events_of d' order_id = events_of d order_id).
Proof.
  intros H.
  pose proof H as Hinv. apply update_production_orders_by_pk_Ok in Hinv
    as [(_ & _ & [=]) | (OLD & NEW' & d1 & Hpk & [= <-] & Hid & _ & Hc & _
                         & _ & _ & _ & -> & Hlog)].
  pose proof (update_production_orders_by_pk_stored _ _ _ _ _ _ _ _ Hpk H)
    as (Ho & _ & Hother & Hr & Ha).
  split; [eauto|]. split; [exact Hid|]. split; [exact Hother|].
  split; [unfold order_ids; rewrite Ho; apply keys_replace, Hid|].
  split; [exact Hr|]. split; [exact Ha|].
  intros oid Hne.
  destruct (decide (ProductionOrder.status OLD = ProductionOrder.status NEW))
    as [Heq|Hdiff].
  - apply log_order_status_change_Ok in Hlog as [[_ ->] | (Hdiff & _)];
      [reflexivity | contradiction].
  - apply log_order_status_change_row in Hlog; [|exact Hdiff]. subst d'.
    unfold events_of. simpl. rewrite filter_app, filter_cons, filter_nil.
    simpl. rewrite decide_False by congruence. apply app_nil_r.
Qed.

Lemma update_production_orders_by_pk_frame_witness :
  ∃ NEW d',
    update_production_orders_by_pk 9 40 11
      (production_orders_set_input.only_status cancelled) sample_db
    = Ok (d', Some NEW)
    ∧ (∃ OLD, production_orders_by_pk sample_db 11 = Some OLD
              ∧ ProductionOrder.created_at NEW = ProductionOrder.created_at OLD)
    ∧ ProductionOrder.id NEW = 11%N
    ∧ (∀ pk', pk' ≠ 11%N →
              production_orders_by_pk d' pk'
              = production_orders_by_pk sample_db pk')
    ∧ order_ids d' = order_ids sample_db
    ∧ resources d' = resources sample_db
    ∧ resource_allocations d' = resource_allocations sample_db
    ∧ (∀ order_id, order_id ≠ 11%N →
                   events_of d' order_id = events_of sample_db order_id).
Proof.
  eexists _, _. split; [vm_compute; reflexivity|].
  eapply (update_production_orders_by_pk_frame 9 40 11
            (production_orders_set_input.only_status cancelled)).
  vm_compute. reflexivity.
Defined.

(** ** Keys that are missing, keys that are taken *)

(** X6.  An update under a key that no row has returns [null] and does
    nothing, and that is the only way an update returns [null]: for
    orders and for resources alike, [update_..._by_pk] answers
    [Ok (d', None)] exactly when the key is absent, and then [d'] is the
    database as it was. *)
Theorem update_by_pk_null
    (now : timestamptz) (event_id pk : uuid)
    (_set : production_orders_set_input.t) (status : resource_status)
    (d d' : db) :
  (update_production_orders_by_pk now event_id pk _set d = Ok (d', None)
   ↔ (pk ∉ order_ids d) ∧ d' = d)
  ∧ (update_resources_by_pk now pk status d = Ok (d', None)
     ↔ (pk ∉ resource_ids d) ∧ d' = d).
Proof.
  split; split.
  - intros H. apply update_production_orders_by_pk_Ok in H
      as [(Hn & -> & _) | (? & ? & ? & _ & [=] & _)].
    split; [|reflexivity]. apply by_pk_None, Hn.
  - intros [Hn ->]. apply update_production_orders_by_pk_None.
    apply by_pk_None, Hn.
  - intros H. apply update_resources_by_pk_inv in H
      as [(Hn & -> & _) | (? & ? & _ & _ & [=] & _)].
    split; [|reflexivity]. apply by_pk_None, Hn.
  - intros [Hn ->]. unfold update_resources_by_pk, resources_by_pk.
    apply by_pk_None in Hn. rewrite Hn. reflexivity.
Qed.

(** X7.  An allocation must name an order and a resource that exist.  An
    insert into [resource_allocations] whose quantity, identifier and
    (order, resource, start time) triple pass, but whose order or resource
    is not in the database, is rejected with a foreign-key violation, which
    the error taxonomy files under [NotFound]. *)
Theorem insert_resource_allocations_unknown
    (now : timestamptz) (new_id order_id resource_id : uuid)
    (q : decimal) (start_time : timestamptz) (end_time : option timestamptz)
    (d : db) :
  in_decimal_10_2 q →
  new_id ∉ allocation_ids d →
  (order_id, resource_id, start_time)
    ∉ allocation_key <$> resource_allocations d →
  order_id ∉ order_ids d ∨ resource_id ∉ resource_ids d →
  insert_resource_allocations now new_id order_id resource_id q
    (Some start_time) end_time d = Err foreign_key_violation
  ∧ classify foreign_key_violation = NotFound.
Proof.
  intros Hq Hid Hkey Hmiss. split; [|reflexivity].
  unfold insert_resource_allocations.
  rewrite (decimal_10_2_fits _ Hq). simpl.
  rewrite (bool_decide_eq_true_2 (new_id ∉ _)) by exact Hid. simpl.
  rewrite (bool_decide_eq_true_2 (_ ∉ allocation_key <$> _)) by exact Hkey.
  simpl.
  destruct (decide (order_id ∈ order_ids d)) as [Ho|Ho].
  - rewrite (bool_decide_eq_true_2 (order_id ∈ _)) by exact Ho. simpl.
    destruct Hmiss as [Hm|Hm]; [contradiction|].
    rewrite bool_decide_eq_false_2 by exact Hm. reflexivity.
  - rewrite (bool_decide_eq_false_2 (order_id ∈ _)) by exact Ho. reflexivity.
Qed.

Lemma insert_resource_allocations_unknown_witness :
  insert_resource_allocations 5 20 99 4 700 (Some 5) None sample_db
  = Err foreign_key_violation
  ∧ classify foreign_key_violation = NotFound.
Proof.
  apply (insert_resource_allocations_unknown 5 20 99 4 700 5 None sample_db).
  - by_computation.
  - by_computation.
  - by_computation.
  - left. by_computation.
Defined.

(** X8.  The same order cannot hold the same resource twice from the same
    start time.  Once an allocation is in, any further insert with its
    order, resource and start time is rejected with a unique violation,
    whatever identifier, quantity (within the column type) and end time it
    brings, and at whatever time. *)
Theorem insert_resource_allocations_twice
    (now now' : timestamptz) (new_id new_id' order_id resource_id : uuid)
    (q q' : decimal) (start_time : timestamptz)
    (end_time end_time' : option timestamptz) (d d' : db) :
  insert_resource_allocations now new_id order_id resource_id q
    (Some start_time) end_time d = Ok d' →
  in_decimal_10_2 q' →
  insert_resource_allocations now' new_id' order_id resource_id q'
    (Some start_time) end_time' d' = Err unique_violation
  ∧ classify unique_violation = DuplicateKey.
Proof.
  intros H Hq. split; [|reflexivity].
  apply insert_resource_allocations_Ok in H
    as (NEW & -> & _ & Ho & Hr & _ & [= Hs] & _).
  unfold insert_resource_allocations.
  rewrite (decimal_10_2_fits _ Hq). simpl.
  destruct (decide (new_id' ∈ allocation_ids
                      (with_resource_allocations
                         (resource_allocations d ++ [NEW]) d))) as [Hi|Hi].
  - rewrite (bool_decide_eq_false_2 (new_id' ∉ _)) by (intros Hn; exact (Hn Hi)).
    reflexivity.
  - rewrite (bool_decide_eq_true_2 (new_id' ∉ _)) by exact Hi. simpl.
    rewrite (bool_decide_eq_false_2 (_ ∉ allocation_key <$> _));
      [reflexivity|].
    intros Hn. apply Hn. rewrite fmap_app. apply elem_of_app. right.
    apply list_elem_of_singleton. unfold allocation_key. simpl.
    rewrite Ho, Hr, <- Hs. reflexivity.
Qed.

Lemma insert_resource_allocations_twice_witness :
  ∃ d',
    insert_resource_allocations 5 20 9 4 700 (Some 5) None sample_db = Ok d'
    ∧ insert_resource_allocations 6 21 9 4 100 (Some 5) (Some 8) d'
      = Err unique_violation
    ∧ classify unique_violation = DuplicateKey.
Proof.
  eexists. split; [vm_compute; reflexivity|].
  eapply (insert_resource_allocations_twice 5 6 20 21 9 4 700 100 5 None
            (Some 8) sample_db).
  - vm_compute. reflexivity.
  - by_computation.
Defined.

(** ** Updates against the constraints *)

Lemma assign_varchar_Err n old new e :
  assign (varchar n) old new = Err e → e = string_data_right_truncation.
Proof. destruct new; simpl; [apply varchar_Err | discriminate]. Qed.

Lemma assign_integer_Err old new e :
  assign integer old new = Err e → e = numeric_value_out_of_range.
Proof. destruct new; simpl; [apply integer_Err | discriminate]. Qed.

Lemma assign_integer_Some old z v :
  assign integer old (Some z) = Ok v → v = z.
Proof. simpl. intros H. apply integer_Ok in H as [-> _]. reflexivity. Qed.

(** X9.  The [CHECK]s hold on update as on insert.  An update of a stored
    order whose [_set] names a quantity that is not positive, or a priority
    outside 1..5, is rejected with a validation error, whatever else it
    sets; the database stays as it was. *)
Theorem update_production_orders_by_pk_checked
    (now : timestamptz) (event_id pk : uuid)
    (_set : production_orders_set_input.t) (d : db)
    (OLD : ProductionOrder.row) :
  production_orders_by_pk d pk = Some OLD →
  (∃ q, production_orders_set_input.quantity _set = Some q ∧ q ≤ 0)
  ∨ (∃ p, production_orders_set_input.priority _set = Some p
          ∧ (p < 1 ∨ 5 < p)) →
  (∃ e, update_production_orders_by_pk now event_id pk _set d = Err e
        ∧ classify e = ValidationError)
  ∧ after d (update_production_orders_by_pk now event_id pk _set d) = d.
Proof.
  intros Hpk Hbad.
  assert (∃ e, update_production_orders_by_pk now event_id pk _set d = Err e
               ∧ classify e = ValidationError) as (e & He & Hcl).
  { unfold update_production_orders_by_pk. rewrite Hpk. unfold apply_set.
    destruct (assign (varchar 50) _ _) as [n|e] eqn:En; simpl;
      [|apply assign_varchar_Err in En as ->; rejected].
    destruct (assign (varchar 255) _ _) as [p|e] eqn:Ep; simpl;
      [|apply assign_varchar_Err in Ep as ->; rejected].
    destruct (assign integer (ProductionOrder.quantity OLD) _) as [q|e] eqn:Eq;
      simpl; [|apply assign_integer_Err in Eq as ->; rejected].
    destruct (assign integer (ProductionOrder.priority OLD) _) as [pr|e] eqn:Epr;
      simpl; [|apply assign_integer_Err in Epr as ->; rejected].
    unfold quantity_check, priority_check. simpl.
    destruct Hbad as [(q0 & Hset & Hq) | (p0 & Hset & Hp)]; rewrite Hset in *.
    - apply assign_integer_Some in Eq as ->.
      rewrite (bool_decide_eq_false_2 (q0 > 0)) by lia. simpl. rejected.
    - apply assign_integer_Some in Epr as ->.
      rewrite (bool_decide_eq_false_2 (1 ≤ p0 ≤ 5)) by lia.
      rewrite andb_false_r. simpl. rejected. }
  split; [eauto|]. rewrite He. reflexivity.
Qed.

Lemma update_production_orders_by_pk_checked_witness :
  (∃ e, update_production_orders_by_pk 9 40 11
          {| production_orders_set_input.order_number := None;
             production_orders_set_input.product_name := None;
             production_orders_set_input.quantity := Some 0;
             production_orders_set_input.status := Some scheduled;
             production_orders_set_input.priority := None;
             production_orders_set_input.scheduled_start := None;
             production_orders_set_input.scheduled_end := None;
             production_orders_set_input.actual_start := None;
             production_orders_set_input.actual_end := None;
             production_orders_set_input.notes := None |} sample_db = Err e
        ∧ classify e = ValidationError)
  ∧ after sample_db
      (update_production_orders_by_pk 9 40 11
         {| production_orders_set_input.order_number := None;
            production_orders_set_input.product_name := None;
            production_orders_set_input.quantity := Some 0;
            production_orders_set_input.status := Some scheduled;
            production_orders_set_input.priority := None;
            production_orders_set_input.scheduled_start := None;
            production_orders_set_input.scheduled_end := None;
            production_orders_set_input.actual_start := None;
            production_orders_set_input.actual_end := None;
            production_orders_set_input.notes := None |} sample_db)
    = sample_db.
Proof.
  eapply update_production_orders_by_pk_checked.
  - vm_compute. reflexivity.
  - left. exists 0. split; [reflexivity | lia].
Defined.

(** X10.  An order cannot take another order's number.  In a database that
    meets its constraints, an update that sets [order_number] (and no other
    checked column) to the number of a different order is rejected with a
    unique violation; the database stays as it was. *)
Theorem update_production_orders_by_pk_order_number_taken
    (now : timestamptz) (event_id pk : uuid)
    (_set : production_orders_set_input.t) (d : db)
    (OLD other : ProductionOrder.row) (n : string) :
  consistent d →
  production_orders_by_pk d pk = Some OLD →
  production_orders_set_input.order_number _set = Some n →
  production_orders_set_input.product_name _set = None →
  production_orders_set_input.quantity _set = None →
  production_orders_set_input.priority _set = None →
  (String.length n ≤ 50)%nat →
  other ∈ production_orders d →
  ProductionOrder.id other ≠ pk →
  ProductionOrder.order_number other = n →
  update_production_orders_by_pk now event_id pk _set d = Err unique_violation
  ∧ classify unique_violation = DuplicateKey
  ∧ after d (update_production_orders_by_pk now event_id pk _set d) = d.
Proof.
  intros Hc Hpk Hn Hp Hq Hpr Hlen Hin Hne Hnum.
  assert (update_production_orders_by_pk now event_id pk _set d
          = Err unique_violation) as He.
  { unfold update_production_orders_by_pk. rewrite Hpk. unfold apply_set.
    rewrite Hn, Hp, Hq, Hpr. simpl. rewrite (varchar_fits _ _ Hlen). simpl.
    destruct (stored_order_checks _ _ _ Hc Hpk) as [Hqc Hpc].
    unfold quantity_check, priority_check in *. simpl. rewrite Hqc, Hpc.
    simpl. rewrite bool_decide_eq_false_2; [reflexivity|].
    unfold order_number_free. rewrite Forall_forall. intros Hfree.
    exact (Hfree other Hin Hne Hnum). }
  split; [exact He|]. split; [reflexivity|]. rewrite He. reflexivity.
Qed.

Lemma update_production_orders_by_pk_order_number_taken_witness :
  update_production_orders_by_pk 9 40 11
    {| production_orders_set_input.order_number := Some "PO-2024-001"%string;
       production_orders_set_input.product_name := None;
       production_orders_set_input.quantity := None;
       production_orders_set_input.status := None;
       production_orders_set_input.priority := None;
       production_orders_set_input.scheduled_start := None;
       production_orders_set_input.scheduled_end := None;
       production_orders_set_input.actual_start := None;
       production_orders_set_input.actual_end := None;
       production_orders_set_input.notes := None |} sample_db
  = Err unique_violation
  ∧ classify unique_violation = DuplicateKey
  ∧ after sample_db
      (update_production_orders_by_pk 9 40 11
         {| production_orders_set_input.order_number := Some "PO-2024-001"%string;
            production_orders_set_input.product_name := None;
            production_orders_set_input.quantity := None;
            production_orders_set_input.status := None;
            production_orders_set_input.priority := None;
            production_orders_set_input.scheduled_start := None;
            production_orders_set_input.scheduled_end := None;
            production_orders_set_input.actual_start := None;
            production_orders_set_input.actual_end := None;
            production_orders_set_input.notes := None |} sample_db)
    = sample_db.
Proof.
  destruct (production_orders_by_pk sample_db 11) as [OLD|] eqn:Hold;
    [|vm_compute in Hold; discriminate].
  destruct (production_orders_by_pk sample_db 9) as [other|] eqn:Hother;
    [|vm_compute in Hother; discriminate].
  apply (update_production_orders_by_pk_order_number_taken 9 40 11 _ sample_db
           OLD other "PO-2024-001").
  - exact sample_db_consistent.
  - exact Hold.
  - reflexivity.
  - reflexivity.
  - reflexivity.
  - reflexivity.
  - by_computation.
  - apply by_pk_Some in Hother. apply Hother.
  - vm_compute in Hother. injection Hother as <-. discriminate.
  - vm_compute in Hother. injection Hother as <-. reflexivity.
Defined.

(** ** The sample allocations *)

Lemma select_inner_other (po : ProductionOrder.row) (n : string)
    (names : list string) (q : decimal)
    (rs : list Resource.row) :
  ProductionOrder.order_number po ≠ n →
  (r ← rs;
   if decide (ProductionOrder.order_number po = n ∧ Resource.name r ∈ names)
   then [(ProductionOrder.id po, Resource.id r, q,
          ProductionOrder.scheduled_start po, ProductionOrder.scheduled_end po)]
   else []) = [].
Proof.
  intros Hne. induction rs as [|r rs IH]; [reflexivity|].
  rewrite bind_cons, IH. rewrite decide_False by (intros [? _]; contradiction).
  reflexivity.
Qed.

Lemma select_inner_match (po : ProductionOrder.row) (n : string)
    (names : list string) (q : decimal)
    (rs : list Resource.row) :
  ProductionOrder.order_number po = n →
  (r ← rs;
   if decide (ProductionOrder.order_number po = n ∧ Resource.name r ∈ names)
   then [(ProductionOrder.id po, Resource.id r, q,
          ProductionOrder.scheduled_start po, ProductionOrder.scheduled_end po)]
   else [])
  = (λ r, (ProductionOrder.id po, Resource.id r, q,
           ProductionOrder.scheduled_start po, ProductionOrder.scheduled_end po))
      <$> filter (λ r, Resource.name r ∈ names) rs.
Proof.
  intros Hn. induction rs as [|r rs IH]; [reflexivity|].
  rewrite bind_cons, IH, filter_cons.
  destruct (decide (Resource.name r ∈ names)) as [Hin|Hout].
  - rewrite decide_True by auto. reflexivity.
  - rewrite decide_False by (intros [_ ?]; contradiction). reflexivity.
Qed.

Lemma select_join (pos : list ProductionOrder.row) (rs : list Resource.row)
    (n : string) (names : list string) (q : decimal) :
  NoDup (ProductionOrder.order_number <$> pos) →
  (∀ po, po ∈ pos → ProductionOrder.order_number po = n →
     (po ← pos; r ← rs;
      if decide (ProductionOrder.order_number po = n ∧ Resource.name r ∈ names)
      then [(ProductionOrder.id po, Resource.id r, q,
             ProductionOrder.scheduled_start po,
             ProductionOrder.scheduled_end po)]
      else [])
     = (λ r, (ProductionOrder.id po, Resource.id r, q,
              ProductionOrder.scheduled_start po,
              ProductionOrder.scheduled_end po))
         <$> filter (λ r, Resource.name r ∈ names) rs)
  ∧ ((n ∉ ProductionOrder.order_number <$> pos) →
     (po ← pos; r ← rs;
      if decide (ProductionOrder.order_number po = n ∧ Resource.name r ∈ names)
      then [(ProductionOrder.id po, Resource.id r, q,
             ProductionOrder.scheduled_start po,
             ProductionOrder.scheduled_end po)]
      else []) = []).
Proof.
  induction pos as [|x pos IH]; intros Hnd.
  - split; [intros po Hpo; apply elem_of_nil in Hpo as [] | reflexivity].
  - rewrite fmap_cons in Hnd. apply NoDup_cons in Hnd as [Hx Hnd].
    destruct (IH Hnd) as [IH1 IH2]. split.
    + intros po Hpo Hn. rewrite bind_cons.
      apply elem_of_cons in Hpo as [->|Hpo].
      * rewrite select_inner_match by exact Hn.
        rewrite IH2 by (rewrite <- Hn; exact Hx). apply app_nil_r.
      * rewrite select_inner_other; [apply IH1; assumption|].
        intros Hxn. apply Hx. rewrite Hxn, <- Hn.
        apply list_elem_of_fmap_2, Hpo.
    + intros Hout. rewrite fmap_cons, not_elem_of_cons in Hout.
      destruct Hout as [Hne Hout]. rewrite bind_cons.
      rewrite select_inner_other by congruence. apply IH2, Hout.
Qed.

(** X11.  What the [INSERT ... SELECT ... CROSS JOIN ... LIMIT] of the sample
    script selects.  In a database that meets its constraints the order
    number picks one order at most, so the selection is: nothing when no
    order carries the number; else one row for each of the first [k]
    resources, in table order, whose name is among those asked for, each
    with that order, the quantity given and the order's scheduled start
    and end.  No resource is selected twice, so the rows cannot collide on
    [(order_id, resource_id, start_time)], and the order and the resource of
    every row are stored, so their foreign keys are met. *)
Theorem select_allocations_rows (d : db) (n : string) (names : list string)
    (q : decimal) (k : nat) :
  consistent d →
  (∀ po, po ∈ production_orders d → ProductionOrder.order_number po = n →
     select_allocations d n names q k
     = take k
         ((λ r, (ProductionOrder.id po, Resource.id r, q,
                 ProductionOrder.scheduled_start po,
                 ProductionOrder.scheduled_end po))
            <$> filter (λ r, Resource.name r ∈ names) (resources d)))
  ∧ ((n ∉ ProductionOrder.order_number <$> production_orders d) →
     select_allocations d n names q k = [])
  ∧ (n ∈ ProductionOrder.order_number <$> production_orders d →
     length (select_allocations d n names q k)
     = (k `min` length (filter (λ r, Resource.name r ∈ names) (resources d)))%nat)
  ∧ NoDup ((λ row, row.1.1.1.2) <$> select_allocations d n names q k)
  ∧ ∀ row, row ∈ select_allocations d n names q k →
           row.1.1.1.1 ∈ order_ids d ∧ row.1.1.1.2 ∈ resource_ids d.
Proof.
  intros (_ & Hnum & _ & Hres & _).
  destruct (select_join (production_orders d) (resources d) n names q Hnum)
    as [Hone Hnone].
  assert (∀ po, po ∈ production_orders d → ProductionOrder.order_number po = n →
            select_allocations d n names q k
            = take k
                ((λ r, (ProductionOrder.id po, Resource.id r, q,
                        ProductionOrder.scheduled_start po,
                        ProductionOrder.scheduled_end po))
                   <$> filter (λ r, Resource.name r ∈ names) (resources d)))
    as Hsel.
  { intros po Hpo Hn. unfold select_allocations. f_equal. apply Hone; assumption. }
  assert ((n ∉ ProductionOrder.order_number <$> production_orders d) →
          select_allocations d n names q k = []) as Hempty.
  { intros Hout. unfold select_allocations. rewrite (Hnone Hout).
    apply take_nil. }
  split; [exact Hsel|]. split; [exact Hempty|]. split; [|split].
  - intros Hin. apply list_elem_of_fmap in Hin as (po & Hn & Hpo).
    rewrite (Hsel po Hpo) by auto.
    rewrite length_take, length_fmap. reflexivity.
  - destruct (decide (n ∈ ProductionOrder.order_number <$> production_orders d))
      as [Hin|Hout]; [|rewrite (Hempty Hout); constructor].
    apply list_elem_of_fmap in Hin as (po & Hn & Hpo).
    rewrite (Hsel po Hpo) by auto.
    rewrite <- fmap_take, <- list_fmap_compose.
    change (NoDup (Resource.id
                     <$> take k (filter (λ r, Resource.name r ∈ names)
                                   (resources d)))).
    apply (sublist_NoDup _ (resource_ids d)); [exact Hres|].
    unfold resource_ids.
    apply fmap_sublist. etransitivity; [apply sublist_take|].
    apply sublist_filter.
  - intros row Hrow. unfold select_allocations in Hrow.
    apply subseteq_take in Hrow.
    apply list_elem_of_bind in Hrow as (po & Hrow & Hpo).
    apply list_elem_of_bind in Hrow as (r & Hrow & Hr).
    destruct (decide _) as [[Hn Hname]|_]; [|apply elem_of_nil in Hrow as []].
    apply list_elem_of_singleton in Hrow as ->. simpl. split.
    + apply list_elem_of_fmap_2, Hpo.
    + apply list_elem_of_fmap_2, Hr.
Qed.

Lemma select_allocations_rows_witness :
  (∀ po, po ∈ production_orders sample_db →
         ProductionOrder.order_number po = "PO-2024-001"%string →
     select_allocations sample_db "PO-2024-001"
       ["CNC Machine 01"; "John Smith"; "Steel Grade A"] 5000 3
     = take 3
         ((λ r, (ProductionOrder.id po, Resource.id r, 5000,
                 ProductionOrder.scheduled_start po,
                 ProductionOrder.scheduled_end po))
            <$> filter (λ r, Resource.name r
                             ∈ ["CNC Machine 01"; "John Smith";
                                "Steel Grade A"]%string)
                  (resources sample_db)))
  ∧ (("PO-2024-001"%string
      ∉ ProductionOrder.order_number <$> production_orders sample_db) →
     select_allocations sample_db "PO-2024-001"
       ["CNC Machine 01"; "John Smith"; "Steel Grade A"] 5000 3 = [])
  ∧ ("PO-2024-001"%string
     ∈ ProductionOrder.order_number <$> production_orders sample_db →
     length (select_allocations sample_db "PO-2024-001"
               ["CNC Machine 01"; "John Smith"; "Steel Grade A"] 5000 3)
     = (3 `min` length (filter (λ r, Resource.name r
                                     ∈ ["CNC Machine 01"; "John Smith";
                                        "Steel Grade A"]%string)
                          (resources sample_db)))%nat)
  ∧ NoDup ((λ row, row.1.1.1.2)
             <$> select_allocations sample_db "PO-2024-001"
                   ["CNC Machine 01"; "John Smith"; "Steel Grade A"] 5000 3)
  ∧ ∀ row, row ∈ select_allocations sample_db "PO-2024-001"
                   ["CNC Machine 01"; "John Smith"; "Steel Grade A"] 5000 3 →
           row.1.1.1.1 ∈ order_ids sample_db
           ∧ row.1.1.1.2 ∈ resource_ids sample_db.
Proof.
  apply (select_allocations_rows sample_db "PO-2024-001"
           ["CNC Machine 01"; "John Smith"; "Steel Grade A"] 5000 3).
  exact sample_db_consistent.
Defined.

(** ** Dictionaries *)

Section js_lemmas.
Context {K V : Type} `{EqDecision K}.

Implicit Types (k : K) (v : V) (m : list (K * V)).

Lemma js_get_None k m : js_get k m = None ↔ k ∉ m.*1.
Proof.
  unfold js_get. induction m as [|[k' v'] m IH].
  - split; [intros _; apply not_elem_of_nil | reflexivity].
  - rewrite filter_cons, fmap_cons, not_elem_of_cons. simpl.
    destruct (decide (k' = k)) as [->|Hne]; simpl.
    + split; [discriminate | intros [[] _]; reflexivity].
    + rewrite IH. split; [auto | tauto].
Qed.

Lemma js_get_elem_of k v m : NoDup m.*1 → (k, v) ∈ m → js_get k m = Some v.
Proof.
  unfold js_get. induction m as [|[k' v'] m IH]; intros Hnd Hin.
  - apply elem_of_nil in Hin as [].
  - rewrite fmap_cons in Hnd. apply NoDup_cons in Hnd as [Hk Hnd].
    rewrite filter_cons. simpl in *.
    apply elem_of_cons in Hin as [[= -> ->] | Hin].
    + rewrite decide_True by reflexivity. reflexivity.
    + rewrite decide_False; [auto|]. intros ->. apply Hk.
      apply (list_elem_of_fmap_2 fst) in Hin. exact Hin.
Qed.

Lemma js_get_Some k v m : js_get k m = Some v → (k, v) ∈ m.
Proof.
  unfold js_get. intros H.
  destruct (head _) as [[k' v']|] eqn:E; [|discriminate].
  injection H as ->. apply head_Some_elem_of in E.
  apply list_elem_of_filter in E as [Hk Hin]. simpl in Hk. subst k'. exact Hin.
Qed.

Lemma js_set_keys k v m :
  (js_set k v m).*1 = if decide (k ∈ m.*1) then m.*1 else m.*1 ++ [k].
Proof.
  unfold js_set. destruct (decide (k ∈ m.*1)) as [Hin|Hin].
  - rewrite <- list_fmap_compose. apply list_fmap_ext. intros i [k' v'] _.
    simpl. destruct (decide (k' = k)); simpl; congruence.
  - rewrite fmap_app. reflexivity.
Qed.

Lemma js_set_NoDup k v m : NoDup m.*1 → NoDup (js_set k v m).*1.
Proof.
  intros Hnd. rewrite js_set_keys. destruct (decide _); [exact Hnd|].
  apply NoDup_snoc; assumption.
Qed.

Lemma js_overwrite_absent k v m :
  k ∉ m.*1 →
  (λ kv : K * V, if decide (kv.1 = k) then (k, v) else kv) <$> m = m.
Proof.
  induction m as [|[k1 v1] m IH]; intros Hk; [reflexivity|].
  rewrite fmap_cons in Hk. apply not_elem_of_cons in Hk as [Hk1 Hm].
  rewrite fmap_cons. simpl in *. rewrite decide_False by congruence.
  rewrite IH by exact Hm. reflexivity.
Qed.

Lemma js_get_overwrite k k' v m :
  js_get k' ((λ kv : K * V, if decide (kv.1 = k) then (k, v) else kv) <$> m)
  = if decide (k' = k)
    then (if decide (k ∈ m.*1) then Some v else None)
    else js_get k' m.
Proof.
  unfold js_get. induction m as [|[k0 v0] m IH].
  - simpl. repeat destruct (decide _);
      reflexivity || (exfalso; eapply not_elem_of_nil; eassumption).
  - rewrite !fmap_cons. simpl fst.
    destruct (decide (k0 = k)) as [->|H0].
    + rewrite !filter_cons. simpl fst.
      destruct (decide (k = k')) as [->|Hkk].
      * rewrite decide_True by reflexivity.
        rewrite decide_True by left. reflexivity.
      * rewrite (decide_False (P := k' = k)) by congruence.
        rewrite (decide_False (P := k' = k)) in IH by congruence. exact IH.
    + rewrite !filter_cons. simpl fst.
      destruct (decide (k0 = k')) as [->|H0'].
      * rewrite (decide_False (P := k' = k)) by congruence. reflexivity.
      * rewrite IH. destruct (decide (k' = k)) as [->|Hkk]; [|reflexivity].
        destruct (decide (k ∈ m.*1)) as [Hin|Hin].
        -- rewrite decide_True by (right; exact Hin). reflexivity.
        -- rewrite decide_False; [reflexivity|].
           intros Hc. apply elem_of_cons in Hc as [Hc|Hc]; congruence.
Qed.

Lemma js_get_set k k' v m :
  js_get k' (js_set k v m) = if decide (k' = k) then Some v else js_get k' m.
Proof.
  unfold js_set. destruct (decide (k ∈ m.*1)) as [Hin|Hin].
  - rewrite js_get_overwrite. rewrite (decide_True (P := k ∈ m.*1)) by exact Hin.
    reflexivity.
  - apply js_get_None in Hin. unfold js_get in *. rewrite filter_app.
    rewrite filter_cons, filter_nil. simpl fst.
    destruct (decide (k = k')) as [->|Hne].
    + rewrite decide_True by reflexivity.
      destruct (filter _ m); [reflexivity | discriminate].
    + rewrite decide_False by congruence. rewrite app_nil_r. reflexivity.
Qed.

Lemma js_set_set k v v' m : js_set k v (js_set k v' m) = js_set k v m.
Proof.
  assert (k ∈ (js_set k v' m).*1) as Hk.
  { rewrite js_set_keys. destruct (decide _); [assumption|].
    apply elem_of_app. right. left. }
  unfold js_set at 1. rewrite (decide_True (P := k ∈ _)) by exact Hk.
  unfold js_set. destruct (decide (k ∈ m.*1)) as [Hin|Hin].
  - rewrite <- list_fmap_compose.
    apply list_fmap_ext. intros i [k0 v0] _. simpl.
    destruct (decide (k0 = k)) as [->|Hne]; simpl.
    + rewrite decide_True by reflexivity. reflexivity.
    + rewrite decide_False by exact Hne. reflexivity.
  - rewrite fmap_app. simpl. rewrite decide_True by reflexivity. f_equal.
    apply js_overwrite_absent, Hin.
Qed.

(** Writing an entry changes the total weight of a dictionary by the weight
    written less the weight read. *)
Lemma js_set_weight (w : V → nat) k v m :
  NoDup m.*1 →
  (sum_list_with (λ kv, w kv.2) (js_set k v m) + from_option w 0 (js_get k m)
   = sum_list_with (λ kv, w kv.2) m + w v)%nat.
Proof.
  intros Hnd. unfold js_set. destruct (decide (k ∈ m.*1)) as [Hin|Hin].
  - induction m as [|[k0 v0] m IH]; [apply elem_of_nil in Hin as []|].
    rewrite fmap_cons in Hnd. apply NoDup_cons in Hnd as [Hk0 Hnd].
    rewrite fmap_cons. unfold js_get. rewrite filter_cons. simpl in *.
    destruct (decide (k0 = k)) as [->|Hne]; simpl.
    + rewrite js_overwrite_absent by exact Hk0. lia.
    + apply elem_of_cons in Hin as [Hin|Hin]; [congruence|].
      specialize (IH Hnd Hin). unfold js_get in IH. lia.
  - apply js_get_None in Hin. rewrite Hin. rewrite sum_list_with_app. simpl.
    lia.
Qed.
End js_lemmas.

Section js_collect_lemmas.
Context {A K V : Type} `{EqDecision K} (key : A → K) (step : A → option V → V).

Lemma js_collect_snoc l x :
  js_collect key step (l ++ [x])
  = js_set (key x) (step x (js_get (key x) (js_collect key step l)))
      (js_collect key step l).
Proof. unfold js_collect. rewrite foldl_app. reflexivity. Qed.

Lemma js_collect_NoDup l : NoDup (js_collect key step l).*1.
Proof.
  induction l as [|x l IH] using rev_ind; [apply NoDup_nil_2|].
  rewrite js_collect_snoc. apply js_set_NoDup, IH.
Qed.

(** The entry under a key is what the elements with that key made of it,
    one after the other. *)
Lemma js_get_collect k l :
  js_get k (js_collect key step l)
  = foldl (λ o x, Some (step x o)) None (filter (λ x, key x = k) l).
Proof.
  induction l as [|x l IH] using rev_ind; [reflexivity|].
  rewrite js_collect_snoc, js_get_set, filter_app, foldl_app.
  rewrite filter_cons, filter_nil.
  destruct (decide (k = key x)) as [->|Hne].
  - rewrite decide_True by reflexivity. simpl. rewrite IH. reflexivity.
  - rewrite decide_False by congruence. simpl. exact IH.
Qed.

Lemma js_collect_weight (w : V → nat) (u : A → nat) l :
  (∀ x o, w (step x o) = from_option w 0 o + u x)%nat →
  sum_list_with (λ kv, w kv.2) (js_collect key step l) = sum_list_with u l.
Proof.
  intros Hw. induction l as [|x l IH] using rev_ind; [reflexivity|].
  rewrite js_collect_snoc, sum_list_with_app. simpl.
  pose proof (js_set_weight w (key x)
                (step x (js_get (key x) (js_collect key step l)))
                (js_collect key step l) (js_collect_NoDup l)) as Hs.
  rewrite Hw in Hs. lia.
Qed.
End js_collect_lemmas.

(** ** The analytics figures *)

Lemma js_or_zero_default o : js_or_zero o = default O o.
Proof. destruct o as [[|n]|]; reflexivity. Qed.

Lemma foldl_pointwise {A B} (f g : A → B → A) (l : list B) (a : A) :
  (∀ a x, f a x = g a x) → foldl f a l = foldl g a l.
Proof.
  intros Hfg. revert a. induction l as [|x l IH]; intros a; simpl;
    [reflexivity|]. rewrite Hfg. apply IH.
Qed.

Lemma sum_list_with_fmap {A B} (f : B → nat) (g : A → B) (l : list A) :
  sum_list_with f (g <$> l) = sum_list_with (f ∘ g) l.
Proof.
  induction l as [|x l IH]; csimpl; [reflexivity|]. rewrite IH. reflexivity.
Qed.

Lemma sum_list_with_ones {A} (l : list A) :
  sum_list_with (λ _, 1%nat) l = length l.
Proof. induction l as [|x l IH]; simpl; [reflexivity|]. rewrite IH. reflexivity. Qed.

Lemma sum_list_with_indicator {A} (P : A → Prop) `{∀ x, Decision (P x)}
    (l : list A) :
  sum_list_with (λ x, if decide (P x) then 1%nat else O) l
  = length (filter P l).
Proof.
  induction l as [|x l IH]; simpl; [reflexivity|].
  rewrite filter_cons. destruct (decide (P x)); simpl; rewrite IH; reflexivity.
Qed.

(** Counting by the update [(n || 0) + 1]. *)
Lemma count_fold {A} (l : list A) (o : option nat) :
  foldl (λ o (_ : A), Some (js_or_zero o + 1)%nat) o l
  = match l with
    | [] => o
    | _ => Some (default O o + length l)%nat
    end.
Proof.
  revert o. induction l as [|x l IH]; intros o; [reflexivity|].
  simpl. rewrite IH, js_or_zero_default. destruct l; simpl; f_equal; lia.
Qed.

Lemma counts_entries {A K} `{EqDecision K} (key : A → K) (l : list A) k c :
  (k, c) ∈ js_collect key (λ _ o, (js_or_zero o + 1)%nat) l →
  c = length (filter (λ x, key x = k) l) ∧ (0 < c)%nat.
Proof.
  intros Hin. apply js_get_elem_of in Hin; [|apply js_collect_NoDup].
  rewrite js_get_collect, count_fold in Hin.
  destruct (filter _ l) as [|x l']; [discriminate|].
  injection Hin as <-. simpl. split; lia.
Qed.

Lemma counts_total {A K} `{EqDecision K} (key : A → K) (l : list A) :
  sum_list (js_collect key (λ _ o, (js_or_zero o + 1)%nat) l).*2 = length l.
Proof.
  rewrite sum_list_with_fmap.
  rewrite (js_collect_weight key _ id (λ _, 1%nat)).
  - apply sum_list_with_ones.
  - intros x o. rewrite js_or_zero_default. destruct o; reflexivity.
Qed.

#[global] Instance status_name_inj :
  Inj (=) (=) (λ s, replace_first "_" " " (order_status_label s)).
Proof. intros [] []; intros H; vm_compute in H; congruence. Qed.

#[global] Instance resource_type_label_inj : Inj (=) (=) resource_type_label.
Proof. intros [] []; intros H; vm_compute in H; congruence. Qed.

(** X12.  The status pie adds up.  Each slice of [statusData] stands for one
    status that at least one order has; its name is the status label with
    the first underscore turned into a blank, its value the number of orders
    in that status; no two slices share a name, and the values add up to
    [totalOrders]. *)
Theorem statusData_slices (d : db) :
  sum_list (Analytics.statusData d).*2 = Analytics.totalOrders d
  ∧ NoDup (Analytics.statusData d).*1
  ∧ ∀ name value, (name, value) ∈ Analytics.statusData d →
      ∃ s, name = replace_first "_" " " (order_status_label s)
           ∧ value = length (filter (λ o, ProductionOrder.status o = s)
                               (production_orders d))
           ∧ (0 < value)%nat.
Proof.
  unfold Analytics.statusData, Analytics.totalOrders.
  change (Analytics.statusCounts d)
    with (js_collect ProductionOrder.status (λ _ o, (js_or_zero o + 1)%nat)
            (production_orders d)).
  set (m := js_collect _ _ _). repeat split.
  - rewrite <- list_fmap_compose.
    exact (counts_total ProductionOrder.status (production_orders d)).
  - rewrite <- list_fmap_compose.
    change (NoDup (((λ s, replace_first "_" " " (order_status_label s)) ∘ fst)
                     <$> m)).
    rewrite (list_fmap_compose fst).
    apply NoDup_fmap_2; [apply _|]. apply js_collect_NoDup.
  - intros name value Hin.
    apply list_elem_of_fmap in Hin as ([s c] & [= -> ->] & Hin).
    exists s. split; [reflexivity|]. apply (counts_entries _ _ _ _ Hin).
Qed.

Lemma count_resource_step d m r :
  Analytics.count_resource d m r
  = js_set (Resource.type r)
      ((λ r o, let c := default (O, O) o in
               (S c.1,
                if decide (0 < ResourcesList.aggregate_count d (Resource.id r))%nat
                then S c.2 else c.2)) r (js_get (Resource.type r) m))
      m.
Proof.
  unfold Analytics.count_resource. simpl.
  destruct (js_get (Resource.type r) m) as [c|] eqn:E.
  - rewrite E. reflexivity.
  - rewrite js_get_set, decide_True by reflexivity. simpl.
    apply js_set_set.
Qed.

Lemma type_count_fold d (l : list Resource.row) (c : nat * nat) :
  foldl (λ o r, Some (let c := default (O, O) o in
                      (S c.1,
                       if decide (0 < ResourcesList.aggregate_count d
                                        (Resource.id r))%nat
                       then S c.2 else c.2)))
        (Some c) l
  = Some ((c.1 + length l)%nat,
          (c.2 + length (filter (λ r, 0 < ResourcesList.aggregate_count d
                                            (Resource.id r))%nat l))%nat).
Proof.
  revert c. induction l as [|r l IH]; intros [c1 c2].
  - simpl. rewrite !Nat.add_0_r. reflexivity.
  - simpl foldl. rewrite IH. rewrite filter_cons. simpl.
    destruct (decide _); simpl; do 2 f_equal; lia.
Qed.

(** X13.  The resource bars add up.  Each bar of [resourceTypeData] stands
    for one type that at least one resource has: [total] is the number of
    resources of the type, [active] the number of them that have an
    allocation, [idle] the rest, never negative.  No two bars share a name;
    the totals add up to [totalResources] and the [active] figures to
    [activeResources]. *)
Theorem resourceTypeData_bars (d : db) :
  sum_list_with (λ bar, bar.1.1.2) (Analytics.resourceTypeData d)
  = Analytics.totalResources d
  ∧ sum_list_with (λ bar, bar.1.2) (Analytics.resourceTypeData d)
    = Analytics.activeResources d
  ∧ NoDup ((λ bar, bar.1.1.1) <$> Analytics.resourceTypeData d)
  ∧ ∀ name total active idle,
      (name, total, active, idle) ∈ Analytics.resourceTypeData d →
      ∃ t, name = resource_type_label t
           ∧ total = length (filter (λ r, Resource.type r = t) (resources d))
           ∧ active
             = length (filter (λ r, 0 < ResourcesList.aggregate_count d
                                          (Resource.id r))%nat
                         (filter (λ r, Resource.type r = t) (resources d)))
           ∧ idle = Z.of_nat total - Z.of_nat active
           ∧ 0 ≤ idle
           ∧ (0 < total)%nat.
Proof.
  unfold Analytics.resourceTypeData, Analytics.totalResources,
    Analytics.activeResources.
  set (step := λ (r : Resource.row) (o : option (nat * nat)),
         let c := default (O, O) o in
         (S c.1,
          if decide (0 < ResourcesList.aggregate_count d (Resource.id r))%nat
          then S c.2 else c.2)).
  assert (Analytics.typeCounts d = js_collect Resource.type step (resources d))
    as ->.
  { unfold Analytics.typeCounts, js_collect. apply foldl_pointwise.
    intros m r. apply count_resource_step. }
  set (m := js_collect _ _ _). repeat split.
  - rewrite sum_list_with_fmap.
    rewrite <- (sum_list_with_ones (resources d)).
    apply (js_collect_weight Resource.type step fst (λ _, 1%nat)).
    intros r [c|]; simpl; lia.
  - rewrite sum_list_with_fmap.
    rewrite <- (sum_list_with_indicator
                  (λ r, 0 < ResourcesList.aggregate_count d (Resource.id r))%nat).
    apply (js_collect_weight Resource.type step snd).
    intros r [c|]; simpl; destruct (decide _); simpl; lia.
  - rewrite <- list_fmap_compose.
    change (NoDup ((resource_type_label ∘ fst) <$> m)).
    rewrite (list_fmap_compose fst).
    apply NoDup_fmap_2; [apply _|]. apply js_collect_NoDup.
  - intros name total active idle Hin.
    apply list_elem_of_fmap in Hin as ([t [c1 c2]] & [= -> -> -> ->] & Hin).
    simpl. exists t. split; [reflexivity|].
    apply js_get_elem_of in Hin; [|apply js_collect_NoDup].
    unfold m in Hin. rewrite js_get_collect in Hin.
    destruct (filter (λ r, Resource.type r = t) (resources d)) as [|r l] eqn:E;
      [discriminate|].
    simpl foldl in Hin. unfold step at 2 in Hin. simpl in Hin.
    fold step in Hin. unfold step in Hin. rewrite type_count_fold in Hin.
    injection Hin as <- <-. rewrite filter_cons. simpl.
    pose proof (length_filter
                  (λ r, 0 < ResourcesList.aggregate_count d (Resource.id r))%nat
                  l).
    destruct (decide _); simpl; repeat split; lia.
Qed.

#[global] Instance by_key_total : Total Analytics.by_key.
Proof. intros a b. unfold Analytics.by_key. lia. Qed.

#[global] Instance by_key_trans : Transitive Analytics.by_key.
Proof. intros a b c. unfold Analytics.by_key. lia. Qed.

Lemma entries_Permutation m : Analytics.entries m ≡ₚ m.
Proof.
  unfold Analytics.entries. rewrite merge_sort_Permutation.
  apply filter_app_complement.
Qed.

Lemma priorityEntries_Permutation d :
  Analytics.priorityEntries d ≡ₚ Analytics.priorityCounts d.
Proof.
  unfold Analytics.priorityEntries.
  rewrite merge_sort_Permutation. apply entries_Permutation.
Qed.

Lemma by_key_strict (l : list (Z * nat)) :
  StronglySorted Analytics.by_key l → NoDup l.*1 →
  StronglySorted (λ a b, a.1 < b.1) l.
Proof.
  induction 1 as [|x l Hl IH Hx]; intros Hnd; constructor.
  - apply IH. rewrite fmap_cons in Hnd. apply NoDup_cons in Hnd. apply Hnd.
  - rewrite fmap_cons in Hnd. apply NoDup_cons in Hnd as [Hk _].
    rewrite Forall_forall in *. intros y Hy. specialize (Hx y Hy).
    unfold Analytics.by_key in Hx.
    destruct (decide (x.1 = y.1)) as [Heq|Hne]; [|lia].
    exfalso. apply Hk. rewrite Heq. apply list_elem_of_fmap_2, Hy.
Qed.

#[global] Instance priority_name_inj :
  Inj (=) (=) (λ p : Z, "Priority " +:+ pretty p).
Proof. intros p1 p2 H. apply (inj (String.app "Priority ")) in H.
       apply (inj pretty) in H. exact H. Qed.

(** X14.  The priority bars come in order and add up.  The entries behind
    [priorityData] ascend strictly by priority, whatever order the keys of
    the counting object came in; each stands for a priority at least one
    order has and counts the orders of that priority; the bars are named
    [Priority p], no two alike, and their values add up to [totalOrders]. *)
Theorem priorityData_bars (d : db) :
  StronglySorted (λ a b, a.1 < b.1) (Analytics.priorityEntries d)
  ∧ (∀ p c, (p, c) ∈ Analytics.priorityEntries d →
            c = length (filter (λ o, ProductionOrder.priority o = p)
                          (production_orders d))
            ∧ (0 < c)%nat
            ∧ ("Priority " +:+ pretty p, c) ∈ Analytics.priorityData d)
  ∧ length (Analytics.priorityData d) = length (Analytics.priorityEntries d)
  ∧ NoDup (Analytics.priorityData d).*1
  ∧ sum_list (Analytics.priorityData d).*2 = Analytics.totalOrders d.
Proof.
  pose proof (priorityEntries_Permutation d) as Hp.
  assert (NoDup (Analytics.priorityCounts d).*1) as Hnd
    by exact (js_collect_NoDup ProductionOrder.priority
                (λ _ o, (js_or_zero o + 1)%nat) (production_orders d)).
  assert (NoDup (Analytics.priorityEntries d).*1) as Hnd'
    by (rewrite Hp; exact Hnd).
  split; [|split; [|split; [|split]]].
  - apply by_key_strict; [|exact Hnd'].
    apply StronglySorted_merge_sort; apply _.
  - intros p c Hin. pose proof Hin as Hin'. rewrite Hp in Hin'.
    destruct (counts_entries ProductionOrder.priority (production_orders d)
                p c Hin') as [Hc Hpos].
    split; [exact Hc|]. split; [exact Hpos|].
    unfold Analytics.priorityData.
    apply (list_elem_of_fmap_2 (λ kv, ("Priority " +:+ pretty kv.1, kv.2))) in Hin.
    exact Hin.
  - unfold Analytics.priorityData. apply length_fmap.
  - unfold Analytics.priorityData. rewrite <- list_fmap_compose.
    change (NoDup (((λ p : Z, "Priority " +:+ pretty p) ∘ fst)
                     <$> Analytics.priorityEntries d)).
    rewrite (list_fmap_compose fst).
    apply NoDup_fmap_2; [apply _ | exact Hnd'].
  - unfold Analytics.priorityData, Analytics.totalOrders.
    rewrite <- list_fmap_compose.
    change (sum_list (Analytics.priorityEntries d).*2
            = length (production_orders d)).
    rewrite Hp. exact (counts_total ProductionOrder.priority (production_orders d)).
Qed.

Lemma status_partition (l : list Resource.row) :
  (length (filter (λ r, Resource.status r = available) l)
   + length (filter (λ r, Resource.status r = in_use) l)
   + length (filter (λ r, Resource.status r = maintenance) l)
   + length (filter (λ r, Resource.status r = unavailable) l)
   = length l)%nat.
Proof.
  induction l as [|r l IH]; [reflexivity|].
  rewrite !filter_cons.
  destruct (Resource.status r); simpl;
    repeat (destruct (decide _); try discriminate); simpl; lia.
Qed.

(** X15.  The status cards account for every resource: the summary shows
    the four statuses in the order available, in use, maintenance,
    unavailable, each with the number of resources in it, and the four
    numbers add up to [totalResources]. *)
Theorem statusSummary_total (d : db) :
  (Analytics.statusSummary d).*1 = [available; in_use; maintenance; unavailable]
  ∧ (∀ s n, (s, n) ∈ Analytics.statusSummary d →
            n = length (filter (λ r, Resource.status r = s) (resources d)))
  ∧ sum_list (Analytics.statusSummary d).*2 = Analytics.totalResources d.
Proof.
  unfold Analytics.statusSummary, Analytics.totalResources.
  split; [reflexivity|]. split.
  - intros s n Hin. apply list_elem_of_fmap in Hin as (s' & [= -> ->] & _).
    reflexivity.
  - simpl. pose proof (status_partition (resources d)). lia.
Qed.

(** ** The resource cards *)

Lemma group_step m r :
  ResourcesList.group m r
  = js_set (Resource.type r)
      ((λ r o, default [] o ++ [r]) r (js_get (Resource.type r) m)) m.
Proof.
  unfold ResourcesList.group. simpl.
  destruct (js_get (Resource.type r) m) as [g|] eqn:E.
  - rewrite E. reflexivity.
  - rewrite js_get_set, decide_True by reflexivity. simpl.
    apply js_set_set.
Qed.

Lemma group_fold (l : list Resource.row) (o : option (list Resource.row)) :
  foldl (λ o r, Some (default [] o ++ [r])) o l
  = match l with
    | [] => o
    | _ => Some (default [] o ++ l)
    end.
Proof.
  revert o. induction l as [|r l IH]; intros o; [reflexivity|].
  simpl foldl. rewrite IH. destruct l; simpl; [reflexivity|].
  rewrite <- app_assoc. reflexivity.
Qed.

Lemma filter_matches {A} `{EqDecision A} (a : option A) (x : A) :
  ¬ (a ≠ None ∧ Some x ≠ a) ↔ a = None ∨ a = Some x.
Proof.
  destruct a as [y|].
  - destruct (decide (y = x)) as [->|Hne].
    + split; [auto | intros _ [_ Hc]; congruence].
    + split.
      * intros Hn. exfalso. apply Hn. split; congruence.
      * intros [Hc|Hc]; congruence.
  - split; [auto | intros _ [Hc _]; congruence].
Qed.

Lemma passes_spec tf sf r :
  ResourcesList.passes tf sf r = true
  ↔ (tf = None ∨ tf = Some (Resource.type r))
    ∧ (sf = None ∨ sf = Some (Resource.status r)).
Proof.
  rewrite <- !filter_matches. unfold ResourcesList.passes.
  destruct (bool_decide (tf ≠ None ∧ _)) eqn:E1.
  - apply bool_decide_eq_true in E1. split; [discriminate | tauto].
  - apply bool_decide_eq_false in E1.
    destruct (bool_decide (sf ≠ None ∧ _)) eqn:E2.
    + apply bool_decide_eq_true in E2. split; [discriminate | tauto].
    + apply bool_decide_eq_false in E2. tauto.
Qed.

(** X16.  The grouped resource cards show each filtered resource once,
    under its type.  A resource passes [filteredResources] exactly when it
    matches the type filter and the status filter (['all'] matching
    everything).  [groupedResources] then has one group per type that
    occurs, never an empty one; a group holds the filtered resources of its
    type in their order; every filtered resource is in the group of its
    type; and the group sizes add up to the number of filtered resources. *)
Theorem groupedResources_groups (typeFilter : option resource_type)
    (statusFilter : option resource_status) (rs : list Resource.row) :
  let shown := ResourcesList.filteredResources typeFilter statusFilter rs in
  let grouped := ResourcesList.groupedResources shown in
  (∀ r, r ∈ shown ↔
        r ∈ rs
        ∧ (typeFilter = None ∨ typeFilter = Some (Resource.type r))
        ∧ (statusFilter = None ∨ statusFilter = Some (Resource.status r)))
  ∧ NoDup grouped.*1
  ∧ (∀ t g, (t, g) ∈ grouped →
            g = filter (λ r, Resource.type r = t) shown ∧ g ≠ [])
  ∧ (∀ r, r ∈ shown → ∃ g, (Resource.type r, g) ∈ grouped ∧ r ∈ g)
  ∧ sum_list_with (λ tg, length tg.2) grouped = length shown.
Proof.
  intros shown grouped.
  assert (grouped = js_collect Resource.type (λ r o, default [] o ++ [r]) shown)
    as Hg.
  { unfold grouped, ResourcesList.groupedResources, js_collect.
    apply foldl_pointwise. intros m r. apply group_step. }
  assert (∀ t, js_get t grouped
               = match filter (λ r, Resource.type r = t) shown with
                 | [] => None
                 | g => Some g
                 end) as Hget.
  { intros t. rewrite Hg, js_get_collect, group_fold.
    destruct (filter _ shown); reflexivity. }
  split; [|split; [|split; [|split]]].
  - intros r. unfold shown, ResourcesList.filteredResources.
    rewrite list_elem_of_filter, passes_spec. tauto.
  - rewrite Hg. apply js_collect_NoDup.
  - intros t g Hin. apply js_get_elem_of in Hin;
      [|rewrite Hg; apply js_collect_NoDup].
    rewrite Hget in Hin.
    destruct (filter _ shown) as [|x l]; [discriminate|].
    injection Hin as <-. split; [reflexivity | discriminate].
  - intros r Hr. exists (filter (λ r', Resource.type r' = Resource.type r) shown).
    assert (r ∈ filter (λ r', Resource.type r' = Resource.type r) shown) as Hin
      by (apply list_elem_of_filter; auto).
    split; [|exact Hin]. apply js_get_Some. rewrite Hget.
    destruct (filter _ shown); [apply elem_of_nil in Hin as [] | reflexivity].
  - rewrite Hg.
    rewrite (js_collect_weight Resource.type _ length (λ _, 1%nat)).
    + apply sum_list_with_ones.
    + intros r [g|]; simpl; [rewrite length_app; simpl; lia | reflexivity].
Qed.

(** ** The order list *)

#[global] Instance listed_before_total : Total OrdersList.listed_before.
Proof.
  intros o1 o2. unfold OrdersList.listed_before.
  destruct (Z.lt_trichotomy (ProductionOrder.priority o1)
              (ProductionOrder.priority o2)) as [Hlt | [Heq | Hgt]];
    [auto | | auto].
  destruct (ProductionOrder.scheduled_start o1) as [a|],
           (ProductionOrder.scheduled_start o2) as [b|]; simpl.
  - destruct (Z.le_ge_cases a b); [left | right]; right; split; auto; lia.
  - left. right. auto.
  - right. right. auto.
  - left. right. auto.
Qed.

#[global] Instance listed_before_trans : Transitive OrdersList.listed_before.
Proof.
  intros o1 o2 o3. unfold OrdersList.listed_before.
  intros [H12 | [E12 S12]] [H23 | [E23 S23]]; [left; lia.. |].
  right. split; [congruence|].
  destruct (ProductionOrder.scheduled_start o1),
           (ProductionOrder.scheduled_start o2),
           (ProductionOrder.scheduled_start o3); simpl in *; try tauto; lia.
Qed.



(** A status-only update of a stored order goes through. *)
Lemma update_only_status_Ok now eid pk s d OLD :
  consistent d →
  production_orders_by_pk d pk = Some OLD →
  eid ∉ event_ids d →
  ∃ NEW d',
    update_production_orders_by_pk now eid pk
      (production_orders_set_input.only_status s) d = Ok (d', Some NEW)
    ∧ ProductionOrder.status NEW = s.
Proof.
  intros Hc Hpk Hev.
  unfold update_production_orders_by_pk. rewrite Hpk.
  destruct (stored_order_checks _ _ _ Hc Hpk) as [Hq Hp].
  destruct (stored_order_id _ _ _ Hpk) as [Hid Hin].
  unfold apply_set. simpl.
  unfold quantity_check, priority_check in *. simpl. rewrite Hq, Hp. simpl.
  clear Hq Hp.
  rewrite bool_decide_eq_true_2
    by (eapply order_number_free_stored; eassumption).
  simpl. unfold log_order_status_change. simpl.
  destruct (decide (ProductionOrder.status OLD = s)) as [Heq|Hne].
  { rewrite bool_decide_eq_false_2 by (intros [_ ?]; contradiction).
    eexists _, _. split; reflexivity. }
  rewrite bool_decide_eq_true_2 by auto.
  unfold insert_order_events. simpl.
  rewrite (bool_decide_eq_true_2 (eid ∉ _)) by exact Hev. simpl.
  rewrite bool_decide_eq_true_2; [eexists _, _; split; reflexivity|].
  unfold order_ids. simpl. rewrite keys_replace by exact Hid.
  rewrite Hid. exact Hin.
Qed.

(** A click that changes the status: the order is stored with the new
    status, and the one event of the change is logged. *)
Lemma status_click now eid pk s d OLD :
  consistent d →
  production_orders_by_pk d pk = Some OLD →
  eid ∉ event_ids d →
  s ≠ ProductionOrder.status OLD →
  ∃ NEW,
    production_orders_by_pk (OrdersList.handleStatusChange now eid pk s d) pk
    = Some NEW
    ∧ ProductionOrder.status NEW = s
    ∧ order_events (OrdersList.handleStatusChange now eid pk s d)
      = order_events d ++ [logged_event now eid OLD NEW]
    ∧ event_ids (OrdersList.handleStatusChange now eid pk s d)
      = event_ids d ++ [eid]
    ∧ consistent (OrdersList.handleStatusChange now eid pk s d).
Proof.
  intros Hc Hpk Hev Hne.
  destruct (update_only_status_Ok now eid pk s d OLD Hc Hpk Hev)
    as (NEW & d' & H & Hs).
  unfold OrdersList.handleStatusChange. rewrite H. simpl.
  pose proof (update_production_orders_by_pk_stored _ _ _ _ _ _ _ _ Hpk H)
    as (_ & Hget & _).
  pose proof (update_production_orders_by_pk_consistent _ _ _ _ _ _ _ Hc H)
    as Hc'.
  apply update_production_orders_by_pk_inv in H
    as (OLD' & NEW0 & Hpk' & _ & _ & Hlog).
  assert (OLD' = OLD) as -> by congruence.
  apply log_order_status_change_row in Hlog; [|congruence]. subst d'.
  exists NEW. split; [exact Hget|]. split; [exact Hs|].
  split; [reflexivity|]. split; [|exact Hc'].
  unfold event_ids. simpl. rewrite fmap_app. reflexivity.
Qed.

(** X18.  A quick action does what its button says, once.  An order shows
    at most one quick action, never one that cancels it or sends it back to
    pending, and none once it is completed or cancelled.  Pressing the
    action of a stored order (in a database that meets its constraints,
    the event identifier drawn being unused) leaves the order in the status
    of the button, which differs from the one it had, and adds exactly one
    event to the log, recording that change. *)
Theorem quick_status_action_click
    (now : timestamptz) (event_id pk : uuid) (action : order_status) (d : db)
    (o : ProductionOrder.row) :
  consistent d →
  production_orders_by_pk d pk = Some o →
  event_id ∉ event_ids d →
  action ∈ OrdersList.quick_status_actions (ProductionOrder.status o) →
  OrdersList.quick_status_actions (ProductionOrder.status o) = [action]
  ∧ action ≠ ProductionOrder.status o
  ∧ action ≠ cancelled ∧ action ≠ pending
  ∧ terminal (ProductionOrder.status o) = false
  ∧ ∃ NEW,
      production_orders_by_pk
        (OrdersList.handleStatusChange now event_id pk action d) pk = Some NEW
      ∧ ProductionOrder.status NEW = action
      ∧ order_events (OrdersList.handleStatusChange now event_id pk action d)
        = order_events d ++ [logged_event now event_id o NEW].
Proof.
  intros Hc Hpk Hev Hin.
  assert (OrdersList.quick_status_actions (ProductionOrder.status o) = [action]
          ∧ action ≠ ProductionOrder.status o
          ∧ action ≠ cancelled ∧ action ≠ pending
          ∧ terminal (ProductionOrder.status o) = false) as Hpure.
  { revert Hin. unfold OrdersList.quick_status_actions.
    destruct (ProductionOrder.status o); simpl; intros Hin;
      repeat (apply elem_of_cons in Hin as [->|Hin]);
      try (apply elem_of_nil in Hin as []); repeat split; discriminate. }
  destruct Hpure as (H1 & H2 & H3 & H4 & H5).
  repeat (split; [assumption|]).
  destruct (status_click now event_id pk action d o Hc Hpk Hev H2)
    as (NEW & Hget & Hs & Hlog & _).
  exists NEW. auto.
Qed.

Lemma quick_status_action_click_witness :
  ∃ o,
    production_orders_by_pk sample_db 10 = Some o
    ∧ OrdersList.quick_status_actions (ProductionOrder.status o) = [in_progress]
    ∧ in_progress ≠ ProductionOrder.status o
    ∧ in_progress ≠ cancelled ∧ in_progress ≠ pending
    ∧ terminal (ProductionOrder.status o) = false
    ∧ ∃ NEW,
        production_orders_by_pk
          (OrdersList.handleStatusChange 9 40 10 in_progress sample_db) 10
        = Some NEW
        ∧ ProductionOrder.status NEW = in_progress
        ∧ order_events
            (OrdersList.handleStatusChange 9 40 10 in_progress sample_db)
          = order_events sample_db ++ [logged_event 9 40 o NEW].
Proof.
  eexists. split; [vm_compute; reflexivity|].
  eapply (quick_status_action_click 9 40 10 in_progress sample_db).
  - exact sample_db_consistent.
  - vm_compute. reflexivity.
  - by_computation.
  - by_computation.
Defined.

(** X19.  Three quick actions take an order from pending to completed.
    Pressing [Schedule], [Start] and [Complete] in turn on a stored pending
    order, each press drawing an event identifier not used before, leaves
    the order completed, with no quick action left, and adds three events to
    the log, in this order: pending to scheduled, scheduled to in progress,
    in progress to completed. *)
Theorem quick_status_actions_lifecycle
    (t1 t2 t3 : timestamptz) (e1 e2 e3 pk : uuid) (d : db)
    (o : ProductionOrder.row) :
  consistent d →
  production_orders_by_pk d pk = Some o →
  ProductionOrder.status o = pending →
  NoDup [e1; e2; e3] →
  e1 ∉ event_ids d → e2 ∉ event_ids d → e3 ∉ event_ids d →
  let d1 := OrdersList.handleStatusChange t1 e1 pk scheduled d in
  let d2 := OrdersList.handleStatusChange t2 e2 pk in_progress d1 in
  let d3 := OrdersList.handleStatusChange t3 e3 pk completed d2 in
  ∃ o1 o2 o3,
    production_orders_by_pk d1 pk = Some o1
    ∧ OrdersList.quick_status_actions (ProductionOrder.status o1) = [in_progress]
    ∧ production_orders_by_pk d2 pk = Some o2
    ∧ OrdersList.quick_status_actions (ProductionOrder.status o2) = [completed]
    ∧ production_orders_by_pk d3 pk = Some o3
    ∧ ProductionOrder.status o3 = completed
    ∧ OrdersList.quick_status_actions (ProductionOrder.status o3) = []
    ∧ order_events d3
      = order_events d
        ++ [logged_event t1 e1 o o1; logged_event t2 e2 o1 o2;
            logged_event t3 e3 o2 o3]
    ∧ (OrderEvent.old_status <$> [logged_event t1 e1 o o1;
                                  logged_event t2 e2 o1 o2;
                                  logged_event t3 e3 o2 o3])
      = [Some pending; Some scheduled; Some in_progress].
Proof.
  intros Hc Hpk Hst Hnd H1 H2 H3 d1 d2 d3.
  apply NoDup_cons in Hnd as [H12 Hnd]. apply NoDup_cons in Hnd as [H23 _].
  rewrite not_elem_of_cons in H12. destruct H12 as [H12 H13].
  rewrite not_elem_of_cons in H13. destruct H13 as [H13 _].
  rewrite not_elem_of_cons in H23. destruct H23 as [H23 _].
  destruct (status_click t1 e1 pk scheduled d o Hc Hpk H1)
    as (o1 & Hg1 & Hs1 & Hl1 & Hi1 & Hc1); [rewrite Hst; discriminate|].
  fold d1 in Hg1, Hl1, Hi1, Hc1.
  destruct (status_click t2 e2 pk in_progress d1 o1 Hc1 Hg1)
    as (o2 & Hg2 & Hs2 & Hl2 & Hi2 & Hc2).
  { rewrite Hi1. intros Hin. apply elem_of_app in Hin as [Hin|Hin];
      [contradiction|]. apply list_elem_of_singleton in Hin. congruence. }
  { rewrite Hs1. discriminate. }
  fold d2 in Hg2, Hl2, Hi2, Hc2.
  destruct (status_click t3 e3 pk completed d2 o2 Hc2 Hg2)
    as (o3 & Hg3 & Hs3 & Hl3 & _).
  { rewrite Hi2, Hi1. intros Hin.
    apply elem_of_app in Hin as [Hin|Hin].
    - apply elem_of_app in Hin as [Hin|Hin]; [contradiction|].
      apply list_elem_of_singleton in Hin. congruence.
    - apply list_elem_of_singleton in Hin. congruence. }
  { rewrite Hs2. discriminate. }
  fold d3 in Hg3, Hl3.
  exists o1, o2, o3. rewrite Hs1, Hs2, Hs3.
  repeat (split; [first [assumption | reflexivity]|]).
  split.
  - rewrite Hl3, Hl2, Hl1, <- !app_assoc. reflexivity.
  - simpl. rewrite Hst, Hs1, Hs2. reflexivity.
Qed.

Lemma quick_status_actions_lifecycle_witness :
  ∃ o o1 o2 o3,
    production_orders_by_pk sample_db 11 = Some o
    ∧ let d1 := OrdersList.handleStatusChange 1 40 11 scheduled sample_db in
      let d2 := OrdersList.handleStatusChange 2 41 11 in_progress d1 in
      let d3 := OrdersList.handleStatusChange 3 42 11 completed d2 in
      production_orders_by_pk d1 11 = Some o1
      ∧ OrdersList.quick_status_actions (ProductionOrder.status o1)
        = [in_progress]
      ∧ production_orders_by_pk d2 11 = Some o2
      ∧ OrdersList.quick_status_actions (ProductionOrder.status o2)
        = [completed]
      ∧ production_orders_by_pk d3 11 = Some o3
      ∧ ProductionOrder.status o3 = completed
      ∧ OrdersList.quick_status_actions (ProductionOrder.status o3) = []
      ∧ order_events d3
        = order_events sample_db
          ++ [logged_event 1 40 o o1; logged_event 2 41 o1 o2;
              logged_event 3 42 o2 o3]
      ∧ (OrderEvent.old_status <$> [logged_event 1 40 o o1;
                                    logged_event 2 41 o1 o2;
                                    logged_event 3 42 o2 o3])
        = [Some pending; Some scheduled; Some in_progress].
Proof.
  destruct (production_orders_by_pk sample_db 11) as [o|] eqn:Ho;
    [|vm_compute in Ho; discriminate].
  destruct (quick_status_actions_lifecycle 1 2 3 40 41 42 11 sample_db o)
    as (o1 & o2 & o3 & H).
  - exact sample_db_consistent.
  - exact Ho.
  - vm_compute in Ho. injection Ho as <-. reflexivity.
  - by_computation.
  - by_computation.
  - by_computation.
  - by_computation.
  - exists o, o1, o2, o3. split; [reflexivity | exact H].
Defined.

(** X20.  A resource card offers available and maintenance, and nothing
    else.  Whatever the status [s] of a resource, the actions of its card
    are exactly those of the two statuses available and maintenance that
    differ from [s], each once: so never [s] itself, never [in_use] nor
    [unavailable], and always at least one.  Pressing one on a stored
    resource leaves the resource in the status of the button with
    [updated_at] set and every other column as it was, takes that button
    off the card, and changes no allocation, no order and no event. *)
Theorem resource_quick_status_action_click
    (now : timestamptz) (pk : uuid) (action : resource_status) (d : db)
    (r : Resource.row) :
  resources_by_pk d pk = Some r →
  action ∈ ResourcesList.quick_status_actions (Resource.status r) →
  action ≠ Resource.status r
  ∧ (action = available ∨ action = maintenance)
  ∧ (action ∉ ResourcesList.quick_status_actions action)
  ∧ ResourcesList.quick_status_actions action ≠ []
  ∧ (∀ s, ResourcesList.quick_status_actions s ≠ []
          ∧ NoDup (ResourcesList.quick_status_actions s))
  ∧ (∀ s a, a ∈ ResourcesList.quick_status_actions s ↔
            (a = available ∨ a = maintenance) ∧ a ≠ s)
  ∧ resource_allocations (ResourcesList.handleStatusChange now pk action d)
    = resource_allocations d
  ∧ production_orders (ResourcesList.handleStatusChange now pk action d)
    = production_orders d
  ∧ order_events (ResourcesList.handleStatusChange now pk action d)
    = order_events d
  ∧ ∃ r',
      resources_by_pk (ResourcesList.handleStatusChange now pk action d) pk
      = Some r'
      ∧ Resource.status r' = action
      ∧ Resource.updated_at r' = now
      ∧ Resource.name r' = Resource.name r
      ∧ Resource.capacity r' = Resource.capacity r
      ∧ Resource.id r' = Resource.id r
      ∧ Resource.type r' = Resource.type r
      ∧ Resource.hourly_cost r' = Resource.hourly_cost r
      ∧ Resource.description r' = Resource.description r
      ∧ Resource.created_at r' = Resource.created_at r.
Proof.
  intros Hpk Hin.
  assert (action ≠ Resource.status r
          ∧ (action = available ∨ action = maintenance)
          ∧ (action ∉ ResourcesList.quick_status_actions action)
          ∧ ResourcesList.quick_status_actions action ≠ []) as Hpure.
  { revert Hin. unfold ResourcesList.quick_status_actions.
    destruct (Resource.status r); simpl; intros Hin;
      repeat (apply elem_of_cons in Hin as [->|Hin]);
      try (apply elem_of_nil in Hin as []);
      (split; [discriminate|]); (split; [auto|]);
      (split; [|discriminate]); simpl;
      rewrite not_elem_of_cons; (split; [discriminate | apply not_elem_of_nil]). }
  destruct Hpure as (H1 & H2 & H3 & H4).
  repeat (split; [assumption|]).
  split; [intros s; destruct s; by_computation|].
  split; [intros s a; destruct s, a; by_computation|].
  unfold ResourcesList.handleStatusChange, update_resources_by_pk.
  rewrite Hpk. simpl. repeat (split; [reflexivity|]).
  eexists. split.
  - unfold resources_by_pk in *. simpl.
    eapply by_pk_replace; [exact Hpk|]. simpl.
    apply by_pk_Some in Hpk as [Hid _]. exact Hid.
  - simpl. auto 10.
Qed.

Lemma resource_quick_status_action_click_witness :
  ∃ r,
    resources_by_pk busy_db 1 = Some r
    ∧ maintenance ≠ Resource.status r
    ∧ (maintenance = available ∨ maintenance = maintenance)
    ∧ (maintenance ∉ ResourcesList.quick_status_actions maintenance)
    ∧ ResourcesList.quick_status_actions maintenance ≠ []
    ∧ (∀ s, ResourcesList.quick_status_actions s ≠ []
            ∧ NoDup (ResourcesList.quick_status_actions s))
    ∧ (∀ s a, a ∈ ResourcesList.quick_status_actions s ↔
              (a = available ∨ a = maintenance) ∧ a ≠ s)
    ∧ resource_allocations
        (ResourcesList.handleStatusChange 4 1 maintenance busy_db)
      = resource_allocations busy_db
    ∧ production_orders
        (ResourcesList.handleStatusChange 4 1 maintenance busy_db)
      = production_orders busy_db
    ∧ order_events (ResourcesList.handleStatusChange 4 1 maintenance busy_db)
      = order_events busy_db
    ∧ ∃ r',
        resources_by_pk
          (ResourcesList.handleStatusChange 4 1 maintenance busy_db) 1
        = Some r'
        ∧ Resource.status r' = maintenance
        ∧ Resource.updated_at r' = 4
        ∧ Resource.name r' = Resource.name r
        ∧ Resource.capacity r' = Resource.capacity r
        ∧ Resource.id r' = Resource.id r
        ∧ Resource.type r' = Resource.type r
        ∧ Resource.hourly_cost r' = Resource.hourly_cost r
        ∧ Resource.description r' = Resource.description r
        ∧ Resource.created_at r' = Resource.created_at r.
Proof.
  eexists. split; [vm_compute; reflexivity|].
  eapply (resource_quick_status_action_click 4 1 maintenance busy_db).
  - vm_compute. reflexivity.
  - by_computation.
Defined.

(** ** The dashboard *)

Lemma session_snoc actions a st :
  Dashboard.session (actions ++ [a]) st
  = Dashboard.session actions st ≫= Dashboard.handle a.
Proof.
  revert st. induction actions as [|b actions IH]; intros st; simpl.
  - destruct (Dashboard.handle a st); reflexivity.
  - destruct (Dashboard.handle b st) as [st'|]; simpl; [apply IH | reflexivity].
Qed.

(** X21.  The details sidebar and the narrow main column go together.
    In every state the dashboard can reach from its start by tab presses,
    order selections and closes, an order is selected only under the orders
    tab; so the sidebar is on screen exactly when the main column is two
    columns wide.  Every tab press, also on the tab already shown, clears
    the selection. *)
Theorem dashboard_sidebar (actions : list Dashboard.action)
    (st : Dashboard.state) :
  Dashboard.session actions Dashboard.initial = Some st →
  (is_Some (Dashboard.selectedOrderId st) →
   Dashboard.activeTab st = Dashboard.orders)
  ∧ (Dashboard.sidebar_shown st = true ↔ Dashboard.main_columns st = 2%nat)
  ∧ (Dashboard.sidebar_shown st = false ↔ Dashboard.main_columns st = 3%nat)
  ∧ ∀ tab st',
      Dashboard.handle (Dashboard.press_tab tab) st = Some st' →
      Dashboard.activeTab st' = tab
      ∧ Dashboard.selectedOrderId st' = None
      ∧ Dashboard.sidebar_shown st' = false.
Proof.
  intros Hrun.
  assert (is_Some (Dashboard.selectedOrderId st) →
          Dashboard.activeTab st = Dashboard.orders) as Hinv.
  { revert st Hrun. induction actions as [|a actions IH] using rev_ind;
      intros st Hrun.
    - injection Hrun as <-. simpl. intros [x Hx]. discriminate.
    - rewrite session_snoc in Hrun.
      destruct (Dashboard.session actions Dashboard.initial) as [st0|];
        [|discriminate]. simpl in Hrun. specialize (IH st0 eq_refl).
      destruct a as [tab|orderId|]; simpl in Hrun.
      + injection Hrun as <-. simpl. intros [x Hx]. discriminate.
      + unfold Dashboard.orders_list_shown in Hrun.
        case_bool_decide as Htab; [|discriminate].
        injection Hrun as <-. simpl. intros _. exact Htab.
      + destruct (Dashboard.sidebar_shown st0); [|discriminate].
        injection Hrun as <-. simpl. intros [x Hx]. discriminate. }
  split; [exact Hinv|].
  assert (Dashboard.sidebar_shown st
          = bool_decide (is_Some (Dashboard.selectedOrderId st))) as Hside.
  { unfold Dashboard.sidebar_shown.
    destruct (decide (is_Some (Dashboard.selectedOrderId st))) as [Hs|Hs].
    - rewrite !bool_decide_eq_true_2; auto.
    - rewrite !bool_decide_eq_false_2; tauto. }
  rewrite Hside. unfold Dashboard.main_columns.
  split; [|split].
  - destruct (Dashboard.selectedOrderId st) as [id|].
    + rewrite bool_decide_eq_true_2 by eauto. tauto.
    + rewrite bool_decide_eq_false_2 by (intros [x Hx]; discriminate).
      split; discriminate.
  - destruct (Dashboard.selectedOrderId st) as [id|].
    + rewrite bool_decide_eq_true_2 by eauto. split; discriminate.
    + rewrite bool_decide_eq_false_2 by (intros [x Hx]; discriminate). tauto.
  - intros tab st' [= <-]. simpl. split; [reflexivity|].
    split; reflexivity.
Qed.

Lemma dashboard_sidebar_witness :
  ∃ st,
    Dashboard.session
      [Dashboard.onSelectOrder 3; Dashboard.press_tab Dashboard.analytics;
       Dashboard.press_tab Dashboard.orders; Dashboard.onSelectOrder 5]
      Dashboard.initial = Some st
    ∧ (is_Some (Dashboard.selectedOrderId st) →
       Dashboard.activeTab st = Dashboard.orders)
    ∧ (Dashboard.sidebar_shown st = true ↔ Dashboard.main_columns st = 2%nat)
    ∧ (Dashboard.sidebar_shown st = false ↔ Dashboard.main_columns st = 3%nat)
    ∧ ∀ tab st',
        Dashboard.handle (Dashboard.press_tab tab) st = Some st' →
        Dashboard.activeTab st' = tab
        ∧ Dashboard.selectedOrderId st' = None
        ∧ Dashboard.sidebar_shown st' = false.
Proof.
  eexists. split; [vm_compute; reflexivity|].
  apply (dashboard_sidebar
           [Dashboard.onSelectOrder 3; Dashboard.press_tab Dashboard.analytics;
            Dashboard.press_tab Dashboard.orders; Dashboard.onSelectOrder 5]).
  vm_compute. reflexivity.
Defined.

(** ** New resources, repeated orders, counted allocations *)

(** X22.  A new resource starts available and idle.  In a database that
    meets its constraints, an insert into [resources] that names no status,
    with a name of at most 255 characters, capacity and hourly cost within
    [DECIMAL(10,2)] and an unused identifier, succeeds; the resource is then
    found under its key, available, with [created_at] equal to
    [updated_at], and its card shows no allocation: count 0, sum [null],
    allocated quantity 0, on the row of the query and on the row of the
    subscription alike. *)
Theorem insert_resources_then_get
    (now : timestamptz) (new_id : uuid) (name : string) (type : resource_type)
    (capacity hourly_cost : option decimal) (description : option string)
    (d : db) :
  consistent d →
  (String.length name ≤ 255)%nat →
  from_option in_decimal_10_2 True capacity →
  from_option in_decimal_10_2 True hourly_cost →
  new_id ∉ resource_ids d →
  ∃ d' r,
    insert_resources now new_id name type None capacity hourly_cost
      description d = Ok d'
    ∧ resources_by_pk d' new_id = Some r
    ∧ Resource.status r = available
    ∧ Resource.name r = name ∧ Resource.type r = type
    ∧ Resource.capacity r = capacity
    ∧ Resource.created_at r = now ∧ Resource.updated_at r = now
    ∧ ResourcesList.aggregate_count d' new_id = O
    ∧ ResourcesList.aggregate_sum d' new_id = None
    ∧ ResourcesList.allocated (ResourcesList.GET_RESOURCES d' r) = 0
    ∧ ResourcesList.allocated (ResourcesList.WATCH_RESOURCES d' r) = 0.
Proof.
  intros Hc Hn Hcap Hcost Hid. unfold insert_resources.
  rewrite (varchar_fits _ _ Hn). simpl.
  assert (∀ o, from_option in_decimal_10_2 True o →
               nullable decimal_10_2 o = Ok o) as Hnull.
  { intros [z|] Hz; simpl; [|reflexivity].
    rewrite (decimal_10_2_fits z Hz). reflexivity. }
  rewrite (Hnull _ Hcap), (Hnull _ Hcost). simpl.
  rewrite bool_decide_eq_true_2 by exact Hid. simpl.
  eexists _, _. split; [reflexivity|]. split.
  { unfold resources_by_pk. simpl. apply by_pk_app_fresh; [exact Hid|].
    reflexivity. }
  simpl.
  assert (∀ rs, ResourcesList.allocations_of (with_resources rs d) new_id = [])
    as Hnone.
  { intros rs. unfold ResourcesList.allocations_of. simpl.
    destruct Hc as (_ & _ & _ & _ & _ & _ & Hfk & _).
    induction (resource_allocations d) as [|a l IH]; [reflexivity|].
    apply Forall_cons in Hfk as [[_ Ha] Hfk]. rewrite filter_cons.
    rewrite decide_False; [auto|]. intros Heq. apply Hid. rewrite <- Heq.
    exact Ha. }
  unfold ResourcesList.allocated, ResourcesList.GET_RESOURCES,
    ResourcesList.aggregate_sum, ResourcesList.aggregate_count. simpl.
  rewrite Hnone. auto 10.
Qed.

Lemma insert_resources_then_get_witness :
  ∃ d' r,
    insert_resources 7 30 "Lathe 01" machine None (Some 12000) None None
      sample_db = Ok d'
    ∧ resources_by_pk d' 30 = Some r
    ∧ Resource.status r = available
    ∧ Resource.name r = "Lathe 01"%string ∧ Resource.type r = machine
    ∧ Resource.capacity r = Some 12000
    ∧ Resource.created_at r = 7 ∧ Resource.updated_at r = 7
    ∧ ResourcesList.aggregate_count d' 30 = O
    ∧ ResourcesList.aggregate_sum d' 30 = None
    ∧ ResourcesList.allocated (ResourcesList.GET_RESOURCES d' r) = 0
    ∧ ResourcesList.allocated (ResourcesList.WATCH_RESOURCES d' r) = 0.
Proof.
  apply (insert_resources_then_get 7 30 "Lathe 01" machine (Some 12000) None
           None sample_db).
  - exact sample_db_consistent.
  - by_computation.
  - by_computation.
  - exact I.
  - by_computation.
Defined.



Lemma exec_resource_allocations_prefix now st d d' :
  exec now st d = Ok d' →
  resource_allocations d `prefix_of` resource_allocations d'.
Proof.
  intros H. destruct st; simpl in H.
  - apply insert_production_orders_Ok in H as (NEW & -> & _). reflexivity.
  - apply insert_resources_Ok in H as (NEW & -> & _). reflexivity.
  - apply insert_resource_allocations_Ok in H as (NEW & -> & _).
    simpl. apply prefix_app_r. reflexivity.
  - apply bind_Ok in H as ([d1 [NEW|]] & H & [= ->]).
    + apply update_production_orders_by_pk_inv in H
        as (OLD & NEW0 & Hpk & _ & _ & Hlog).
      apply log_order_status_change_Ok in Hlog as [[_ ->] | (_ & e & -> & _)];
        reflexivity.
    + apply update_production_orders_by_pk_Ok in H
        as [(_ & -> & _) | (? & ? & ? & _ & [=] & _)]. reflexivity.
  - apply bind_Ok in H as ([d1 r] & H & [= ->]).
    apply update_resources_by_pk_Ok in H as (_ & -> & _). reflexivity.
Qed.

(** X24.  Allocations pile up on a resource card.  A successful insert of
    an allocation raises the count on the card of its resource by one, on
    the row of the query and on the row of the subscription alike; the
    allocated figure grows by the quantity inserted on the row of the query
    and stays [0] on the row of the subscription, which carries no sum.
    The rows of every other resource are as they were.  And as none of the
    statements (inserts, updates by primary key) removes or changes an
    allocation, after any run the allocations of before are still there,
    unchanged and in place, and no count has gone down. *)
Theorem resource_figures_grow
    (now : timestamptz) (new_id order_id resource_id : uuid) (q : decimal)
    (start_time end_time : option timestamptz) (d d' : db) :
  insert_resource_allocations now new_id order_id resource_id q start_time
    end_time d = Ok d' →
  (∀ r, Resource.id r = resource_id →
        ResourcesList.count (ResourcesList.GET_RESOURCES d' r)
        = S (ResourcesList.count (ResourcesList.GET_RESOURCES d r))
        ∧ ResourcesList.count (ResourcesList.WATCH_RESOURCES d' r)
          = S (ResourcesList.count (ResourcesList.WATCH_RESOURCES d r))
        ∧ ResourcesList.allocated (ResourcesList.GET_RESOURCES d' r)
          = ResourcesList.allocated (ResourcesList.GET_RESOURCES d r) + q
        ∧ ResourcesList.allocated (ResourcesList.WATCH_RESOURCES d' r) = 0)
  ∧ (∀ r, Resource.id r ≠ resource_id →
          ResourcesList.GET_RESOURCES d' r = ResourcesList.GET_RESOURCES d r
          ∧ ResourcesList.WATCH_RESOURCES d' r
            = ResourcesList.WATCH_RESOURCES d r)
  ∧ ∀ trace r,
      resource_allocations d' `prefix_of` resource_allocations (run trace d')
      ∧ (ResourcesList.count (ResourcesList.GET_RESOURCES d' r)
         ≤ ResourcesList.count
             (ResourcesList.GET_RESOURCES (run trace d') r))%nat
      ∧ (ResourcesList.count (ResourcesList.WATCH_RESOURCES d' r)
         ≤ ResourcesList.count
             (ResourcesList.WATCH_RESOURCES (run trace d') r))%nat.
Proof.
  intros H.
  apply insert_resource_allocations_Ok in H
    as (NEW & -> & _ & _ & Hr & Hq & _).
  assert (∀ rid, ResourcesList.allocations_of
                   (with_resource_allocations (resource_allocations d ++ [NEW])
                      d) rid
                 = ResourcesList.allocations_of d rid
                   ++ (if decide (rid = resource_id) then [NEW] else []))
    as Hof.
  { intros rid. rewrite allocations_of_snoc, Hr.
    destruct (decide (resource_id = rid)), (decide (rid = resource_id));
      congruence. }
  split; [|split].
  - intros r Hid.
    assert (ResourcesList.aggregate_count
              (with_resource_allocations (resource_allocations d ++ [NEW]) d)
              (Resource.id r)
            = S (ResourcesList.aggregate_count d (Resource.id r))) as Hcount.
    { unfold ResourcesList.aggregate_count. rewrite Hof.
      rewrite decide_True by exact Hid. rewrite length_app. simpl. lia. }
    split; [exact Hcount|]. split; [exact Hcount|]. split; [|reflexivity].
    rewrite !allocated_sum, Hof. rewrite decide_True by exact Hid.
    rewrite fmap_app, sum_list_Z_app.
    change (sum_list_Z (ResourceAllocation.allocated_quantity <$> [NEW]))
      with (ResourceAllocation.allocated_quantity NEW + 0).
    rewrite Hq. lia.
  - intros r Hne.
    unfold ResourcesList.GET_RESOURCES, ResourcesList.WATCH_RESOURCES,
      ResourcesList.aggregate_count, ResourcesList.aggregate_sum.
    rewrite Hof. rewrite decide_False by exact Hne.
    rewrite app_nil_r. auto.
  - intros trace r.
    set (d1 := with_resource_allocations (resource_allocations d ++ [NEW]) d).
    assert (∀ d0, resource_allocations d0
                  `prefix_of` resource_allocations (run trace d0)) as Hpre.
    { induction trace as [|[t st] trace IH]; intros d0; simpl; [reflexivity|].
      etransitivity; [|apply IH].
      destruct (exec t st d0) as [d2|e] eqn:E; simpl; [|reflexivity].
      eapply exec_resource_allocations_prefix, E. }
    split; [apply Hpre|].
    destruct (Hpre d1) as [k Hk].
    assert (ResourcesList.aggregate_count d1 (Resource.id r)
            ≤ ResourcesList.aggregate_count (run trace d1) (Resource.id r))%nat
      as Hle.
    { unfold ResourcesList.aggregate_count, ResourcesList.allocations_of.
      rewrite Hk, filter_app, length_app. lia. }
    split; exact Hle.
Qed.

Lemma resource_figures_grow_witness :
  ∃ d',
    insert_resource_allocations 5 20 9 4 700 (Some 5) None sample_db = Ok d'
    ∧ (∀ r, Resource.id r = 4%N →
          ResourcesList.count (ResourcesList.GET_RESOURCES d' r)
          = S (ResourcesList.count (ResourcesList.GET_RESOURCES sample_db r))
          ∧ ResourcesList.count (ResourcesList.WATCH_RESOURCES d' r)
            = S (ResourcesList.count
                   (ResourcesList.WATCH_RESOURCES sample_db r))
          ∧ ResourcesList.allocated (ResourcesList.GET_RESOURCES d' r)
            = ResourcesList.allocated (ResourcesList.GET_RESOURCES sample_db r)
              + 700
          ∧ ResourcesList.allocated (ResourcesList.WATCH_RESOURCES d' r) = 0)
    ∧ (∀ r, Resource.id r ≠ 4%N →
            ResourcesList.GET_RESOURCES d' r
            = ResourcesList.GET_RESOURCES sample_db r
            ∧ ResourcesList.WATCH_RESOURCES d' r
              = ResourcesList.WATCH_RESOURCES sample_db r)
    ∧ ∀ trace r,
        resource_allocations d' `prefix_of` resource_allocations (run trace d')
        ∧ (ResourcesList.count (ResourcesList.GET_RESOURCES d' r)
           ≤ ResourcesList.count
               (ResourcesList.GET_RESOURCES (run trace d') r))%nat
        ∧ (ResourcesList.count (ResourcesList.WATCH_RESOURCES d' r)
           ≤ ResourcesList.count
               (ResourcesList.WATCH_RESOURCES (run trace d') r))%nat.
Proof.
  eexists. split; [vm_compute; reflexivity|].
  eapply (resource_figures_grow 5 20 9 4 700 (Some 5) None sample_db).
  vm_compute. reflexivity.
Defined.
